(** * ICES hour hero: attendance approval and hour accounting

    A shallow embedding of the persistence layer of the application: the
    three tables of the schema migration, their row-level-security
    policies, the [update_total_hours] trigger, and the dashboard functions
    that talk to the tables through the data API.

    Statements run in a transaction monad: a statement either commits a new
    database state and reports the number of rows it wrote, or raises an
    error, in which case the request leaves the store as it was.

    The columns [created_at] and [updated_at], and the
    [update_updated_at_column] triggers that only write them, are left out:
    no policy, constraint or accounting rule reads them.

    The column [date_time] of an event holds the text of the request as it
    is: the conversion of that text to TIMESTAMP WITH TIME ZONE is not
    modelled, nor is the error the store raises for a text that is no
    timestamp (SQLSTATE 22007). *)

From Stdlib Require Import ZArith NArith List Bool String Lia Permutation.
From ExtLib Require Import Structures.Monad Structures.MonadState Structures.MonadExc.
From ExtLib Require Import Data.Monads.StateMonad Data.Monads.EitherMonad.
Import ListNotations.
Import MonadNotation.
Local Open Scope monad_scope.
Local Open Scope string_scope.
#[local] Existing Instance Monad_stateT.

(** ** SQL values *)

Definition uuid := N.

(** [CREATE TYPE public.user_role AS ENUM ('admin', 'officer', 'member')] *)
Inductive user_role := admin | officer | member.

(** [CREATE TYPE public.attendance_status AS ENUM ('pending', 'approved', 'denied')] *)
Inductive attendance_status := pending | approved | denied.

Definition user_role_eqb (a b : user_role) : bool :=
  match a, b with
  | admin, admin | officer, officer | member, member => true
  | _, _ => false
  end.

(** The label of a role, as [role::text] and string templates print it. *)
Definition role_text (r : user_role) : string :=
  match r with
  | admin => "admin"
  | officer => "officer"
  | member => "member"
  end.

Definition attendance_status_eqb (a b : attendance_status) : bool :=
  match a, b with
  | pending, pending | approved, approved | denied, denied => true
  | _, _ => false
  end.

(** Errors a statement can raise, after the SQLSTATE classes of the store.
    Constraint errors carry the name of the violated constraint. *)
Inductive pg_error :=
| numeric_value_out_of_range                 (* 22003 *)
| not_null_violation (column : string)       (* 23502 *)
| foreign_key_violation (constraint : string) (* 23503 *)
| unique_violation (constraint : string)     (* 23505 *)
| insufficient_privilege.                    (* 42501: row-level security *)

Abbreviation result := (sum pg_error).

Module Sql.

  (** A nullable value is an [option]: [None] is NULL. Conditions are
      nullable booleans, and [WHERE], [IF], [USING] and [WITH CHECK] take a
      row only when the condition is TRUE. *)
Definition is_true (c : option bool) : bool :=
    match c with Some true => true | _ => false end.

Definition and3 (a b : option bool) : option bool :=
    match a, b with
    | Some false, _ | _, Some false => Some false
    | Some true, Some true => Some true
    | _, _ => None
    end.

Definition or3 (a b : option bool) : option bool :=
    match a, b with
    | Some true, _ | _, Some true => Some true
    | Some false, Some false => Some false
    | _, _ => None
    end.

Definition is_null {A} (x : option A) : option bool :=
    Some (match x with None => true | Some _ => false end).

Definition eq3 {A} (eqb : A -> A -> bool) (x y : option A) : option bool :=
    match x, y with
    | Some a, Some b => Some (eqb a b)
    | _, _ => None
    end.

Definition ne3 {A} (eqb : A -> A -> bool) (x y : option A) : option bool :=
    match x, y with
    | Some a, Some b => Some (negb (eqb a b))
    | _, _ => None
    end.

  (** [x IN (c1, ..., cn)] with constant, non-null list members. *)
Definition in3 {A} (eqb : A -> A -> bool) (x : option A) (l : list A) : option bool :=
    match x with
    | Some a => Some (existsb (eqb a) l)
    | None => None
    end.

  (** [INTEGER] is a signed 32-bit type whose arithmetic raises on overflow. *)
Definition int4_min : Z := -2147483648.
Definition int4_max : Z := 2147483647.

Definition in_int4 (z : Z) : bool := ((int4_min <=? z) && (z <=? int4_max))%Z.

Definition int4 (z : Z) : result Z :=
    if in_int4 z then inr z else inl numeric_value_out_of_range.

Definition int4_opt (z : option Z) : result (option Z) :=
    match z with
    | Some v => match int4 v with inl e => inl e | inr v' => inr (Some v') end
    | None => inr None
    end.

Definition int4pl (a b : option Z) : result (option Z) :=
    match a, b with
    | Some x, Some y => int4_opt (Some (x + y)%Z)
    | _, _ => inr None
    end.

Definition int4mi (a b : option Z) : result (option Z) :=
    match a, b with
    | Some x, Some y => int4_opt (Some (x - y)%Z)
    | _, _ => inr None
    end.

  (** [GREATEST(a, b)]: NULL arguments are ignored; the result is NULL only
      when every argument is. *)
Definition GREATEST (a b : option Z) : option Z :=
    match a, b with
    | Some x, Some y => Some (Z.max x y)
    | Some x, None => Some x
    | None, _ => b
    end.

End Sql.

(** ** Tables *)

Module auth.
  (** The identity table of the authentication service, as far as the
      schema refers to it: the key, the e-mail address and the
      [raw_user_meta_data->>'name'] entry. *)
Record users := mk {
    id : uuid;
    email : string;
    raw_user_meta_data_name : option string
  }.
End auth.

Module profiles.
Record row := mk {
    id : uuid;
    user_id : uuid;
    name : string;
    email : string;
    role : user_role;
    total_hours : Z
  }.

Definition with_total_hours (h : Z) (p : row) : row :=
    mk (id p) (user_id p) (name p) (email p) (role p) h.

  (** The columns an [UPDATE] may set; [None] leaves the column alone. *)
Record patch := set {
    s_id : option uuid;
    s_user_id : option uuid;
    s_name : option string;
    s_email : option string;
    s_role : option user_role;
    s_total_hours : option Z
  }.

Definition or_keep {A} (o : option A) (a : A) : A :=
    match o with Some v => v | None => a end.

Definition apply (s : patch) (p : row) : row :=
    mk (or_keep (s_id s) (id p)) (or_keep (s_user_id s) (user_id p))
       (or_keep (s_name s) (name p)) (or_keep (s_email s) (email p))
       (or_keep (s_role s) (role p)) (or_keep (s_total_hours s) (total_hours p)).

  (** The columns of an [INSERT]; [None] is a column the request omits. *)
Record values := val {
    v_id : option uuid;
    v_user_id : option uuid;
    v_name : option string;
    v_email : option string;
    v_role : option user_role;
    v_total_hours : option Z
  }.
End profiles.

Module events.
Record row := mk {
    id : uuid;
    title : string;
    date_time : string;
    location : string;
    description : option string;
    hours_value : Z;
    created_by : uuid
  }.

  (** The columns the event form writes on an edit. *)
Record patch := set {
    s_title : option string;
    s_date_time : option string;
    s_location : option string;
    s_description : option (option string);
    s_hours_value : option Z
  }.

Definition or_keep {A} (o : option A) (a : A) : A :=
    match o with Some v => v | None => a end.

Definition apply (s : patch) (e : row) : row :=
    mk (id e) (or_keep (s_title s) (title e)) (or_keep (s_date_time s) (date_time e))
       (or_keep (s_location s) (location e)) (or_keep (s_description s) (description e))
       (or_keep (s_hours_value s) (hours_value e)) (created_by e).

Record values := val {
    v_id : option uuid;
    v_title : option string;
    v_date_time : option string;
    v_location : option string;
    v_description : option string;
    v_hours_value : option Z;
    v_created_by : option uuid
  }.
End events.

Module attendance.
Record row := mk {
    id : uuid;
    event_id : uuid;
    user_id : uuid;
    status : attendance_status;
    hours_awarded : option Z;
    verified_by : option uuid
  }.

Record patch := set {
    s_id : option uuid;
    s_event_id : option uuid;
    s_user_id : option uuid;
    s_status : option attendance_status;
    s_hours_awarded : option (option Z);
    s_verified_by : option (option uuid)
  }.

Definition or_keep {A} (o : option A) (a : A) : A :=
    match o with Some v => v | None => a end.

Definition apply (s : patch) (a : row) : row :=
    mk (or_keep (s_id s) (id a)) (or_keep (s_event_id s) (event_id a))
       (or_keep (s_user_id s) (user_id a)) (or_keep (s_status s) (status a))
       (or_keep (s_hours_awarded s) (hours_awarded a))
       (or_keep (s_verified_by s) (verified_by a)).

  (** [v_hours_awarded = None] is an omitted column (the default applies);
      [Some None] is an explicit NULL. *)
Record values := val {
    v_id : option uuid;
    v_event_id : option uuid;
    v_user_id : option uuid;
    v_status : option attendance_status;
    v_hours_awarded : option (option Z);
    v_verified_by : option uuid
  }.
End attendance.

Record db := mkdb {
  auth_users : list auth.users;
  public_profiles : list profiles.row;
  public_events : list events.row;
  public_attendance : list attendance.row
}.

Definition empty_db : db := mkdb [] [] [] [].

Definition with_auth_users (l : list auth.users) (d : db) : db :=
  mkdb l (public_profiles d) (public_events d) (public_attendance d).
Definition with_profiles (l : list profiles.row) (d : db) : db :=
  mkdb (auth_users d) l (public_events d) (public_attendance d).
Definition with_events (l : list events.row) (d : db) : db :=
  mkdb (auth_users d) (public_profiles d) l (public_attendance d).
Definition with_attendance (l : list attendance.row) (d : db) : db :=
  mkdb (auth_users d) (public_profiles d) (public_events d) l.

(** ** The transaction monad *)

Definition tx : Type -> Type := stateT db (sum pg_error).

Definition liftR {A} (r : result A) : tx A :=
  match r with
  | inl e => raise e
  | inr a => ret a
  end.

Definition require (b : bool) (e : pg_error) : tx unit :=
  if b then ret tt else raise e.

Fixpoint for_each {A} (l : list A) (body : A -> tx unit) : tx unit :=
  match l with
  | [] => ret tt
  | x :: rest => body x ;; for_each rest body
  end.

(** A request runs one statement as a transaction: an error rolls back. *)
Definition request {A} (stmt : tx A) (d : db) : db * result A :=
  match runStateT stmt d with
  | inl e => (d, inl e)
  | inr (a, d') => (d', inr a)
  end.

Definition default {A} (o : option A) (a : A) : A :=
  match o with Some v => v | None => a end.

Definition not_null {A} (column : string) (o : option A) : tx A :=
  match o with
  | Some v => ret v
  | None => raise (not_null_violation column)
  end.

(** ** Row-level security

    The policies of the migrations, after the second one has replaced
    "Users can view all profiles". Permissive policies for the same command
    are joined with OR. [uid] is [auth.uid()]: the identity of the caller,
    NULL for an anonymous request. *)

Module policy.

(** [EXISTS (SELECT 1 FROM public.profiles
             WHERE user_id = auth.uid() AND role IN (...))] *)
Definition exists_profile (d : db) (uid : option uuid) (roles : list user_role) : bool :=
  existsb
    (fun p => Sql.is_true
                (Sql.and3 (Sql.eq3 N.eqb (Some (profiles.user_id p)) uid)
                          (Sql.in3 user_role_eqb (Some (profiles.role p)) roles)))
    (public_profiles d).

(** [public.get_current_user_role()]:
    [SELECT role::text FROM public.profiles WHERE user_id = auth.uid()] *)
Definition get_current_user_role (d : db) (uid : option uuid) : option user_role :=
  match filter (fun p => Sql.is_true (Sql.eq3 N.eqb (Some (profiles.user_id p)) uid))
               (public_profiles d) with
  | p :: _ => Some (profiles.role p)
  | [] => None
  end.

(** "Users can view their own profile",
    "Officers and admins can view all profiles" *)
Definition profiles_select (d : db) (uid : option uuid) (p : profiles.row) : bool :=
  Sql.is_true (Sql.eq3 N.eqb uid (Some (profiles.user_id p)))
  || Sql.is_true (Sql.in3 user_role_eqb (get_current_user_role d uid) [officer; admin]).

(** "Users can update their own profile": [USING (auth.uid() = user_id)].
    A policy without [WITH CHECK] applies its [USING] test to the new row
    as well. *)
Definition profiles_update (uid : option uuid) (p : profiles.row) : bool :=
  Sql.is_true (Sql.eq3 N.eqb uid (Some (profiles.user_id p))).

(** "Users can insert their own profile" *)
Definition profiles_insert (uid : option uuid) (user_id : option uuid) : bool :=
  Sql.is_true (Sql.eq3 N.eqb uid user_id).

(** "Everyone can view events" *)
Definition events_select : bool := true.

(** "Admins can insert events", "Admins can update events",
    "Admins can delete events" *)
Definition events_insert (d : db) (uid : option uuid) : bool :=
  exists_profile d uid [admin].
Definition events_update (d : db) (uid : option uuid) : bool :=
  exists_profile d uid [admin].
Definition events_delete (d : db) (uid : option uuid) : bool :=
  exists_profile d uid [admin].

(** "Users can view their own attendance" *)
Definition attendance_select (d : db) (uid : option uuid) (a : attendance.row) : bool :=
  Sql.is_true
    (Sql.or3 (Sql.eq3 N.eqb uid (Some (attendance.user_id a)))
             (Some (exists_profile d uid [admin; officer]))).

(** "Users can sign up for events" *)
Definition attendance_insert (uid : option uuid) (user_id : option uuid) : bool :=
  Sql.is_true (Sql.eq3 N.eqb uid user_id).

(** "Officers and admins can update attendance" *)
Definition attendance_update (d : db) (uid : option uuid) : bool :=
  exists_profile d uid [admin; officer].

End policy.

(** ** Constraints

    A statement is accepted only when the keys and references declared by
    the schema hold of the tables it leaves. *)

Fixpoint distinctb {A} (eqb : A -> A -> bool) (l : list A) : bool :=
  match l with
  | [] => true
  | x :: rest => negb (existsb (eqb x) rest) && distinctb eqb rest
  end.

Definition check (b : bool) (e : pg_error) : result unit :=
  if b then inr tt else inl e.

Definition pair_eqb (x y : uuid * uuid) : bool :=
  N.eqb (fst x) (fst y) && N.eqb (snd x) (snd y).

Definition references_user (d : db) (u : uuid) : bool :=
  existsb (fun x => N.eqb (auth.id x) u) (auth_users d).

Definition references_event (d : db) (e : uuid) : bool :=
  existsb (fun x => N.eqb (events.id x) e) (public_events d).

Module constraints.

Definition users (d : db) : result unit :=
  check (distinctb N.eqb (map auth.id (auth_users d))) (unique_violation "users_pkey").

Definition profiles (d : db) : result unit :=
  check (distinctb N.eqb (map profiles.id (public_profiles d)))
        (unique_violation "profiles_pkey") ;;
  check (distinctb N.eqb (map profiles.user_id (public_profiles d)))
        (unique_violation "profiles_user_id_key") ;;
  check (forallb (fun p => references_user d (profiles.user_id p)) (public_profiles d))
        (foreign_key_violation "profiles_user_id_fkey").

Definition events (d : db) : result unit :=
  check (distinctb N.eqb (map events.id (public_events d)))
        (unique_violation "events_pkey") ;;
  check (forallb (fun e => references_user d (events.created_by e)) (public_events d))
        (foreign_key_violation "events_created_by_fkey").

Definition attendance (d : db) : result unit :=
  check (distinctb N.eqb (map attendance.id (public_attendance d)))
        (unique_violation "attendance_pkey") ;;
  check (distinctb pair_eqb
           (map (fun a => (attendance.event_id a, attendance.user_id a)) (public_attendance d)))
        (unique_violation "attendance_event_id_user_id_key") ;;
  check (forallb (fun a => references_event d (attendance.event_id a)) (public_attendance d))
        (foreign_key_violation "attendance_event_id_fkey") ;;
  check (forallb (fun a => references_user d (attendance.user_id a)) (public_attendance d))
        (foreign_key_violation "attendance_user_id_fkey") ;;
  check (forallb (fun a => match attendance.verified_by a with
                           | Some v => references_user d v
                           | None => true
                           end) (public_attendance d))
        (foreign_key_violation "attendance_verified_by_fkey").

End constraints.

Definition enforce (c : db -> result unit) : tx unit :=
  d <- get ;; liftR (c d).

(** Every stored [INTEGER] is within the range of its type. *)
Definition well_typed (d : db) : bool :=
  forallb (fun p => Sql.in_int4 (profiles.total_hours p)) (public_profiles d)
  && forallb (fun e => Sql.in_int4 (events.hours_value e)) (public_events d)
  && forallb (fun a => match attendance.hours_awarded a with
                       | Some h => Sql.in_int4 h
                       | None => true
                       end) (public_attendance d).

Definition holds (r : result unit) : bool :=
  match r with inr _ => true | inl _ => false end.

(** A database state the schema admits. *)
Definition wf_db (d : db) : bool :=
  well_typed d
  && holds (constraints.users d) && holds (constraints.profiles d)
  && holds (constraints.events d) && holds (constraints.attendance d).

(** ** Triggers *)

Inductive tg_when := BEFORE | AFTER.
Inductive tg_op := INSERT | UPDATE | DELETE.

(** [CREATE TRIGGER tgname tgwhen tgop ON table
     FOR EACH ROW EXECUTE FUNCTION tgfunc()]; the function sees the row
    variables OLD and NEW, either of which is NULL when the operation has
    no such row. *)
Record trigger (row : Type) := mktrigger {
  tgname : string;
  tgwhen : tg_when;
  tgop : tg_op;
  tgfunc : option row -> option row -> tx unit
}.
Arguments mktrigger {row}.
Arguments tgname {row}.
Arguments tgwhen {row}.
Arguments tgop {row}.
Arguments tgfunc {row}.

Definition tg_matches {row} (w : tg_when) (op : tg_op) (t : trigger row) : bool :=
  match tgwhen t, w with
  | BEFORE, BEFORE | AFTER, AFTER =>
      match tgop t, op with
      | INSERT, INSERT | UPDATE, UPDATE | DELETE, DELETE => true
      | _, _ => false
      end
  | _, _ => false
  end.

Definition fire {row} (tgs : list (trigger row)) (w : tg_when) (op : tg_op)
    (OLD NEW : option row) : tx unit :=
  for_each (filter (tg_matches w op) tgs) (fun t => tgfunc t OLD NEW).

(** [UPDATE public.profiles SET total_hours = expr WHERE cond], run by a
    SECURITY DEFINER function: no policy applies. [total_hours] is
    NOT NULL. *)
Fixpoint set_total_hours (expr : Z -> result (option Z)) (cond : profiles.row -> option bool)
    (rows : list profiles.row) : result (list profiles.row) :=
  match rows with
  | [] => inr []
  | p :: rest =>
      p' <- (if Sql.is_true (cond p)
             then v <- expr (profiles.total_hours p) ;;
                  match v with
                  | Some h => inr (profiles.with_total_hours h p)
                  | None => inl (not_null_violation "total_hours")
                  end
             else inr p) ;;
      rest' <- set_total_hours expr cond rest ;;
      inr (p' :: rest')
  end.

Definition profiles_set_total_hours (expr : Z -> result (option Z))
    (cond : profiles.row -> option bool) : tx unit :=
  d <- get ;;
  rows <- liftR (set_total_hours expr cond (public_profiles d)) ;;
  put (with_profiles rows d).

(** [public.update_total_hours()], lines 814-833 of the migration. *)
Definition update_total_hours (OLD NEW : option attendance.row) : tx unit :=
  let OLD_status := option_map attendance.status OLD in
  let NEW_status := option_map attendance.status NEW in
  let OLD_hours_awarded := match OLD with Some o => attendance.hours_awarded o | None => None end in
  let NEW_hours_awarded := match NEW with Some n => attendance.hours_awarded n | None => None end in
  let NEW_user_id := option_map attendance.user_id NEW in
  (* If attendance was approved, add hours to user's total *)
  (if Sql.is_true
        (Sql.and3 (Sql.eq3 attendance_status_eqb NEW_status (Some approved))
                  (Sql.or3 (Sql.is_null OLD_status)
                           (Sql.ne3 attendance_status_eqb OLD_status (Some approved))))
   then profiles_set_total_hours
          (fun total_hours => Sql.int4pl (Some total_hours) NEW_hours_awarded)
          (fun p => Sql.eq3 N.eqb (Some (profiles.user_id p)) NEW_user_id)
   else ret tt) ;;
  (* If attendance was previously approved but now denied/pending, subtract hours *)
  (if Sql.is_true
        (Sql.and3 (Sql.eq3 attendance_status_eqb OLD_status (Some approved))
                  (Sql.ne3 attendance_status_eqb NEW_status (Some approved)))
   then profiles_set_total_hours
          (fun total_hours =>
             v <- Sql.int4mi (Some total_hours) OLD_hours_awarded ;;
             inr (Sql.GREATEST (Some 0%Z) v))
          (fun p => Sql.eq3 N.eqb (Some (profiles.user_id p)) NEW_user_id)
   else ret tt).

(** [CREATE TRIGGER update_user_total_hours AFTER UPDATE ON public.attendance
     FOR EACH ROW EXECUTE FUNCTION public.update_total_hours()] *)
Definition attendance_triggers : list (trigger attendance.row) :=
  [ mktrigger "update_user_total_hours" AFTER UPDATE update_total_hours ].

(** [public.handle_new_user()]: the profile of a new identity. The key of
    the profile is drawn by [gen_random_uuid()]. *)
Definition handle_new_user (gen_random_uuid : uuid) (OLD NEW : option auth.users) : tx unit :=
  user_id <- not_null "user_id" (option_map auth.id NEW) ;;
  email <- not_null "email" (option_map auth.email NEW) ;;
  let name := default (match NEW with Some n => auth.raw_user_meta_data_name n | None => None end) "" in
  d <- get ;;
  put (with_profiles (public_profiles d ++ [profiles.mk gen_random_uuid user_id name email member 0%Z]) d) ;;
  enforce constraints.profiles.

(** [CREATE TRIGGER on_auth_user_created AFTER INSERT ON auth.users
     FOR EACH ROW EXECUTE FUNCTION public.handle_new_user()] *)
Definition auth_users_triggers (gen_random_uuid : uuid) : list (trigger auth.users) :=
  [ mktrigger "on_auth_user_created" AFTER INSERT (handle_new_user gen_random_uuid) ].

(** ** Statements of the data API

    [uid] is the identity of the caller, [where_] the row filter of the
    request, and the result the number of rows written. *)

(** A new identity, created by the authentication service. *)
Definition auth_users_insert (gen_random_uuid : uuid) (NEW : auth.users) : tx nat :=
  d <- get ;;
  put (with_auth_users (auth_users d ++ [NEW]) d) ;;
  enforce constraints.users ;;
  fire (auth_users_triggers gen_random_uuid) AFTER INSERT None (Some NEW) ;;
  ret 1.

Definition profiles_insert (uid : option uuid) (gen_random_uuid : uuid)
    (v : profiles.values) : tx nat :=
  total_hours <- liftR (Sql.int4 (default (profiles.v_total_hours v) 0%Z)) ;;
  require (policy.profiles_insert uid (profiles.v_user_id v)) insufficient_privilege ;;
  user_id <- not_null "user_id" (profiles.v_user_id v) ;;
  name <- not_null "name" (profiles.v_name v) ;;
  email <- not_null "email" (profiles.v_email v) ;;
  let NEW := profiles.mk (default (profiles.v_id v) gen_random_uuid) user_id name email
               (default (profiles.v_role v) member) total_hours in
  d <- get ;;
  put (with_profiles (public_profiles d ++ [NEW]) d) ;;
  enforce constraints.profiles ;;
  ret 1.

Definition profiles_update (uid : option uuid) (where_ : profiles.row -> bool)
    (s : profiles.patch) : tx nat :=
  liftR (Sql.int4_opt (profiles.s_total_hours s)) ;;
  d <- get ;;
  let target p := where_ p && policy.profiles_update uid p && policy.profiles_select d uid p in
  let OLDs := filter target (public_profiles d) in
  require (forallb (fun o => policy.profiles_update uid (profiles.apply s o)
                             && policy.profiles_select d uid (profiles.apply s o)) OLDs)
          insufficient_privilege ;;
  put (with_profiles (map (fun p => if target p then profiles.apply s p else p)
                          (public_profiles d)) d) ;;
  enforce constraints.profiles ;;
  ret (List.length OLDs).

Definition events_insert (uid : option uuid) (gen_random_uuid : uuid)
    (v : events.values) : tx nat :=
  hours_value <- liftR (Sql.int4_opt (events.v_hours_value v)) ;;
  d <- get ;;
  require (policy.events_insert d uid) insufficient_privilege ;;
  title <- not_null "title" (events.v_title v) ;;
  date_time <- not_null "date_time" (events.v_date_time v) ;;
  location <- not_null "location" (events.v_location v) ;;
  hours_value <- not_null "hours_value" hours_value ;;
  created_by <- not_null "created_by" (events.v_created_by v) ;;
  let NEW := events.mk (default (events.v_id v) gen_random_uuid) title date_time location
               (events.v_description v) hours_value created_by in
  put (with_events (public_events d ++ [NEW]) d) ;;
  enforce constraints.events ;;
  ret 1.

Definition events_update (uid : option uuid) (where_ : events.row -> bool)
    (s : events.patch) : tx nat :=
  liftR (Sql.int4_opt (events.s_hours_value s)) ;;
  d <- get ;;
  let target e := where_ e && policy.events_update d uid && policy.events_select in
  let OLDs := filter target (public_events d) in
  require (forallb (fun _ => policy.events_update d uid && policy.events_select) OLDs)
          insufficient_privilege ;;
  put (with_events (map (fun e => if target e then events.apply s e else e)
                        (public_events d)) d) ;;
  enforce constraints.events ;;
  ret (List.length OLDs).

(** Rows removed by a referential action ([ON DELETE CASCADE]): no policy
    applies, the row triggers of the table fire. *)
Definition attendance_cascade (which : attendance.row -> bool) : tx unit :=
  d <- get ;;
  let OLDs := filter which (public_attendance d) in
  put (with_attendance (filter (fun a => negb (which a)) (public_attendance d)) d) ;;
  for_each OLDs (fun o => fire attendance_triggers AFTER DELETE (Some o) None).

(** The rows a [DELETE] on the events table reaches. *)
Definition events_target (d : db) (uid : option uuid) (where_ : events.row -> bool)
    (e : events.row) : bool :=
  where_ e && policy.events_delete d uid && policy.events_select.

Definition events_delete (uid : option uuid) (where_ : events.row -> bool) : tx nat :=
  d <- get ;;
  let target := events_target d uid where_ in
  let OLDs := filter target (public_events d) in
  put (with_events (filter (fun e => negb (target e)) (public_events d)) d) ;;
  (* attendance.event_id REFERENCES public.events(id) ON DELETE CASCADE *)
  for_each OLDs (fun o =>
    attendance_cascade (fun a => N.eqb (attendance.event_id a) (events.id o))) ;;
  ret (List.length OLDs).

Definition attendance_insert (uid : option uuid) (gen_random_uuid : uuid)
    (v : attendance.values) : tx nat :=
  hours_awarded <- liftR (Sql.int4_opt (default (attendance.v_hours_awarded v) (Some 0%Z))) ;;
  require (policy.attendance_insert uid (attendance.v_user_id v)) insufficient_privilege ;;
  event_id <- not_null "event_id" (attendance.v_event_id v) ;;
  user_id <- not_null "user_id" (attendance.v_user_id v) ;;
  let NEW := attendance.mk (default (attendance.v_id v) gen_random_uuid) event_id user_id
               (default (attendance.v_status v) pending) hours_awarded
               (attendance.v_verified_by v) in
  d <- get ;;
  put (with_attendance (public_attendance d ++ [NEW]) d) ;;
  enforce constraints.attendance ;;
  fire attendance_triggers AFTER INSERT None (Some NEW) ;;
  ret 1.

(** The rows an [UPDATE] of the attendance table reaches: those the filter
    selects among the rows the update and select policies show. *)
Definition attendance_target (d : db) (uid : option uuid) (where_ : attendance.row -> bool)
    (a : attendance.row) : bool :=
  where_ a && policy.attendance_update d uid && policy.attendance_select d uid a.

Definition attendance_update (uid : option uuid) (where_ : attendance.row -> bool)
    (s : attendance.patch) : tx nat :=
  liftR (Sql.int4_opt (default (attendance.s_hours_awarded s) None)) ;;
  d <- get ;;
  let target := attendance_target d uid where_ in
  let OLDs := filter target (public_attendance d) in
  require (forallb (fun o => policy.attendance_update d uid
                             && policy.attendance_select d uid (attendance.apply s o)) OLDs)
          insufficient_privilege ;;
  put (with_attendance (map (fun a => if target a then attendance.apply s a else a)
                            (public_attendance d)) d) ;;
  enforce constraints.attendance ;;
  for_each OLDs (fun o =>
    fire attendance_triggers AFTER UPDATE (Some o) (Some (attendance.apply s o))) ;;
  ret (List.length OLDs).

(** ** The dashboards

    A dashboard function sends one request with the identity of the
    signed-in [user] and shows a toast for its outcome. *)

Inductive toast :=
| toast_default (title : string)
| toast_destructive (error : pg_error).

Definition show {A} (title : string) (r : db * result A) : db * option toast :=
  match snd r with
  | inr _ => (fst r, Some (toast_default title))
  | inl e => (fst r, Some (toast_destructive e))
  end.

Module MemberDashboard.

(** [signUpForEvent], lines 69-96. *)
Definition signUpForEvent (user : option uuid) (gen_random_uuid : uuid)
    (eventId : uuid) (hoursValue : Z) (d : db) : db * option toast :=
  match user with
  | None => (d, None)
  | Some user_id =>
      show "Success!"
        (request (attendance_insert user gen_random_uuid
                    (attendance.val None (Some eventId) (Some user_id) None
                                    (Some (Some hoursValue)) None)) d)
  end.

(** The "Sign Up" button of an event card:
    [onClick={() => signUpForEvent(event.id, event.hours_value)}]. *)
Definition onClick_SignUp (user : option uuid) (gen_random_uuid : uuid)
    (event : events.row) : db -> db * option toast :=
  signUpForEvent user gen_random_uuid (events.id event) (events.hours_value event).

End MemberDashboard.

Module OfficerDashboard.

(** The columns [updateAttendanceStatus] writes:
    [{ status, verified_by: user.id }]. *)
Definition status_patch (status : attendance_status) (user_id : uuid) : attendance.patch :=
  attendance.set None None None (Some status) None (Some (Some user_id)).

(** [updateAttendanceStatus], lines 85-112; the buttons pass ['approved']
    or ['denied']. *)
Definition updateAttendanceStatus (user : option uuid) (attendanceId : uuid)
    (status : attendance_status) (d : db) : db * option toast :=
  match user with
  | None => (d, None)
  | Some user_id =>
      show "Success!"
        (request (attendance_update user
                    (fun a => N.eqb (attendance.id a) attendanceId)
                    (status_patch status user_id)) d)
  end.

End OfficerDashboard.

Module AdminDashboard.

Record eventForm := mkForm {
  title : string;
  date_time : string;
  location : string;
  description : string;
  hours_value : Z
}.

(** [handleEventSubmit]: an edit when [editingEvent] is set, a creation
    otherwise. *)
Definition handleEventSubmit (user : option uuid) (gen_random_uuid : uuid)
    (editingEvent : option events.row) (f : eventForm) (d : db) : db * option toast :=
  match user with
  | None => (d, None)
  | Some user_id =>
      match editingEvent with
      | Some e =>
          show "Event updated successfully!"
            (request (events_update user
                        (fun x => N.eqb (events.id x) (events.id e))
                        (events.set (Some (title f)) (Some (date_time f)) (Some (location f))
                                    (Some (Some (description f))) (Some (hours_value f)))) d)
      | None =>
          show "Event created successfully!"
            (request (events_insert user gen_random_uuid
                        (events.val None (Some (title f)) (Some (date_time f))
                                    (Some (location f)) (Some (description f))
                                    (Some (hours_value f)) (Some user_id))) d)
      end
  end.

Definition deleteEvent (user : option uuid) (eventId : uuid) (d : db) : db * option toast :=
  show "Event deleted successfully!"
    (request (events_delete user (fun x => N.eqb (events.id x) eventId)) d).

(** [updateUserRole], lines 378-395. *)
Definition updateUserRole (user : option uuid) (userId : uuid) (newRole : user_role)
    (d : db) : db * option toast :=
  show ("User role updated to " ++ role_text newRole ++ "!")
    (request (profiles_update user
                (fun p => N.eqb (profiles.user_id p) userId)
                (profiles.set None None None None (Some newRole) None)) d).

End AdminDashboard.

(** ** Sequences of requests *)

Inductive statement :=
| InsertUser (NEW : auth.users)
| InsertProfile (v : profiles.values)
| UpdateProfile (where_ : profiles.row -> bool) (s : profiles.patch)
| InsertEvent (v : events.values)
| UpdateEvent (where_ : events.row -> bool) (s : events.patch)
| DeleteEvent (where_ : events.row -> bool)
| InsertAttendance (v : attendance.values)
| UpdateAttendance (where_ : attendance.row -> bool) (s : attendance.patch).

Definition exec (uid : option uuid) (gen_random_uuid : uuid) (st : statement) : tx nat :=
  match st with
  | InsertUser NEW => auth_users_insert gen_random_uuid NEW
  | InsertProfile v => profiles_insert uid gen_random_uuid v
  | UpdateProfile where_ s => profiles_update uid where_ s
  | InsertEvent v => events_insert uid gen_random_uuid v
  | UpdateEvent where_ s => events_update uid where_ s
  | DeleteEvent where_ => events_delete uid where_
  | InsertAttendance v => attendance_insert uid gen_random_uuid v
  | UpdateAttendance where_ s => attendance_update uid where_ s
  end.

(** One request: the caller, the key the generator would draw, and the
    statement. *)
Definition call : Type := option uuid * uuid * statement.

Definition step (d : db) (c : call) : db :=
  let '(uid, gen_random_uuid, st) := c in
  fst (request (exec uid gen_random_uuid st) d).

Definition run (trace : list call) (d : db) : db := fold_left step trace d.

(** ** The accounting rule, in the words of the specification *)

Definition hour_rule (previous new_ : attendance_status) (hours_new hours_old total : Z) : Z :=
  if attendance_status_eqb new_ approved && negb (attendance_status_eqb previous approved)
  then (total + hours_new)%Z
  else if attendance_status_eqb previous approved && negb (attendance_status_eqb new_ approved)
  then Z.max 0 (total - hours_old)
  else total.

(** ** Pure readings of the accounting trigger

    What [update_total_hours] does to the profiles table for one updated
    row, and what the row triggers of one statement do in turn. *)

Definition accounting (OLD NEW : attendance.row) (rows : list profiles.row)
  : result (list profiles.row) :=
  if attendance_status_eqb (attendance.status NEW) approved
     && negb (attendance_status_eqb (attendance.status OLD) approved)
  then set_total_hours
         (fun total_hours => Sql.int4pl (Some total_hours) (attendance.hours_awarded NEW))
         (fun p => Sql.eq3 N.eqb (Some (profiles.user_id p)) (Some (attendance.user_id NEW)))
         rows
  else if attendance_status_eqb (attendance.status OLD) approved
          && negb (attendance_status_eqb (attendance.status NEW) approved)
  then set_total_hours
         (fun total_hours =>
            v <- Sql.int4mi (Some total_hours) (attendance.hours_awarded OLD) ;;
            inr (Sql.GREATEST (Some 0%Z) v))
         (fun p => Sql.eq3 N.eqb (Some (profiles.user_id p)) (Some (attendance.user_id NEW)))
         rows
  else inr rows.

Fixpoint account_all (s : attendance.patch) (OLDs : list attendance.row)
    (rows : list profiles.row) : result (list profiles.row) :=
  match OLDs with
  | [] => inr rows
  | o :: rest =>
      match accounting o (attendance.apply s o) rows with
      | inl e => inl e
      | inr rows' => account_all s rest rows'
      end
  end.

(** Whether a computation raises in a given state. *)
Definition raises {A} (c : tx A) (d : db) : bool :=
  match runStateT c d with
  | inl _ => true
  | inr _ => false
  end.

(** ** Properties of states and traces *)

Definition totals_nonneg (d : db) : bool :=
  forallb (fun p => (0 <=? profiles.total_hours p)%Z) (public_profiles d).

Definition hours_nonneg (d : db) : bool :=
  forallb (fun a => match attendance.hours_awarded a with
                    | Some h => (0 <=? h)%Z
                    | None => true
                    end) (public_attendance d).

(** The hours-awarded value of a record is absent or non-negative. *)
Definition hours_ok (a : attendance.row) : bool :=
  match attendance.hours_awarded a with
  | Some h => (0 <=? h)%Z
  | None => true
  end.

(** A request that updates attendance rows without writing their
    [hours_awarded]: a status transition. *)
Definition status_transition (c : call) : Prop :=
  match c with
  | (_, _, UpdateAttendance _ s) => attendance.s_hours_awarded s = None
  | _ => False
  end.

(** At most one attendance row for each (event, user) pair. *)
Definition pair_unique (d : db) : bool :=
  distinctb pair_eqb
    (map (fun a => (attendance.event_id a, attendance.user_id a)) (public_attendance d)).

Definition officer_or_admin (r : option user_role) : bool :=
  match r with
  | Some officer | Some admin => true
  | _ => false
  end.

(** A patch that leaves the key columns alone. *)
Definition keeps_keys (s : attendance.patch) : Prop :=
  attendance.s_id s = None /\ attendance.s_event_id s = None
  /\ attendance.s_user_id s = None.

(** [keeps proj x c]: started in a state whose table [proj] is [x], the
    computation [c] raises or ends in a state whose table [proj] is [x]. *)
Definition keeps {X A} (proj : db -> X) (x : X) (c : tx A) : Prop :=
  forall d, proj d = x ->
            match runStateT c d with
            | inl _ => True
            | inr (_, d') => proj d' = x
            end.

(** ** A small organisation, for concrete runs *)

Module demo.

Definition ada : uuid := 1%N.
Definition ole : uuid := 2%N.
Definition mia : uuid := 3%N.

Definition cleanup : events.row :=
  events.mk 201%N "Beach cleanup" "2025-06-01T09:00" "Pier 7" None 3%Z ada.

(** Ada administrates, Ole is an officer, Mia a member; one event and no
    sign-up yet. *)
Definition d0 : db :=
  mkdb [ auth.mk ada "ada@ices.org" (Some "Ada");
         auth.mk ole "ole@ices.org" (Some "Ole");
         auth.mk mia "mia@ices.org" (Some "Mia") ]
       [ profiles.mk 101%N ada "Ada" "ada@ices.org" admin 0%Z;
         profiles.mk 102%N ole "Ole" "ole@ices.org" officer 0%Z;
         profiles.mk 103%N mia "Mia" "mia@ices.org" member 0%Z ]
       [ cleanup ]
       [].

Definition signup (status : attendance_status) (hours : Z) : attendance.row :=
  attendance.mk 301%N 201%N mia status (Some hours) None.

(** Mia has signed up; her record is in the given state. *)
Definition d1 (status : attendance_status) (hours total : Z) : db :=
  mkdb (auth_users d0)
       [ profiles.mk 101%N ada "Ada" "ada@ices.org" admin 0%Z;
         profiles.mk 102%N ole "Ole" "ole@ices.org" officer 0%Z;
         profiles.mk 103%N mia "Mia" "mia@ices.org" member total ]
       [ cleanup ]
       [ signup status hours ].

Definition by_id (k : uuid) (a : attendance.row) : bool := N.eqb (attendance.id a) k.

End demo.

(** ** Reading through the data API

    A [SELECT] returns the rows that pass the filter of the request among
    those the select policies show. Rows are kept in the order of their
    insertion, the order of [created_at]. *)

Definition select_profiles (uid : option uuid) (where_ : profiles.row -> bool) (d : db)
  : list profiles.row :=
  filter (fun p => where_ p && policy.profiles_select d uid p) (public_profiles d).

Definition select_events (uid : option uuid) (where_ : events.row -> bool) (d : db)
  : list events.row :=
  filter (fun e => where_ e && policy.events_select) (public_events d).

Definition select_attendance (uid : option uuid) (where_ : attendance.row -> bool) (d : db)
  : list attendance.row :=
  filter (fun a => where_ a && policy.attendance_select d uid a) (public_attendance d).

(** What the member dashboard reads. *)
Module MemberView.

(** An attendance record with its event embedded (the [events] resource
    of the query). *)
Record Attendance := mk {
  row : attendance.row;
  events : option events.row
}.

(** The second query of [fetchData], lines 50-61: the records of the
    signed-in user, newest first; the list stays empty without a user. *)
Definition myAttendance (user : option uuid) (d : db) : list Attendance :=
  match user with
  | None => []
  | Some user_id =>
      map (fun a =>
             mk a (find (fun e => N.eqb (events.id e) (attendance.event_id a))
                        (select_events user (fun _ => true) d)))
          (rev (select_attendance user (fun a => N.eqb (attendance.user_id a) user_id) d))
  end.

(** [isSignedUp], lines 98-100. *)
Definition isSignedUp (myAttendance : list Attendance) (eventId : uuid) : bool :=
  existsb (fun a => N.eqb (attendance.event_id (row a)) eventId) myAttendance.

End MemberView.

(** What the officer dashboard reads. *)
Module OfficerView.

(** A pending record with the name and e-mail address of its user. *)
Record Attendance := mk {
  row : attendance.row;
  profiles : string * string
}.

(** The attendance part of [fetchData], lines 53-77: the pending records,
    oldest first, each combined with the profile found for its user, or with
    ['Unknown'] when none is. *)
Definition pendingAttendance (user : option uuid) (d : db) : list Attendance :=
  match user with
  | None => []
  | Some _ =>
      let attendanceData :=
        select_attendance user
          (fun a => attendance_status_eqb (attendance.status a) pending) d in
      let userIds := map attendance.user_id attendanceData in
      let profilesData :=
        select_profiles user
          (fun p => existsb (N.eqb (profiles.user_id p)) userIds) d in
      map (fun a =>
             mk a (match find (fun p => N.eqb (profiles.user_id p) (attendance.user_id a))
                              profilesData with
                   | Some p => (profiles.name p, profiles.email p)
                   | None => ("Unknown", "")
                   end))
          attendanceData
  end.

(** [getEventById], lines 114-116. *)
Definition getEventById (events : list events.row) (eventId : uuid) : option events.row :=
  find (fun e => N.eqb (events.id e) eventId) events.

End OfficerView.

(** What the admin dashboard shows and edits. *)
Module AdminView.

(** [openEditDialog], lines 397-407: the form of the edit dialog;
    [date_time.slice(0, 16)] and [description || '']. *)
Definition openEditDialog (event : events.row) : AdminDashboard.eventForm :=
  AdminDashboard.mkForm (events.title event) (substring 0 16 (events.date_time event))
    (events.location event)
    (match events.description event with
     | Some text => text
     | None => ""
     end)
    (events.hours_value event).

(** The "Officers" card: [profiles.filter(p => p.role === 'officer').length]. *)
Definition officers (profiles : list profiles.row) : nat :=
  List.length (filter (fun p => user_role_eqb (profiles.role p) officer) profiles).

(** The "Total Hours" card: [profiles.reduce((sum, p) => sum + p.total_hours, 0)]. *)
Definition totalHours (profiles : list profiles.row) : Z :=
  fold_left (fun sum p => (sum + profiles.total_hours p)%Z) profiles 0%Z.

End AdminView.

(** ** Hours credited to a user *)

(** What the officer's list and the policies read of a profile: whose it is and its role. *)
Definition owner_role (p : profiles.row) : uuid * user_role :=
  (profiles.user_id p, profiles.role p).

(** The hours one attendance record contributes to user [u]: its hours awarded
    while it is approved, nothing otherwise. *)
Definition credit (u : uuid) (a : attendance.row) : Z :=
  if N.eqb (attendance.user_id a) u && attendance_status_eqb (attendance.status a) approved
  then default (attendance.hours_awarded a) 0%Z
  else 0%Z.

(** The approved hours of user [u] over the whole attendance table. *)
Definition credited (u : uuid) (l : list attendance.row) : Z :=
  fold_right Z.add 0%Z (map (credit u) l).

(** Every profile's total is the sum of its owner's approved hours. *)
Definition balanced (rows : list profiles.row) (l : list attendance.row) : Prop :=
  forall p, In p rows -> profiles.total_hours p = credited (profiles.user_id p) l.

(** Every attendance record carries a non-negative number of hours. *)
Definition hours_present (l : list attendance.row) : Prop :=
  forall a, In a l -> exists h, attendance.hours_awarded a = Some h /\ (0 <= h)%Z.

(** The requests the dashboards and the sign-up of a user send, as far as hours are
    concerned: no record is created approved, none without hours, and an update of a
    record leaves its hours and its owner alone. *)
Definition dashboard_flow (c : call) : Prop :=
  match c with
  | (_, _, InsertUser _) | (_, _, InsertEvent _) | (_, _, UpdateEvent _ _) => True
  | (_, _, InsertAttendance v) =>
      attendance.v_status v <> Some approved
      /\ match attendance.v_hours_awarded v with
         | None => True
         | Some (Some h) => (0 <= h)%Z
         | Some None => False
         end
  | (_, _, UpdateAttendance _ s) =>
      attendance.s_hours_awarded s = None /\ attendance.s_user_id s = None
  | _ => False
  end.

(** The schema holds, hours are present and totals are balanced. *)
Definition accounted (d : db) : Prop :=
  wf_db d = true
  /\ hours_present (public_attendance d)
  /\ balanced (public_profiles d) (public_attendance d).

(** More states of the small organisation. *)
Module sample.

(** Mia's record for the event, without an hours-awarded value. *)
Definition no_hours (status : attendance_status) : attendance.row :=
  attendance.mk 301%N 201%N demo.mia status None None.

Definition d2 (status : attendance_status) (total : Z) : db :=
  mkdb (auth_users demo.d0)
       [ profiles.mk 101%N demo.ada "Ada" "ada@ices.org" admin 0%Z;
         profiles.mk 102%N demo.ole "Ole" "ole@ices.org" officer 0%Z;
         profiles.mk 103%N demo.mia "Mia" "mia@ices.org" member total ]
       [ demo.cleanup ]
       [ no_hours status ].

Definition mia_profile (total : Z) : profiles.row :=
  profiles.mk 103%N demo.mia "Mia" "mia@ices.org" member total.

Definition noa : auth.users := auth.mk 4%N "noa@ices.org" None.

(** Mia signs up for the clean-up, Ole approves. *)
Definition sign_up_and_approve : list call :=
  [ (Some demo.mia, 301%N,
     InsertAttendance (attendance.val None (Some 201%N) (Some demo.mia) None
                                      (Some (Some 3%Z)) None));
    (Some demo.ole, 0%N,
     UpdateAttendance (demo.by_id 301%N) (OfficerDashboard.status_patch approved demo.ole)) ].

End sample.

(** * Proofs *)

(** ** Running the monad *)

Lemma run_bind {A B} (c : tx A) (f : A -> tx B) d :
  runStateT (bind c f) d =
  match runStateT c d with
  | inl e => inl e
  | inr (a, d') => runStateT (f a) d'
  end.
Proof. reflexivity. Qed.

Lemma run_ret {A} (a : A) d : runStateT (ret a : tx A) d = inr (a, d).
Proof. reflexivity. Qed.

Lemma run_get d : runStateT (get : tx db) d = inr (d, d).
Proof. reflexivity. Qed.

Lemma run_put d d' : runStateT (put d' : tx unit) d = inr (tt, d').
Proof. reflexivity. Qed.

Lemma run_raise {A} e d : runStateT (raise e : tx A) d = inl e.
Proof. reflexivity. Qed.

Lemma run_liftR {A} (r : result A) d :
  runStateT (liftR r) d = match r with inl e => inl e | inr a => inr (a, d) end.
Proof. destruct r; reflexivity. Qed.

Lemma run_require b e d :
  runStateT (require b e) d = if b then inr (tt, d) else inl e.
Proof. destruct b; reflexivity. Qed.

Lemma with_profiles_same d : with_profiles (public_profiles d) d = d.
Proof. destruct d; reflexivity. Qed.

Lemma run_profiles_set_total_hours expr cond d :
  runStateT (profiles_set_total_hours expr cond) d =
  match set_total_hours expr cond (public_profiles d) with
  | inl e => inl e
  | inr rows => inr (tt, with_profiles rows d)
  end.
Proof.
  unfold profiles_set_total_hours.
  rewrite run_bind, run_get, run_bind, run_liftR.
  destruct (set_total_hours expr cond (public_profiles d)); reflexivity.
Qed.

Lemma run_update_total_hours OLD NEW d :
  runStateT (update_total_hours (Some OLD) (Some NEW)) d =
  match accounting OLD NEW (public_profiles d) with
  | inl e => inl e
  | inr rows => inr (tt, with_profiles rows d)
  end.
Proof.
  unfold update_total_hours, accounting.
  cbn [option_map Sql.eq3 Sql.ne3 Sql.is_null Sql.or3 Sql.and3].
  rewrite run_bind.
  destruct (attendance.status OLD), (attendance.status NEW);
    cbn [attendance_status_eqb negb andb Sql.is_true Sql.eq3 Sql.ne3 Sql.is_null Sql.or3 Sql.and3];
    rewrite ?run_ret, ?run_profiles_set_total_hours;
    try (rewrite with_profiles_same; reflexivity);
    match goal with |- context [set_total_hours ?e ?c ?r] => destruct (set_total_hours e c r) end;
    rewrite ?run_ret; reflexivity.
Qed.

Lemma public_profiles_with_profiles rows d :
  public_profiles (with_profiles rows d) = rows.
Proof. reflexivity. Qed.

Lemma with_profiles_twice r1 r2 d :
  with_profiles r2 (with_profiles r1 d) = with_profiles r2 d.
Proof. reflexivity. Qed.

Lemma public_profiles_with_attendance l d :
  public_profiles (with_attendance l d) = public_profiles d.
Proof. reflexivity. Qed.

Lemma run_fire_update OLD NEW d :
  runStateT (fire attendance_triggers AFTER UPDATE (Some OLD) (Some NEW)) d =
  runStateT (update_total_hours (Some OLD) (Some NEW)) d.
Proof.
  unfold fire, attendance_triggers. cbn [filter tg_matches tgwhen tgop for_each tgfunc].
  rewrite run_bind.
  destruct (runStateT (update_total_hours (Some OLD) (Some NEW)) d) as [e | [[] d']];
    reflexivity.
Qed.

Lemma run_fire_updates s OLDs d :
  runStateT (for_each OLDs (fun o =>
      fire attendance_triggers AFTER UPDATE (Some o) (Some (attendance.apply s o)))) d =
  match account_all s OLDs (public_profiles d) with
  | inl e => inl e
  | inr rows => inr (tt, with_profiles rows d)
  end.
Proof.
  revert d. induction OLDs as [| o rest IH]; intros d; cbn [for_each account_all].
  - rewrite run_ret, with_profiles_same. reflexivity.
  - rewrite run_bind, run_fire_update, run_update_total_hours.
    destruct (accounting o (attendance.apply s o) (public_profiles d)) as [e | rows];
      [reflexivity |].
    rewrite IH, public_profiles_with_profiles.
    destruct (account_all s rest rows); reflexivity.
Qed.

Lemma run_attendance_update uid where_ s d :
  runStateT (attendance_update uid where_ s) d =
  let OLDs := filter (attendance_target d uid where_) (public_attendance d) in
  let d1 := with_attendance
              (map (fun a => if attendance_target d uid where_ a
                             then attendance.apply s a else a) (public_attendance d)) d in
  match Sql.int4_opt (default (attendance.s_hours_awarded s) None) with
  | inl e => inl e
  | inr _ =>
      if forallb (fun o => policy.attendance_update d uid
                           && policy.attendance_select d uid (attendance.apply s o)) OLDs
      then match constraints.attendance d1 with
           | inl e => inl e
           | inr _ =>
               match account_all s OLDs (public_profiles d) with
               | inl e => inl e
               | inr rows => inr (List.length OLDs, with_profiles rows d1)
               end
           end
      else inl insufficient_privilege
  end.
Proof.
  unfold attendance_update. rewrite run_bind, run_liftR.
  destruct (Sql.int4_opt _) as [e | h]; [reflexivity |].
  rewrite run_bind, run_get, run_bind, run_require.
  fold (attendance_target d uid where_).
  cbv zeta.
  destruct (forallb _ _); [| reflexivity].
  rewrite run_bind, run_put, run_bind.
  unfold enforce at 1. rewrite run_bind, run_get, run_liftR.
  destruct (constraints.attendance _) as [e | []]; [reflexivity |].
  rewrite run_bind, run_fire_updates.
  rewrite public_profiles_with_attendance.
  destruct (account_all _ _ _); reflexivity.
Qed.

Lemma with_total_hours_same p :
  profiles.with_total_hours (profiles.total_hours p) p = p.
Proof. destruct p; reflexivity. Qed.

Lemma set_total_hours_spec expr cond (f : Z -> Z) rows rows' :
  (forall t v, expr t = inr (Some v) -> v = f t) ->
  set_total_hours expr cond rows = inr rows' ->
  rows' = map (fun p => if Sql.is_true (cond p)
                        then profiles.with_total_hours (f (profiles.total_hours p)) p
                        else p) rows.
Proof.
  intros Hf. revert rows'. induction rows as [| p rest IH]; intros rows' H; cbn in H.
  - injection H as <-. reflexivity.
  - cbn [map]. destruct (Sql.is_true (cond p)).
    + destruct (expr (profiles.total_hours p)) as [e | [v |]] eqn:E; try discriminate.
      destruct (set_total_hours expr cond rest) as [e | rest']; try discriminate.
      injection H as <-. rewrite (Hf _ _ E), (IH rest' eq_refl). reflexivity.
    + destruct (set_total_hours expr cond rest) as [e | rest']; try discriminate.
      injection H as <-. rewrite (IH rest' eq_refl). reflexivity.
Qed.

Lemma accounting_spec OLD NEW h_old h_new rows rows' :
  attendance.hours_awarded OLD = Some h_old ->
  attendance.hours_awarded NEW = Some h_new ->
  accounting OLD NEW rows = inr rows' ->
  rows' = map (fun p =>
                 if N.eqb (profiles.user_id p) (attendance.user_id NEW)
                 then profiles.with_total_hours
                        (hour_rule (attendance.status OLD) (attendance.status NEW)
                                   h_new h_old (profiles.total_hours p)) p
                 else p) rows.
Proof.
  intros HO HN. unfold accounting, hour_rule. rewrite HO, HN.
  destruct (_ && _).
  - intros H. apply set_total_hours_spec with (f := fun t => (t + h_new)%Z) in H.
    + rewrite H. apply map_ext. intros p. cbn. destruct (_ =? _)%N; reflexivity.
    + intros t v. cbn. unfold Sql.int4. destruct (Sql.in_int4 _); congruence.
  - destruct (_ && _).
    + intros H. apply set_total_hours_spec with (f := fun t => Z.max 0 (t - h_old)) in H.
      * rewrite H. apply map_ext. intros p. cbn. destruct (_ =? _)%N; reflexivity.
      * intros t v. cbn. unfold Sql.int4. destruct (Sql.in_int4 _); cbn; congruence.
    + intros [= <-]. induction rows as [| p rest IH]; [reflexivity |].
      cbn [map]. rewrite <- IH, with_total_hours_same. destruct (_ =? _)%N; reflexivity.
Qed.

Lemma accounting_same_status OLD NEW rows :
  attendance.status NEW = attendance.status OLD ->
  accounting OLD NEW rows = inr rows.
Proof.
  intros E. unfold accounting. rewrite E.
  destruct (attendance.status OLD); reflexivity.
Qed.



(** C9: an update under which every selected record keeps its status, such
    as an edit of the hours-awarded value of an approved record, leaves the
    profiles table, and so every total-hours counter, as it was. *)
Theorem C9_hours_edit_keeps_totals :
  forall (d : db) (uid : option uuid) (where_ : attendance.row -> bool)
         (s : attendance.patch),
    (forall a, In a (public_attendance d) -> where_ a = true ->
               attendance.status (attendance.apply s a) = attendance.status a) ->
    public_profiles (fst (request (attendance_update uid where_ s) d)) = public_profiles d.
Proof.
  intros d uid where_ s Hkeep.
  unfold request. rewrite run_attendance_update. cbv zeta.
  destruct (Sql.int4_opt _) as [e | hv]; [reflexivity |].
  destruct (forallb _ _); [| reflexivity].
  destruct (constraints.attendance _) as [e | ok]; [reflexivity |].
  assert (Hacc : forall l rows,
             (forall a, In a l -> In a (public_attendance d) /\ where_ a = true) ->
             account_all s l rows = inr rows).
  { induction l as [| x rest IH]; intros rows Hl; cbn [account_all]; [reflexivity |].
    destruct (Hl x (or_introl eq_refl)) as [H1 H2].
    rewrite accounting_same_status by auto.
    apply IH. intros a Ha. apply Hl. right. exact Ha. }
  rewrite Hacc; [reflexivity |].
  intros a Ha. apply filter_In in Ha. destruct Ha as [Ha1 Ha2]. split; [exact Ha1 |].
  unfold attendance_target in Ha2.
  apply andb_true_iff in Ha2. destruct Ha2 as [Ha2 _].
  apply andb_true_iff in Ha2. tauto.
Qed.

(** ** Event deletion *)

Lemma run_not_null {A} column (o : option A) d :
  runStateT (not_null column o) d =
  match o with
  | Some v => inr (v, d)
  | None => inl (not_null_violation column)
  end.
Proof. destruct o; reflexivity. Qed.

Lemma run_enforce c d :
  runStateT (enforce c) d = match c d with inl e => inl e | inr _ => inr (tt, d) end.
Proof.
  unfold enforce. rewrite run_bind, run_get, run_liftR.
  destruct (c d) as [e | []]; reflexivity.
Qed.

Lemma run_fire_deletes OLDs d :
  runStateT (for_each OLDs (fun o =>
      fire attendance_triggers AFTER DELETE (Some o) None)) d = inr (tt, d).
Proof.
  induction OLDs as [| o rest IH]; [reflexivity |].
  cbn [for_each]. rewrite run_bind. exact IH.
Qed.

Lemma run_attendance_cascade which d :
  runStateT (attendance_cascade which) d =
  inr (tt, with_attendance (filter (fun a => negb (which a)) (public_attendance d)) d).
Proof.
  unfold attendance_cascade.
  rewrite run_bind, run_get, run_bind, run_put, run_fire_deletes. reflexivity.
Qed.

Lemma filter_filter_negb {A} (f g : A -> bool) (l : list A) :
  filter (fun a => negb (g a)) (filter (fun a => negb (f a)) l) =
  filter (fun a => negb (f a || g a)) l.
Proof.
  induction l as [| x rest IH]; [reflexivity |].
  cbn [filter]. destruct (f x); cbn [negb orb filter]; rewrite IH; reflexivity.
Qed.

Lemma run_cascades OLDs d :
  runStateT (for_each OLDs (fun o =>
      attendance_cascade (fun a => N.eqb (attendance.event_id a) (events.id o)))) d =
  inr (tt, with_attendance
             (filter (fun a => negb (existsb (fun o => N.eqb (attendance.event_id a) (events.id o)) OLDs))
                     (public_attendance d)) d).
Proof.
  revert d. induction OLDs as [| o rest IH]; intros d; cbn [for_each existsb].
  - rewrite run_ret. destruct d as [us ps es l]. unfold with_attendance. cbn.
    f_equal. f_equal. f_equal. induction l as [| a l IHl]; [reflexivity |].
    cbn. f_equal. exact IHl.
  - rewrite run_bind, run_attendance_cascade, IH.
    destruct d as [us ps es l]. unfold with_attendance. cbn.
    rewrite filter_filter_negb. reflexivity.
Qed.

Lemma run_events_delete uid where_ d :
  runStateT (events_delete uid where_) d =
  let OLDs := filter (events_target d uid where_) (public_events d) in
  inr (List.length OLDs,
       with_attendance
         (filter (fun a => negb (existsb (fun o => N.eqb (attendance.event_id a) (events.id o)) OLDs))
                 (public_attendance d))
         (with_events (filter (fun e => negb (events_target d uid where_ e)) (public_events d)) d)).
Proof.
  unfold events_delete. rewrite run_bind, run_get. cbv zeta.
  fold (events_target d uid where_).
  rewrite run_bind, run_put, run_bind, run_cascades, run_ret. reflexivity.
Qed.

Lemma role_exists_profile d uid r roles :
  policy.get_current_user_role d uid = Some r ->
  existsb (user_role_eqb r) roles = true ->
  policy.exists_profile d uid roles = true.
Proof.
  unfold policy.get_current_user_role, policy.exists_profile.
  destruct (filter _ _) as [| p rest] eqn:E; [discriminate |].
  intros [= <-] Hr.
  assert (Hp : In p (filter (fun p => Sql.is_true (Sql.eq3 N.eqb (Some (profiles.user_id p)) uid))
                            (public_profiles d))) by (rewrite E; left; reflexivity).
  apply filter_In in Hp. destruct Hp as [Hp1 Hp2].
  apply existsb_exists. exists p. split; [exact Hp1 |].
  destruct (Sql.eq3 N.eqb (Some (profiles.user_id p)) uid) as [[|]|]; try discriminate.
  cbn. rewrite Hr. reflexivity.
Qed.

Lemma existsb_filter {A} (f g : A -> bool) (l : list A) :
  existsb g (filter f l) = existsb (fun x => f x && g x) l.
Proof.
  induction l as [| x rest IH]; [reflexivity |].
  cbn [filter existsb]. destruct (f x); cbn [existsb andb]; rewrite IH; reflexivity.
Qed.

(** C10: deleting events never changes the profiles table; for an
    administrator it removes the selected events and, by the cascade, exactly
    the attendance records that refer to them, whatever their status. *)
Theorem C10_event_delete_keeps_totals :
  forall (d : db) (uid : option uuid) (where_ : events.row -> bool),
    let d' := fst (request (events_delete uid where_) d) in
    public_profiles d' = public_profiles d
    /\ (policy.get_current_user_role d uid = Some admin ->
        public_events d' = filter (fun e => negb (where_ e)) (public_events d)
        /\ public_attendance d' =
           filter (fun a => negb (existsb (fun e => where_ e
                                                    && N.eqb (attendance.event_id a) (events.id e))
                                          (public_events d)))
                  (public_attendance d)).
Proof.
  intros d uid where_. unfold request. rewrite run_events_delete. cbv zeta.
  cbn [fst]. split; [reflexivity |].
  intros Hrole.
  assert (Ht : forall e, events_target d uid where_ e = where_ e).
  { intros e. unfold events_target, policy.events_delete, policy.events_select.
    rewrite (role_exists_profile d uid admin [admin] Hrole eq_refl).
    rewrite !andb_true_r. reflexivity. }
  cbn [public_events public_attendance with_attendance with_events]. split.
  - apply filter_ext. intros e. rewrite Ht. reflexivity.
  - apply filter_ext. intros a. rewrite existsb_filter. f_equal.
    induction (public_events d) as [| e rest IH]; [reflexivity |].
    cbn [existsb]. rewrite IH, Ht. reflexivity.
Qed.

(** ** Well-formed states *)

Lemma holds_check_bind b e (k : result unit) :
  holds (check b e ;; k) = b && holds k.
Proof. destruct b; reflexivity. Qed.

Lemma holds_check b e : holds (check b e) = b.
Proof. destruct b; reflexivity. Qed.

Lemma holds_inr (r : result unit) : holds r = true -> r = inr tt.
Proof. destruct r as [e | []]; [discriminate | reflexivity]. Qed.

Lemma wf_db_parts d :
  wf_db d = true ->
  well_typed d = true /\ constraints.users d = inr tt /\ constraints.profiles d = inr tt
  /\ constraints.events d = inr tt /\ constraints.attendance d = inr tt.
Proof.
  unfold wf_db. rewrite !andb_true_iff.
  intros [[[[H1 H2] H3] H4] H5]. repeat split; auto using holds_inr.
Qed.

Lemma wf_profiles_user_unique d :
  wf_db d = true -> distinctb N.eqb (map profiles.user_id (public_profiles d)) = true.
Proof.
  unfold wf_db. rewrite !andb_true_iff. intros [[[_ H] _] _].
  unfold constraints.profiles in H. rewrite !holds_check_bind, !andb_true_iff in H. tauto.
Qed.

Lemma wf_attendance_id_unique d :
  wf_db d = true -> distinctb N.eqb (map attendance.id (public_attendance d)) = true.
Proof.
  unfold wf_db. rewrite !andb_true_iff. intros [_ H].
  unfold constraints.attendance in H. rewrite !holds_check_bind, !andb_true_iff in H. tauto.
Qed.

Lemma wf_profiles_reference_users d p :
  wf_db d = true -> In p (public_profiles d) -> references_user d (profiles.user_id p) = true.
Proof.
  unfold wf_db. rewrite !andb_true_iff. intros [[[_ H] _] _] Hp.
  unfold constraints.profiles in H.
  rewrite !holds_check_bind, holds_check, !andb_true_iff in H.
  destruct H as [_ [_ H]]. rewrite forallb_forall in H. exact (H p Hp).
Qed.

Lemma distinctb_key_inj {A} (key : A -> N) (l : list A) (x y : A) :
  distinctb N.eqb (map key l) = true ->
  In x l -> In y l -> key x = key y -> x = y.
Proof.
  induction l as [| z rest IH]; [intros _ [] |].
  cbn [map distinctb]. rewrite andb_true_iff, negb_true_iff.
  intros [Hz Hrest] Hx Hy Hk.
  assert (Hno : forall w, In w rest -> key z <> key w).
  { intros w Hw E.
    assert (existsb (N.eqb (key z)) (map key rest) = true); [| congruence].
    apply existsb_exists. exists (key w). split; [apply in_map; exact Hw |].
    apply N.eqb_eq. exact E. }
  destruct Hx as [<- | Hx], Hy as [<- | Hy]; auto.
  - exfalso. exact (Hno y Hy Hk).
  - exfalso. exact (Hno x Hx (eq_sym Hk)).
Qed.

Lemma exists_profile_role d uid roles :
  wf_db d = true ->
  policy.exists_profile d uid roles =
  match policy.get_current_user_role d uid with
  | Some r => existsb (user_role_eqb r) roles
  | None => false
  end.
Proof.
  intros Hwf.
  destruct (policy.get_current_user_role d uid) as [r |] eqn:Er.
  - destruct (existsb (user_role_eqb r) roles) eqn:Ein.
    + exact (role_exists_profile d uid r roles Er Ein).
    + destruct (policy.exists_profile d uid roles) eqn:Eex; [| reflexivity].
      unfold policy.exists_profile in Eex. apply existsb_exists in Eex.
      destruct Eex as [p [Hp Hc]].
      unfold policy.get_current_user_role in Er.
      destruct (filter _ _) as [| q rest] eqn:Ef; [discriminate |].
      injection Er as <-.
      assert (Hq : In q (filter (fun p => Sql.is_true (Sql.eq3 N.eqb (Some (profiles.user_id p)) uid))
                                (public_profiles d))) by (rewrite Ef; left; reflexivity).
      apply filter_In in Hq. destruct Hq as [Hq1 Hq2].
      destruct uid as [u |]; [| discriminate].
      cbn in Hq2, Hc.
      destruct (N.eqb_spec (profiles.user_id q) u) as [Eq |]; [| discriminate].
      destruct (N.eqb_spec (profiles.user_id p) u) as [Ep |]; [| discriminate].
      assert (p = q) as ->.
      { apply (distinctb_key_inj profiles.user_id (public_profiles d));
          [apply wf_profiles_user_unique; exact Hwf | exact Hp | exact Hq1 | congruence]. }
      rewrite Ein in Hc. discriminate.
  - unfold policy.exists_profile. unfold policy.get_current_user_role in Er.
    destruct (filter _ _) as [| q rest] eqn:Ef; [| discriminate].
    destruct (existsb _ _) eqn:Eex; [| reflexivity].
    apply existsb_exists in Eex. destruct Eex as [p [Hp Hc]].
    assert (Hin : In p (filter (fun p => Sql.is_true (Sql.eq3 N.eqb (Some (profiles.user_id p)) uid))
                               (public_profiles d))).
    { apply filter_In. split; [exact Hp |].
      cbn [Sql.in3] in Hc.
      destruct (Sql.eq3 N.eqb (Some (profiles.user_id p)) uid) as [[|]|];
        [reflexivity | discriminate |].
      destruct (existsb _ roles); discriminate. }
    rewrite Ef in Hin. destruct Hin.
Qed.


Lemma int4_opt_error z e : Sql.int4_opt z = inl e -> e = numeric_value_out_of_range.
Proof.
  destruct z as [v |]; cbn; [| discriminate].
  unfold Sql.int4. destruct (Sql.in_int4 v); [discriminate | congruence].
Qed.

Lemma filter_false {A} (f : A -> bool) (l : list A) :
  (forall x, f x = false) -> filter f l = [].
Proof.
  intros H. induction l as [| x rest IH]; [reflexivity |].
  cbn [filter]. rewrite H. exact IH.
Qed.

Lemma filter_true {A} (f : A -> bool) (l : list A) :
  (forall x, f x = true) -> filter f l = l.
Proof.
  intros H. induction l as [| x rest IH]; [reflexivity |].
  cbn [filter]. rewrite H, IH. reflexivity.
Qed.

Lemma map_untouched {A} (f : A -> bool) (g : A -> A) (l : list A) :
  (forall x, f x = false) -> map (fun x => if f x then g x else x) l = l.
Proof.
  intros H. induction l as [| x rest IH]; [reflexivity |].
  cbn [map]. rewrite H, IH. reflexivity.
Qed.

Lemma with_events_same d : with_events (public_events d) d = d.
Proof. destruct d; reflexivity. Qed.

Lemma with_attendance_same d : with_attendance (public_attendance d) d = d.
Proof. destruct d; reflexivity. Qed.

(** ** Event writes *)

Lemma events_insert_not_admin d uid gen v :
  policy.exists_profile d uid [admin] = false ->
  request (events_insert uid gen v) d = (d, inl insufficient_privilege)
  \/ request (events_insert uid gen v) d = (d, inl numeric_value_out_of_range).
Proof.
  intros Hp. unfold request, events_insert. rewrite run_bind, run_liftR.
  destruct (Sql.int4_opt _) as [e | h] eqn:E.
  - right. rewrite (int4_opt_error _ _ E). reflexivity.
  - left. rewrite run_bind, run_get, run_bind, run_require.
    unfold policy.events_insert. rewrite Hp. reflexivity.
Qed.

Lemma events_update_not_admin d uid where_ s :
  wf_db d = true ->
  policy.exists_profile d uid [admin] = false ->
  request (events_update uid where_ s) d = (d, inr 0)
  \/ request (events_update uid where_ s) d = (d, inl numeric_value_out_of_range).
Proof.
  intros Hwf Hp. unfold request, events_update. rewrite run_bind, run_liftR.
  destruct (Sql.int4_opt _) as [e | h] eqn:E.
  - right. rewrite (int4_opt_error _ _ E). reflexivity.
  - left. rewrite run_bind, run_get. cbv zeta.
    unfold policy.events_update. rewrite Hp.
    rewrite filter_false by (intros x; rewrite andb_false_r; reflexivity).
    rewrite run_bind, run_require. cbn [forallb].
    rewrite run_bind, run_put.
    rewrite map_untouched by (intros x; rewrite andb_false_r; reflexivity).
    rewrite with_events_same, run_bind, run_enforce.
    destruct (wf_db_parts d Hwf) as [_ [_ [_ [-> _]]]].
    rewrite run_ret. reflexivity.
Qed.

Lemma events_delete_not_admin d uid where_ :
  policy.exists_profile d uid [admin] = false ->
  request (events_delete uid where_) d = (d, inr 0).
Proof.
  intros Hp. unfold request. rewrite run_events_delete. cbv zeta.
  assert (Ht : forall e, events_target d uid where_ e = false).
  { intros e. unfold events_target, policy.events_delete. rewrite Hp, andb_false_r.
    reflexivity. }
  rewrite (filter_false _ _ Ht).
  rewrite (filter_true (fun e => negb (events_target d uid where_ e)))
    by (intros e; rewrite Ht; reflexivity).
  cbn [existsb negb List.length]. rewrite (filter_true (fun _ => true)) by reflexivity.
  rewrite with_events_same, with_attendance_same. reflexivity.
Qed.


(** ** Attendance status updates *)

Lemma update_policy_select d uid a :
  policy.attendance_update d uid = true -> policy.attendance_select d uid a = true.
Proof.
  unfold policy.attendance_update, policy.attendance_select. intros ->.
  destruct (Sql.eq3 _ _ _) as [[|]|]; reflexivity.
Qed.

Lemma filter_key_absent {A} (key : A -> N) (k : N) (l : list A) :
  existsb (N.eqb k) (map key l) = false -> filter (fun a => N.eqb (key a) k) l = [].
Proof.
  induction l as [| z rest IH]; [reflexivity |].
  cbn [map existsb filter]. rewrite orb_false_iff. intros [Hz Hrest].
  rewrite N.eqb_sym, Hz. exact (IH Hrest).
Qed.

Lemma filter_key_unique {A} (key : A -> N) (l : list A) (x : A) :
  distinctb N.eqb (map key l) = true -> In x l ->
  filter (fun a => N.eqb (key a) (key x)) l = [x].
Proof.
  induction l as [| z rest IH]; [intros _ [] |].
  cbn [map distinctb]. rewrite andb_true_iff, negb_true_iff.
  intros [Hz Hrest] [-> | Hx]; cbn [filter].
  - rewrite N.eqb_refl, (filter_key_absent key (key x) rest Hz). reflexivity.
  - destruct (N.eqb_spec (key z) (key x)) as [E | E]; [| exact (IH Hrest Hx)].
    exfalso. assert (existsb (N.eqb (key z)) (map key rest) = true); [| congruence].
    apply existsb_exists. exists (key x). split; [apply in_map; exact Hx |].
    apply N.eqb_eq. exact E.
Qed.

Lemma attendance_update_reaches d uid OLD :
  wf_db d = true -> In OLD (public_attendance d) ->
  policy.attendance_update d uid = true ->
  filter (attendance_target d uid (fun a => N.eqb (attendance.id a) (attendance.id OLD)))
         (public_attendance d) = [OLD].
Proof.
  intros Hwf Hin Hp.
  rewrite <- (filter_key_unique attendance.id (public_attendance d) OLD
                (wf_attendance_id_unique d Hwf) Hin).
  apply filter_ext. intros a. unfold attendance_target.
  rewrite Hp, (update_policy_select d uid a Hp), !andb_true_r. reflexivity.
Qed.

Lemma attendance_update_reaches_none d uid where_ :
  policy.attendance_update d uid = false ->
  filter (attendance_target d uid where_) (public_attendance d) = [].
Proof.
  intros Hp. apply filter_false. intros a. unfold attendance_target.
  rewrite Hp, andb_false_r. reflexivity.
Qed.

Lemma forallb_map_same {A} (f : A -> bool) (g : A -> A) (l : list A) :
  (forall x, In x l -> f x = true -> f (g x) = true) ->
  forallb f l = true -> forallb f (map g l) = true.
Proof.
  intros H. induction l as [| x rest IH]; [reflexivity |].
  cbn [forallb map]. rewrite !andb_true_iff. intros [Hx Hrest]. split.
  - apply H; [left; reflexivity | exact Hx].
  - apply IH; [| exact Hrest]. intros y Hy. apply H. right. exact Hy.
Qed.

Lemma constraints_attendance_update d (t : attendance.row -> bool) s :
  keeps_keys s ->
  match attendance.s_verified_by s with
  | Some (Some v) => references_user d v = true
  | _ => True
  end ->
  constraints.attendance d = inr tt ->
  constraints.attendance
    (with_attendance (map (fun a => if t a then attendance.apply s a else a)
                          (public_attendance d)) d) = inr tt.
Proof.
  intros [K1 [K2 K3]] Hv H. apply holds_inr.
  assert (H' : holds (constraints.attendance d) = true) by (rewrite H; reflexivity).
  clear H. unfold constraints.attendance in *.
  rewrite !holds_check_bind, holds_check, !andb_true_iff in *.
  destruct H' as [H1 [H2 [H3 [H4 H5]]]].
  set (upd := fun a => if t a then attendance.apply s a else a).
  assert (Eid : forall a, attendance.id (upd a) = attendance.id a).
  { intros a. unfold upd. destruct (t a); [| reflexivity]. cbn. rewrite K1. reflexivity. }
  assert (Eev : forall a, attendance.event_id (upd a) = attendance.event_id a).
  { intros a. unfold upd. destruct (t a); [| reflexivity]. cbn. rewrite K2. reflexivity. }
  assert (Eus : forall a, attendance.user_id (upd a) = attendance.user_id a).
  { intros a. unfold upd. destruct (t a); [| reflexivity]. cbn. rewrite K3. reflexivity. }
  cbn [public_attendance with_attendance].
  rewrite !map_map.
  rewrite (map_ext _ attendance.id Eid).
  rewrite (map_ext (fun x => (attendance.event_id (upd x), attendance.user_id (upd x)))
                   (fun a => (attendance.event_id a, attendance.user_id a)))
    by (intros a; rewrite Eev, Eus; reflexivity).
  repeat split; try assumption.
  - apply (forallb_map_same (fun a => references_event d (attendance.event_id a))); auto.
    intros x _. rewrite Eev. auto.
  - apply (forallb_map_same (fun a => references_user d (attendance.user_id a))); auto.
    intros x _. rewrite Eus. auto.
  - apply (forallb_map_same
             (fun a => match attendance.verified_by a with
                       | Some v => references_user d v
                       | None => true
                       end)); auto.
    intros x _ Hx. unfold upd. destruct (t x); [| exact Hx]. cbn.
    destruct (attendance.s_verified_by s) as [[v |] |]; cbn; auto.
Qed.

Lemma raises_update_total_hours OLD NEW d :
  raises (update_total_hours (Some OLD) (Some NEW)) d = false ->
  exists rows, accounting OLD NEW (public_profiles d) = inr rows.
Proof.
  unfold raises. rewrite run_update_total_hours.
  destruct (accounting OLD NEW (public_profiles d)) as [e | rows]; [discriminate |].
  intros _. exists rows. reflexivity.
Qed.

Lemma role_references_user d u r :
  wf_db d = true -> policy.get_current_user_role d (Some u) = Some r ->
  references_user d u = true.
Proof.
  intros Hwf. unfold policy.get_current_user_role.
  destruct (filter _ _) as [| p rest] eqn:E; [discriminate |]. intros _.
  assert (Hp : In p (filter (fun p => Sql.is_true (Sql.eq3 N.eqb (Some (profiles.user_id p)) (Some u)))
                            (public_profiles d))) by (rewrite E; left; reflexivity).
  apply filter_In in Hp. destruct Hp as [Hp1 Hp2]. cbn in Hp2.
  destruct (N.eqb_spec (profiles.user_id p) u) as [<- |]; [| discriminate].
  exact (wf_profiles_reference_users d p Hwf Hp1).
Qed.

(** C5 (amended): a status update of an attendance record writes its row
    only when the role stored in the caller's own profile is officer or
    admin: for every other caller the request writes no row and leaves the
    store as it was. An officer or admin can move any record to any status
    unless the hour accounting raises an error of its own on that
    transition; the request is then refused with an error and leaves the
    store as it was. *)
Theorem C5_status_update_gate :
  forall (d : db) (u : uuid) (OLD : attendance.row) (status : attendance_status),
    wf_db d = true ->
    In OLD (public_attendance d) ->
    let s := OfficerDashboard.status_patch status u in
    let NEW := attendance.apply s OLD in
    let r := request (attendance_update (Some u)
                        (fun a => N.eqb (attendance.id a) (attendance.id OLD)) s) d in
    let role := policy.get_current_user_role d (Some u) in
    (officer_or_admin role = true ->
       raises (update_total_hours (Some OLD) (Some NEW)) d = false ->
       snd r = inr 1 /\ In NEW (public_attendance (fst r))
       /\ attendance.status NEW = status)
    /\ (officer_or_admin role = true ->
        raises (update_total_hours (Some OLD) (Some NEW)) d = true ->
        exists e, r = (d, inl e))
    /\ (officer_or_admin role = false -> r = (d, inr 0))
    /\ (snd r = inr 1 -> officer_or_admin role = true).
Proof.
  intros d u OLD status Hwf Hin s NEW r role.
  assert (Hpol : policy.attendance_update d (Some u) = officer_or_admin role).
  { unfold policy.attendance_update. rewrite exists_profile_role by exact Hwf.
    fold role. destruct role as [[| |] |]; reflexivity. }
  assert (Hr : r = match runStateT (attendance_update (Some u)
                                      (fun a => N.eqb (attendance.id a) (attendance.id OLD)) s) d
                   with
                   | inl e => (d, inl e)
                   | inr (a, d') => (d', inr a)
                   end) by reflexivity.
  rewrite run_attendance_update in Hr. cbv zeta in Hr.
  change (Sql.int4_opt (default (attendance.s_hours_awarded s) None)) with (@inr pg_error _ (@None Z)) in Hr.
  assert (Hno : officer_or_admin role = false -> r = (d, inr 0)).
  { intros Hrole. rewrite Hrole in Hpol.
    rewrite (attendance_update_reaches_none d (Some u) _ Hpol) in Hr.
    cbn [forallb account_all List.length] in Hr.
    rewrite map_untouched in Hr
      by (intros a; unfold attendance_target; rewrite Hpol, andb_false_r; reflexivity).
    rewrite with_attendance_same in Hr.
    destruct (wf_db_parts d Hwf) as [_ [_ [_ [_ Hc]]]]. rewrite Hc in Hr.
    rewrite with_profiles_same in Hr. exact Hr. }
  assert (Hyes : officer_or_admin role = true ->
            (forall rows, accounting OLD NEW (public_profiles d) = inr rows ->
                          snd r = inr 1 /\ In NEW (public_attendance (fst r)))
            /\ (forall e, accounting OLD NEW (public_profiles d) = inl e -> r = (d, inl e))).
  { intros Hrole. rewrite Hrole in Hpol.
    rewrite (attendance_update_reaches d (Some u) OLD Hwf Hin Hpol) in Hr.
    cbn [forallb account_all List.length] in Hr. fold NEW in Hr.
    rewrite Hpol, (update_policy_select d (Some u) NEW Hpol) in Hr. cbn [andb] in Hr.
    rewrite constraints_attendance_update in Hr.
    - split.
      + intros rows Hrows. rewrite Hrows in Hr. rewrite Hr. cbn [fst snd].
        split; [reflexivity |].
        cbn [public_attendance with_profiles with_attendance].
        apply in_map_iff. exists OLD. split; [| exact Hin].
        assert (Ht : attendance_target d (Some u)
                       (fun a => N.eqb (attendance.id a) (attendance.id OLD)) OLD = true).
        { unfold attendance_target.
          rewrite Hpol, (update_policy_select d (Some u) OLD Hpol), N.eqb_refl. reflexivity. }
        rewrite Ht. reflexivity.
      + intros e He. rewrite He in Hr. exact Hr.
    - repeat split.
    - cbn. destruct role as [ro |] eqn:Ero; [| discriminate].
      exact (role_references_user d u ro Hwf Ero).
    - destruct (wf_db_parts d Hwf) as [_ [_ [_ [_ Hc]]]]. exact Hc. }
  split; [| split; [| split; [exact Hno |]]].
  - intros Hrole Hacc. destruct (Hyes Hrole) as [Hok _].
    destruct (raises_update_total_hours OLD NEW d Hacc) as [rows Hrows].
    destruct (Hok rows Hrows) as [H1 H2]. split; [exact H1 |].
    split; [exact H2 | reflexivity].
  - intros Hrole Hacc. destruct (Hyes Hrole) as [_ Hfail].
    unfold raises in Hacc. rewrite run_update_total_hours in Hacc.
    destruct (accounting OLD NEW (public_profiles d)) as [e | rows] eqn:Ea; [| discriminate].
    exists e. exact (Hfail e eq_refl).
  - intros Hone. destruct (officer_or_admin role) eqn:Hrole; [reflexivity |].
    rewrite (Hno eq_refl) in Hone. discriminate.
Qed.

(** ** Statements that leave a table alone *)

Section Keeps.
Context {X : Type} (proj : db -> X) (x : X).

Lemma keeps_bind {A B} (c : tx A) (f : A -> tx B) :
  keeps proj x c -> (forall a, keeps proj x (f a)) -> keeps proj x (bind c f).
Proof.
  intros Hc Hf d Hd. rewrite run_bind. specialize (Hc d Hd).
  destruct (runStateT c d) as [e | [a d']]; [exact I |]. exact (Hf a d' Hc).
Qed.

Lemma keeps_get {B} (f : db -> tx B) :
  (forall d, proj d = x -> keeps proj x (f d)) -> keeps proj x (bind get f).
Proof. intros Hf d Hd. rewrite run_bind, run_get. exact (Hf d Hd d Hd). Qed.

Lemma keeps_put (d' : db) : proj d' = x -> keeps proj x (put d').
Proof. intros H d _. rewrite run_put. exact H. Qed.

Lemma keeps_ret {A} (a : A) : keeps proj x (ret a).
Proof. intros d Hd. rewrite run_ret. exact Hd. Qed.

Lemma keeps_raise {A} e : keeps proj x (raise e : tx A).
Proof. intros d Hd. rewrite run_raise. exact I. Qed.

Lemma keeps_liftR {A} (r : result A) : keeps proj x (liftR r).
Proof. intros d Hd. rewrite run_liftR. destruct r; [exact I | exact Hd]. Qed.

Lemma keeps_require b e : keeps proj x (require b e).
Proof. intros d Hd. rewrite run_require. destruct b; [exact Hd | exact I]. Qed.

Lemma keeps_not_null {A} column (o : option A) : keeps proj x (not_null column o).
Proof. intros d Hd. rewrite run_not_null. destruct o; [exact Hd | exact I]. Qed.

Lemma keeps_enforce c : keeps proj x (enforce c).
Proof. intros d Hd. rewrite run_enforce. destruct (c d); [exact I | exact Hd]. Qed.

Lemma keeps_for_each {A} (l : list A) (body : A -> tx unit) :
  (forall a, keeps proj x (body a)) -> keeps proj x (for_each l body).
Proof.
  intros Hb. induction l as [| a rest IH]; cbn [for_each].
  - apply keeps_ret.
  - apply keeps_bind; [apply Hb | intros _; exact IH].
Qed.

Lemma keeps_request {A} (c : tx A) d :
  keeps proj (proj d) c -> proj (fst (request c d)) = proj d.
Proof.
  intros H. unfold request. specialize (H d eq_refl).
  destruct (runStateT c d) as [e | [a d']]; [reflexivity | exact H].
Qed.

End Keeps.

Ltac keeps_step :=
  lazymatch goal with
  | |- keeps _ _ (bind get _) => apply keeps_get; intros ?d ?Hd
  | |- keeps _ _ (bind _ _) => apply keeps_bind; [| intros ?]
  | |- keeps _ _ (ret _) => apply keeps_ret
  | |- keeps _ _ (raise _) => apply keeps_raise
  | |- keeps _ _ (liftR _) => apply keeps_liftR
  | |- keeps _ _ (require _ _) => apply keeps_require
  | |- keeps _ _ (not_null _ _) => apply keeps_not_null
  | |- keeps _ _ (enforce _) => apply keeps_enforce
  | |- keeps _ _ (put _) => apply keeps_put; cbn; assumption
  end.

Lemma profiles_insert_attendance uid gen v l :
  keeps public_attendance l (profiles_insert uid gen v).
Proof. unfold profiles_insert. repeat keeps_step. Qed.

Lemma profiles_update_attendance uid where_ s l :
  keeps public_attendance l (profiles_update uid where_ s).
Proof. unfold profiles_update. repeat keeps_step. Qed.

Lemma events_insert_attendance uid gen v l :
  keeps public_attendance l (events_insert uid gen v).
Proof. unfold events_insert. repeat keeps_step. Qed.

Lemma events_update_attendance uid where_ s l :
  keeps public_attendance l (events_update uid where_ s).
Proof. unfold events_update. repeat keeps_step. Qed.

Lemma auth_users_insert_attendance gen NEW l :
  keeps public_attendance l (auth_users_insert gen NEW).
Proof.
  unfold auth_users_insert. repeat keeps_step.
  unfold fire, auth_users_triggers.
  cbn [filter tg_matches tgwhen tgop for_each tgfunc].
  unfold handle_new_user. repeat keeps_step.
Qed.

Lemma distinctb_filter {A B} (eqb : A -> A -> bool) (key : B -> A) (f : B -> bool) l :
  distinctb eqb (map key l) = true -> distinctb eqb (map key (filter f l)) = true.
Proof.
  induction l as [| x rest IH]; [reflexivity |].
  cbn [map distinctb filter]. rewrite andb_true_iff, negb_true_iff. intros [Hx Hrest].
  destruct (f x); [| exact (IH Hrest)].
  cbn [map distinctb]. rewrite (IH Hrest), andb_true_r, negb_true_iff.
  destruct (existsb (eqb (key x)) (map key (filter f rest))) eqn:E; [| reflexivity].
  apply existsb_exists in E. destruct E as [k [Hk1 Hk2]].
  apply in_map_iff in Hk1. destruct Hk1 as [y [<- Hy]].
  apply filter_In in Hy. destruct Hy as [Hy _].
  assert (existsb (eqb (key x)) (map key rest) = true); [| congruence].
  apply existsb_exists. exists (key y). split; [apply in_map; exact Hy | exact Hk2].
Qed.

Lemma run_fire_insert NEW d :
  runStateT (fire attendance_triggers AFTER INSERT None (Some NEW)) d = inr (tt, d).
Proof. reflexivity. Qed.

Lemma run_attendance_insert uid gen v d :
  runStateT (attendance_insert uid gen v) d =
  match Sql.int4_opt (default (attendance.v_hours_awarded v) (Some 0%Z)) with
  | inl e => inl e
  | inr hours_awarded =>
      if policy.attendance_insert uid (attendance.v_user_id v)
      then match attendance.v_event_id v, attendance.v_user_id v with
           | Some event_id, Some user_id =>
               let NEW := attendance.mk (default (attendance.v_id v) gen) event_id user_id
                            (default (attendance.v_status v) pending) hours_awarded
                            (attendance.v_verified_by v) in
               let d1 := with_attendance (public_attendance d ++ [NEW]) d in
               match constraints.attendance d1 with
               | inl e => inl e
               | inr _ => inr (1, d1)
               end
           | None, _ => inl (not_null_violation "event_id")
           | Some _, None => inl (not_null_violation "user_id")
           end
      else inl insufficient_privilege
  end.
Proof.
  unfold attendance_insert. rewrite run_bind, run_liftR.
  destruct (Sql.int4_opt _) as [e | h]; [reflexivity |].
  rewrite run_bind, run_require.
  destruct (policy.attendance_insert _ _); [| reflexivity].
  rewrite run_bind, run_not_null.
  destruct (attendance.v_event_id v) as [ev |]; [| reflexivity].
  rewrite run_bind, run_not_null.
  destruct (attendance.v_user_id v) as [us |]; [| reflexivity].
  cbv zeta.
  rewrite run_bind, run_get, run_bind, run_put, run_bind, run_enforce.
  destruct (constraints.attendance _) as [e | ok]; [reflexivity |].
  rewrite run_bind, run_fire_insert, run_ret. reflexivity.
Qed.

Lemma constraints_attendance_pairs d :
  constraints.attendance d = inr tt -> pair_unique d = true.
Proof.
  intros H. assert (H' : holds (constraints.attendance d) = true) by (rewrite H; reflexivity).
  unfold constraints.attendance in H'.
  rewrite !holds_check_bind, !andb_true_iff in H'. unfold pair_unique. tauto.
Qed.

Lemma step_pair_unique d c : pair_unique d = true -> pair_unique (step d c) = true.
Proof.
  intros H. destruct c as [[uid gen] st]. unfold step.
  assert (Hframe : forall c : tx nat,
             keeps public_attendance (public_attendance d) c ->
             pair_unique (fst (request c d)) = true).
  { intros c Hc. unfold pair_unique. rewrite (keeps_request _ c d Hc). exact H. }
  destruct st as [NEW | v | w s | v | w s | w | v | w s]; cbn [exec].
  - apply Hframe, auth_users_insert_attendance.
  - apply Hframe, profiles_insert_attendance.
  - apply Hframe, profiles_update_attendance.
  - apply Hframe, events_insert_attendance.
  - apply Hframe, events_update_attendance.
  - unfold request. rewrite run_events_delete. cbv zeta. cbn [fst].
    unfold pair_unique. cbn [public_attendance with_attendance with_events].
    apply distinctb_filter. exact H.
  - unfold request. rewrite run_attendance_insert.
    destruct (Sql.int4_opt _) as [e | h]; [exact H |].
    destruct (policy.attendance_insert _ _); [| exact H].
    destruct (attendance.v_event_id v) as [ev |]; [| exact H].
    destruct (attendance.v_user_id v) as [us |]; [| exact H].
    cbv zeta. destruct (constraints.attendance _) as [e | []] eqn:E; [exact H |].
    cbn [fst]. exact (constraints_attendance_pairs _ E).
  - unfold request. rewrite run_attendance_update. cbv zeta.
    destruct (Sql.int4_opt _) as [e | h]; [exact H |].
    destruct (forallb _ _); [| exact H].
    destruct (constraints.attendance _) as [e | []] eqn:E; [exact H |].
    destruct (account_all _ _ _) as [e | rows]; [exact H |].
    cbn [fst]. apply constraints_attendance_pairs in E. exact E.
Qed.

Lemma run_pair_unique trace d : pair_unique d = true -> pair_unique (run trace d) = true.
Proof.
  revert d. induction trace as [| c rest IH]; intros d H; [exact H |].
  cbn [run fold_left]. apply IH, step_pair_unique, H.
Qed.

Lemma distinctb_app_last {A} (eqb : A -> A -> bool) (l : list A) (x y : A) :
  In x l -> eqb x y = true -> distinctb eqb (l ++ [y]) = false.
Proof.
  induction l as [| z rest IH]; [intros [] |].
  intros [-> | Hx] E; cbn [app distinctb].
  - assert (existsb (eqb x) (rest ++ [y]) = true) as ->; [| reflexivity].
    rewrite existsb_app. cbn. rewrite E, !orb_true_r. reflexivity.
  - rewrite (IH Hx E), andb_false_r. reflexivity.
Qed.

Lemma duplicate_sign_up_rejected d uid gen v a :
  In a (public_attendance d) ->
  attendance.v_event_id v = Some (attendance.event_id a) ->
  attendance.v_user_id v = Some (attendance.user_id a) ->
  exists e, request (attendance_insert uid gen v) d = (d, inl e)
            /\ (uid = Some (attendance.user_id a) ->
                (forall h, attendance.v_hours_awarded v = Some (Some h) -> Sql.in_int4 h = true) ->
                exists c, e = unique_violation c).
Proof.
  intros Hin Hev Hus. unfold request. rewrite run_attendance_insert, Hev, Hus.
  destruct (Sql.int4_opt _) as [e | h] eqn:Eh.
  { exists e. split; [reflexivity |]. intros _ Hrange. exfalso.
    destruct (attendance.v_hours_awarded v) as [[h |] |]; cbn in Eh; try discriminate.
    unfold Sql.int4 in Eh. rewrite (Hrange h eq_refl) in Eh. discriminate. }
  destruct (policy.attendance_insert uid _) eqn:Ep.
  2:{ exists insufficient_privilege. split; [reflexivity |]. intros -> _.
      unfold policy.attendance_insert in Ep. cbn in Ep. rewrite N.eqb_refl in Ep.
      discriminate. }
  cbv zeta.
  match goal with |- context [constraints.attendance ?d1] => set (d1' := d1) end.
  assert (Hdup : distinctb pair_eqb
                   (map (fun a => (attendance.event_id a, attendance.user_id a))
                        (public_attendance d1')) = false).
  { unfold d1'. cbn [public_attendance with_attendance]. rewrite map_app. cbn [map].
    apply distinctb_app_last with (x := (attendance.event_id a, attendance.user_id a)).
    - apply (in_map (fun a => (attendance.event_id a, attendance.user_id a))). exact Hin.
    - unfold pair_eqb. cbn. rewrite !N.eqb_refl. reflexivity. }
  unfold constraints.attendance. rewrite Hdup.
  destruct (distinctb N.eqb (map attendance.id (public_attendance d1'))).
  - exists (unique_violation "attendance_event_id_user_id_key"). split; [reflexivity |].
    intros _ _. eexists. reflexivity.
  - exists (unique_violation "attendance_pkey"). split; [reflexivity |].
    intros _ _. eexists. reflexivity.
Qed.

(** ** Non-negative totals *)

Lemma set_total_hours_nonneg expr cond rows rows' :
  (forall t v, expr t = inr (Some v) -> (0 <= t)%Z -> (0 <= v)%Z) ->
  forallb (fun p => (0 <=? profiles.total_hours p)%Z) rows = true ->
  set_total_hours expr cond rows = inr rows' ->
  forallb (fun p => (0 <=? profiles.total_hours p)%Z) rows' = true.
Proof.
  intros Hf. revert rows'. induction rows as [| p rest IH]; intros rows' Hall H; cbn in H.
  - injection H as <-. reflexivity.
  - cbn [forallb] in Hall. apply andb_true_iff in Hall. destruct Hall as [Hp Hrest].
    destruct (Sql.is_true (cond p)).
    + destruct (expr (profiles.total_hours p)) as [e | [v |]] eqn:E; try discriminate.
      destruct (set_total_hours expr cond rest) as [e | rest']; try discriminate.
      injection H as <-. cbn [forallb profiles.total_hours profiles.with_total_hours].
      rewrite (IH rest' Hrest eq_refl), andb_true_r.
      apply Z.leb_le. apply (Hf _ _ E). apply Z.leb_le. exact Hp.
    + destruct (set_total_hours expr cond rest) as [e | rest']; try discriminate.
      injection H as <-. cbn [forallb]. rewrite Hp, (IH rest' Hrest eq_refl). reflexivity.
Qed.

Lemma accounting_nonneg OLD NEW rows rows' :
  hours_ok NEW = true ->
  forallb (fun p => (0 <=? profiles.total_hours p)%Z) rows = true ->
  accounting OLD NEW rows = inr rows' ->
  forallb (fun p => (0 <=? profiles.total_hours p)%Z) rows' = true.
Proof.
  intros HN Hall. unfold accounting.
  destruct (_ && _).
  - apply set_total_hours_nonneg; [| exact Hall].
    intros t v. unfold hours_ok in HN.
    destruct (attendance.hours_awarded NEW) as [h |]; cbn; [| discriminate].
    unfold Sql.int4. destruct (Sql.in_int4 _); [| discriminate].
    intros [= <-] Ht. apply Z.leb_le in HN. lia.
  - destruct (_ && _); [| intros [= <-]; exact Hall].
    apply set_total_hours_nonneg; [| exact Hall].
    intros t v. destruct (attendance.hours_awarded OLD) as [h |]; cbn.
    + unfold Sql.int4. destruct (Sql.in_int4 _); cbn; [| discriminate].
      intros [= <-] _. lia.
    + intros [= <-] _. lia.
Qed.

Lemma account_all_nonneg s OLDs rows rows' :
  (forall o, In o OLDs -> hours_ok (attendance.apply s o) = true) ->
  forallb (fun p => (0 <=? profiles.total_hours p)%Z) rows = true ->
  account_all s OLDs rows = inr rows' ->
  forallb (fun p => (0 <=? profiles.total_hours p)%Z) rows' = true.
Proof.
  revert rows. induction OLDs as [| o rest IH]; intros rows Hh Hall; cbn [account_all].
  - intros [= <-]. exact Hall.
  - destruct (accounting o (attendance.apply s o) rows) as [e | rows1] eqn:E; [discriminate |].
    apply IH.
    + intros x Hx. apply Hh. right. exact Hx.
    + apply (accounting_nonneg o (attendance.apply s o) rows rows1); auto.
      apply Hh. left. reflexivity.
Qed.

Lemma step_status_transition d c :
  status_transition c ->
  hours_nonneg d = true -> totals_nonneg d = true ->
  hours_nonneg (step d c) = true /\ totals_nonneg (step d c) = true.
Proof.
  destruct c as [[uid gen] st]. destruct st; cbn [status_transition]; try contradiction.
  intros Hs Hh Ht. unfold step. cbn [exec]. unfold request.
  rewrite run_attendance_update. cbv zeta.
  destruct (Sql.int4_opt _) as [e | hv]; [auto |].
  destruct (forallb _ _); [| auto].
  destruct (constraints.attendance _) as [e | ok]; [auto |].
  destruct (account_all _ _ _) as [e | rows] eqn:E; [auto |].
  cbn [fst].
  assert (Hkeep : forall a, hours_ok (attendance.apply s a) = hours_ok a).
  { intros a. unfold hours_ok. cbn. rewrite Hs. reflexivity. }
  split.
  - unfold hours_nonneg in *. cbn [public_attendance with_profiles with_attendance].
    fold hours_ok in *. apply forallb_map_same; [| exact Hh].
    intros x _ Hx. destruct (attendance_target d uid where_ x); [| exact Hx].
    rewrite Hkeep. exact Hx.
  - unfold totals_nonneg in *. cbn [public_profiles with_profiles].
    apply (account_all_nonneg _ _ _ _) with (3 := E); [| exact Ht].
    intros o Ho. rewrite Hkeep. apply filter_In in Ho. destruct Ho as [Ho _].
    unfold hours_nonneg in Hh. fold hours_ok in Hh. rewrite forallb_forall in Hh. auto.
Qed.

(** C2 (amended): over attendance records whose hours-awarded values are
    non-negative or absent, every sequence of status transitions started
    with non-negative totals (zero in particular) keeps every profile's
    total-hours at or above zero. *)
Theorem C2_totals_stay_nonneg :
  forall (trace : list call) (d : db),
    Forall status_transition trace ->
    hours_nonneg d = true ->
    totals_nonneg d = true ->
    totals_nonneg (run trace d) = true.
Proof.
  induction trace as [| c rest IH]; intros d Hall Hh Ht; [exact Ht |].
  inversion Hall as [| c' rest' Hc Hrest]; subst.
  cbn [run fold_left].
  destruct (step_status_transition d c Hc Hh Ht) as [Hh' Ht'].
  exact (IH (step d c) Hrest Hh' Ht').
Qed.

Lemma C2_witness :
  Forall status_transition
    [ (Some demo.ole, 0%N,
       UpdateAttendance (demo.by_id 301%N) (OfficerDashboard.status_patch approved demo.ole));
      (Some demo.ole, 0%N,
       UpdateAttendance (demo.by_id 301%N) (OfficerDashboard.status_patch denied demo.ole)) ]
  /\ hours_nonneg (demo.d1 pending 3 0) = true
  /\ totals_nonneg (demo.d1 pending 3 0) = true
  /\ totals_nonneg
       (run [ (Some demo.ole, 0%N,
               UpdateAttendance (demo.by_id 301%N)
                 (OfficerDashboard.status_patch approved demo.ole));
              (Some demo.ole, 0%N,
               UpdateAttendance (demo.by_id 301%N)
                 (OfficerDashboard.status_patch denied demo.ole)) ]
            (demo.d1 pending 3 0)) = true.
Proof.
  assert (H : Forall status_transition
    [ (Some demo.ole, 0%N,
       UpdateAttendance (demo.by_id 301%N) (OfficerDashboard.status_patch approved demo.ole));
      (Some demo.ole, 0%N,
       UpdateAttendance (demo.by_id 301%N) (OfficerDashboard.status_patch denied demo.ole)) ]).
  { repeat constructor. }
  split; [exact H |]. split; [reflexivity |]. split; [reflexivity |].
  apply C2_totals_stay_nonneg; [exact H | reflexivity | reflexivity].
Defined.

(** C2, as stated, fails: Mia signs up with an hours-awarded value of -5,
    which the insert policy admits; the officer's approval then takes her
    total from 0 to -5. *)
Lemma C2_counterexample :
  run [ (Some demo.mia, 301%N,
         InsertAttendance (attendance.val None (Some 201%N) (Some demo.mia) None
                                          (Some (Some (-5)%Z)) None)) ] demo.d0
  = demo.d1 pending (-5) 0
  /\ map profiles.total_hours (public_profiles (demo.d1 pending (-5) 0)) = [0; 0; 0]%Z
  /\ map profiles.total_hours
       (public_profiles
          (run [ (Some demo.ole, 0%N,
                  UpdateAttendance (demo.by_id 301%N)
                    (OfficerDashboard.status_patch approved demo.ole)) ]
               (demo.d1 pending (-5) 0))) = [0; 0; -5]%Z.
Proof. repeat split; vm_compute; reflexivity. Qed.

(** ** Sign-up *)

Lemma distinctb_app_fresh {A} (eqb : A -> A -> bool) (l : list A) (y : A) :
  distinctb eqb l = true -> (forall x, In x l -> eqb x y = false) ->
  distinctb eqb (l ++ [y]) = true.
Proof.
  induction l as [| z rest IH]; [reflexivity |].
  cbn [app distinctb]. rewrite !andb_true_iff, !negb_true_iff.
  intros [Hz Hrest] Hy. split.
  - rewrite existsb_app, Hz. cbn. rewrite (Hy z (or_introl eq_refl)). reflexivity.
  - apply IH; [exact Hrest |]. intros x Hx. apply Hy. right. exact Hx.
Qed.

Lemma constraints_attendance_insert d NEW :
  constraints.attendance d = inr tt ->
  (forall a, In a (public_attendance d) -> attendance.id a <> attendance.id NEW) ->
  (forall a, In a (public_attendance d) ->
             ~ (attendance.event_id a = attendance.event_id NEW
                /\ attendance.user_id a = attendance.user_id NEW)) ->
  references_event d (attendance.event_id NEW) = true ->
  references_user d (attendance.user_id NEW) = true ->
  attendance.verified_by NEW = None ->
  constraints.attendance (with_attendance (public_attendance d ++ [NEW]) d) = inr tt.
Proof.
  intros H Hid Hpair Hev Hus Hv. apply holds_inr.
  assert (H' : holds (constraints.attendance d) = true) by (rewrite H; reflexivity).
  clear H. unfold constraints.attendance in *.
  rewrite !holds_check_bind, holds_check, !andb_true_iff in *.
  destruct H' as [H1 [H2 [H3 [H4 H5]]]].
  cbn [public_attendance with_attendance]. rewrite !map_app, !forallb_app. cbn [map forallb].
  rewrite !andb_true_iff.
  repeat split; try assumption; try exact Hev; try exact Hus; try (rewrite Hv; reflexivity).
  - apply distinctb_app_fresh; [exact H1 |].
    intros x Hx. apply in_map_iff in Hx. destruct Hx as [a [<- Ha]].
    apply N.eqb_neq. exact (Hid a Ha).
  - apply distinctb_app_fresh; [exact H2 |].
    intros x Hx. apply in_map_iff in Hx. destruct Hx as [a [<- Ha]].
    unfold pair_eqb. cbn [fst snd].
    destruct (N.eqb_spec (attendance.event_id a) (attendance.event_id NEW)) as [E1 |];
      [| reflexivity].
    destruct (N.eqb_spec (attendance.user_id a) (attendance.user_id NEW)) as [E2 |];
      [| reflexivity].
    exfalso. exact (Hpair a Ha (conj E1 E2)).
Qed.

Lemma wf_events_typed d e :
  wf_db d = true -> In e (public_events d) -> Sql.in_int4 (events.hours_value e) = true.
Proof.
  intros Hwf He. destruct (wf_db_parts d Hwf) as [Ht _].
  unfold well_typed in Ht. rewrite !andb_true_iff in Ht. destruct Ht as [[_ Ht] _].
  rewrite forallb_forall in Ht. exact (Ht e He).
Qed.

Lemma references_event_in d e :
  In e (public_events d) -> references_event d (events.id e) = true.
Proof.
  intros He. unfold references_event. apply existsb_exists.
  exists e. split; [exact He | apply N.eqb_refl].
Qed.

(** C8 (amended): an accepted insert into attendance stores the
    hours-awarded value it is given, and the column default 0 when it gives
    none. The sign-up function gives its [hoursValue] argument, and the
    Sign Up button of an event card passes the hour value of the card's
    event; so a sign-up through the button of a card that shows the event
    as it is stored creates the record with the hour value the event has
    at that time (and with status pending, for the signed-in user). *)
Theorem C8_sign_up_takes_event_hours :
  (forall (d d' : db) (uid : option uuid) (gen_random_uuid : uuid)
          (v : attendance.values) (n : nat),
      request (attendance_insert uid gen_random_uuid v) d = (d', inr n) ->
      exists NEW,
        public_attendance d' = (public_attendance d ++ [NEW])%list
        /\ attendance.hours_awarded NEW
           = default (attendance.v_hours_awarded v) (Some 0%Z))
  /\ (forall (d : db) (user : option uuid) (gen_random_uuid eventId : uuid) (hoursValue : Z),
        let r := MemberDashboard.signUpForEvent user gen_random_uuid eventId hoursValue d in
        snd r = Some (toast_default "Success!") ->
        exists NEW,
          public_attendance (fst r) = (public_attendance d ++ [NEW])%list
          /\ attendance.event_id NEW = eventId
          /\ attendance.hours_awarded NEW = Some hoursValue)
  /\ (forall (d : db) (u gen_random_uuid : uuid) (event : events.row),
        wf_db d = true ->
        references_user d u = true ->
        In event (public_events d) ->
        (forall a, In a (public_attendance d) -> attendance.id a <> gen_random_uuid) ->
        (forall a, In a (public_attendance d) ->
                   ~ (attendance.event_id a = events.id event /\ attendance.user_id a = u)) ->
        MemberDashboard.onClick_SignUp (Some u) gen_random_uuid event d =
        (with_attendance
           (public_attendance d ++
            [attendance.mk gen_random_uuid (events.id event) u pending
                           (Some (events.hours_value event)) None]) d,
         Some (toast_default "Success!"))).
Proof.
  assert (Hins : forall d d' uid gen v n,
             request (attendance_insert uid gen v) d = (d', inr n) ->
             exists NEW,
               public_attendance d' = (public_attendance d ++ [NEW])%list
               /\ attendance.event_id NEW = default (attendance.v_event_id v) (attendance.event_id NEW)
               /\ attendance.hours_awarded NEW
                  = default (attendance.v_hours_awarded v) (Some 0%Z)).
  { intros d d' uid gen v n. unfold request. rewrite run_attendance_insert.
    destruct (Sql.int4_opt _) as [e | h] eqn:Eh; [discriminate |].
    assert (Hh : h = default (attendance.v_hours_awarded v) (Some 0%Z)).
    { revert Eh. destruct (default (attendance.v_hours_awarded v) (Some 0%Z)) as [z |];
        cbn [Sql.int4_opt]; [| intros [= <-]; reflexivity].
      unfold Sql.int4. destruct (Sql.in_int4 z); [| discriminate].
      intros [= <-]. reflexivity. }
    destruct (policy.attendance_insert _ _); [| discriminate].
    destruct (attendance.v_event_id v) as [ev |]; [| discriminate].
    destruct (attendance.v_user_id v) as [us |]; [| discriminate].
    cbv zeta. destruct (constraints.attendance _) as [e | ok]; [discriminate |].
    intros [= <- _]. eexists. split; [reflexivity |]. split; [reflexivity | exact Hh]. }
  split; [| split].
  - intros d d' uid gen v n H. destruct (Hins d d' uid gen v n H) as [NEW [H1 [_ H2]]].
    exists NEW. split; assumption.
  - intros d user gen eventId hoursValue r. unfold r, MemberDashboard.signUpForEvent.
    destruct user as [u |]; [| discriminate].
    unfold show.
    destruct (request _ d) as [d1 [e | n]] eqn:E; cbn [fst snd]; [discriminate |].
    intros _. destruct (Hins d d1 _ _ _ n E) as [NEW [H1 [H2 H3]]].
    exists NEW. split; [exact H1 |]. split; [exact H2 | exact H3].
  - intros d u gen event Hwf Hu He Hfresh Hnew.
    unfold MemberDashboard.onClick_SignUp, MemberDashboard.signUpForEvent, request.
    rewrite run_attendance_insert.
    cbn [attendance.v_hours_awarded attendance.v_user_id attendance.v_event_id
         attendance.v_id attendance.v_status attendance.v_verified_by default Sql.int4_opt].
    unfold Sql.int4. rewrite (wf_events_typed d event Hwf He).
    unfold policy.attendance_insert. cbn [Sql.eq3 Sql.is_true]. rewrite N.eqb_refl.
    cbv zeta.
    rewrite constraints_attendance_insert; try assumption; try reflexivity.
    + destruct (wf_db_parts d Hwf) as [_ [_ [_ [_ Hc]]]]. exact Hc.
    + cbn. apply references_event_in. exact He.
Qed.

Lemma C8_witness :
  wf_db demo.d0 = true
  /\ MemberDashboard.onClick_SignUp (Some demo.mia) 301%N demo.cleanup demo.d0 =
     (demo.d1 pending 3 0, Some (toast_default "Success!")).
Proof.
  split; [reflexivity |].
  apply (proj2 (proj2 C8_sign_up_takes_event_hours) demo.d0 demo.mia 301%N demo.cleanup).
  - reflexivity.
  - reflexivity.
  - simpl. left. reflexivity.
  - simpl. intros a [].
  - simpl. intros a [].
Defined.

(** C8, as stated, fails. The clean-up is worth 3 hours, yet a sign-up
    that names no hours-awarded value is accepted with the column default
    0; and after the admin has set the event to 5 hours, the Sign Up button
    of a card fetched before the edit still stores 3. *)
Lemma C8_counterexample :
  map events.hours_value (public_events demo.d0) = [3%Z]
  /\ request (attendance_insert (Some demo.mia) 301%N
                (attendance.val None (Some 201%N) (Some demo.mia) None None None))
             demo.d0
     = (demo.d1 pending 0 0, inr 1)
  /\ map events.hours_value
       (public_events
          (run [ (Some demo.ada, 0%N,
                  UpdateEvent (fun e => N.eqb (events.id e) 201%N)
                              (events.set None None None None (Some 5%Z))) ] demo.d0))
     = [5%Z]
  /\ map attendance.hours_awarded
       (public_attendance
          (fst (MemberDashboard.onClick_SignUp (Some demo.mia) 301%N demo.cleanup
                  (run [ (Some demo.ada, 0%N,
                          UpdateEvent (fun e => N.eqb (events.id e) 201%N)
                                      (events.set None None None None (Some 5%Z))) ]
                       demo.d0))))
     = [Some 3%Z].
Proof. repeat split; vm_compute; reflexivity. Qed.

(** C4 (amended): an insert that supplies no status, as the insert of the
    sign-up function does, creates the record with status pending. *)
Theorem C4_pending_unless_supplied :
  (forall (d d' : db) (uid : option uuid) (gen_random_uuid : uuid)
          (v : attendance.values) (n : nat),
      attendance.v_status v = None ->
      request (attendance_insert uid gen_random_uuid v) d = (d', inr n) ->
      exists NEW, public_attendance d' = (public_attendance d ++ [NEW])%list
                  /\ attendance.status NEW = pending)
  /\ (forall (d : db) (user : option uuid) (gen_random_uuid eventId : uuid) (hoursValue : Z),
        let d' := fst (MemberDashboard.signUpForEvent user gen_random_uuid eventId hoursValue d) in
        d' = d
        \/ exists NEW, public_attendance d' = (public_attendance d ++ [NEW])%list
                       /\ attendance.status NEW = pending).
Proof.
  assert (Hins : forall d d' uid gen v n,
             attendance.v_status v = None ->
             request (attendance_insert uid gen v) d = (d', inr n) ->
             exists NEW, public_attendance d' = (public_attendance d ++ [NEW])%list
                         /\ attendance.status NEW = pending).
  { intros d d' uid gen v n Hs. unfold request. rewrite run_attendance_insert, Hs.
    destruct (Sql.int4_opt _) as [e | h]; [discriminate |].
    destruct (policy.attendance_insert _ _); [| discriminate].
    destruct (attendance.v_event_id v) as [ev |]; [| discriminate].
    destruct (attendance.v_user_id v) as [us |]; [| discriminate].
    cbv zeta. destruct (constraints.attendance _) as [e | ok]; [discriminate |].
    intros [= <- _]. eexists. split; reflexivity. }
  split; [exact Hins |].
  intros d user gen eventId hoursValue. unfold MemberDashboard.signUpForEvent.
  destruct user as [u |]; [| left; reflexivity].
  unfold show.
  destruct (request _ d) as [d1 [e | n]] eqn:E; cbn [fst snd].
  - left. unfold request in E.
    destruct (runStateT _ d) as [e' | [a d2]]; [| discriminate]. congruence.
  - right. apply (Hins d d1 _ _ _ n) with (2 := E). reflexivity.
Qed.

Lemma C4_witness :
  exists NEW,
    public_attendance (demo.d1 pending 3 0) = (public_attendance demo.d0 ++ [NEW])%list
    /\ attendance.status NEW = pending.
Proof.
  apply (proj1 C4_pending_unless_supplied demo.d0 (demo.d1 pending 3 0) (Some demo.mia) 301%N
           (attendance.val None (Some 201%N) (Some demo.mia) None (Some (Some 3%Z)) None) 1).
  - reflexivity.
  - vm_compute. reflexivity.
Defined.

(** C4, as stated, fails: the insert policy only compares the caller with
    the record's user, so Mia's insert of an already approved record is
    accepted as it is (and credits no hours: no trigger runs on inserts). *)
Lemma C4_counterexample :
  request (attendance_insert (Some demo.mia) 301%N
             (attendance.val None (Some 201%N) (Some demo.mia) (Some approved)
                             (Some (Some 3%Z)) None)) demo.d0
  = (demo.d1 approved 3 0, inr 1).
Proof. vm_compute. reflexivity. Qed.

(** C7: at most one attendance record exists for an (event, user) pair in
    every state the requests lead to; a second creation for a pair fails and
    leaves the store as it was, with a unique-constraint violation when the
    caller is the record's user (as in every sign-up) and the hours value is
    an INTEGER. *)
Theorem C7_one_attendance_per_pair :
  (forall (trace : list call) (d : db),
      pair_unique d = true -> pair_unique (run trace d) = true)
  /\ (forall (d : db) (uid : option uuid) (gen_random_uuid : uuid)
             (v : attendance.values) (a : attendance.row),
        In a (public_attendance d) ->
        attendance.v_event_id v = Some (attendance.event_id a) ->
        attendance.v_user_id v = Some (attendance.user_id a) ->
        exists e, request (attendance_insert uid gen_random_uuid v) d = (d, inl e)
                  /\ (uid = Some (attendance.user_id a) ->
                      (forall h, attendance.v_hours_awarded v = Some (Some h) ->
                                 Sql.in_int4 h = true) ->
                      exists c, e = unique_violation c))
  /\ (forall (d : db) (gen_random_uuid : uuid) (a : attendance.row) (hoursValue : Z),
        In a (public_attendance d) ->
        Sql.in_int4 hoursValue = true ->
        exists c,
          MemberDashboard.signUpForEvent (Some (attendance.user_id a)) gen_random_uuid
            (attendance.event_id a) hoursValue d
          = (d, Some (toast_destructive (unique_violation c)))).
Proof.
  split; [exact run_pair_unique |]. split; [exact duplicate_sign_up_rejected |].
  intros d gen a h Hin Hh.
  destruct (duplicate_sign_up_rejected d (Some (attendance.user_id a)) gen
              (attendance.val None (Some (attendance.event_id a)) (Some (attendance.user_id a))
                              None (Some (Some h)) None) a Hin eq_refl eq_refl)
    as [e [He Hc]].
  destruct (Hc eq_refl) as [c ->].
  { intros h' [= <-]. exact Hh. }
  exists c. unfold MemberDashboard.signUpForEvent, show. rewrite He. reflexivity.
Qed.

Lemma C7_witness :
  pair_unique (run [ (Some demo.mia, 301%N,
                      InsertAttendance (attendance.val None (Some 201%N) (Some demo.mia) None
                                                       (Some (Some 3%Z)) None));
                     (Some demo.mia, 302%N,
                      InsertAttendance (attendance.val None (Some 201%N) (Some demo.mia) None
                                                       (Some (Some 3%Z)) None)) ]
                   demo.d0) = true
  /\ exists c,
       MemberDashboard.signUpForEvent (Some demo.mia) 302%N 201%N 3 (demo.d1 pending 3 0)
       = (demo.d1 pending 3 0, Some (toast_destructive (unique_violation c))).
Proof.
  split.
  - apply (proj1 C7_one_attendance_per_pair). reflexivity.
  - apply (proj2 (proj2 C7_one_attendance_per_pair) (demo.d1 pending 3 0) 302%N
             (demo.signup pending 3) 3%Z).
    + simpl. left. reflexivity.
    + reflexivity.
Defined.

(** C3: what the store does with direct writes to a profile. The update
    policy of the profiles table only compares the caller with the row's
    user: member Mia sets her own role to admin and her own total-hours to
    1000, and both writes are accepted; administrator Ada's change of Mia's
    role reaches no row, and the dashboard still reports success. *)
Example C3_profile_writes :
  AdminDashboard.updateUserRole (Some demo.mia) demo.mia admin demo.d0
  = (with_profiles
       [ profiles.mk 101%N demo.ada "Ada" "ada@ices.org" admin 0%Z;
         profiles.mk 102%N demo.ole "Ole" "ole@ices.org" officer 0%Z;
         profiles.mk 103%N demo.mia "Mia" "mia@ices.org" admin 0%Z ] demo.d0,
     Some (toast_default "User role updated to admin!"))
  /\ request (profiles_update (Some demo.mia)
                (fun p => N.eqb (profiles.user_id p) demo.mia)
                (profiles.set None None None None None (Some 1000%Z))) demo.d0
     = (with_profiles
          [ profiles.mk 101%N demo.ada "Ada" "ada@ices.org" admin 0%Z;
            profiles.mk 102%N demo.ole "Ole" "ole@ices.org" officer 0%Z;
            profiles.mk 103%N demo.mia "Mia" "mia@ices.org" member 1000%Z ] demo.d0,
        inr 1)
  /\ policy.get_current_user_role demo.d0 (Some demo.ada) = Some admin
  /\ AdminDashboard.updateUserRole (Some demo.ada) demo.mia officer demo.d0
     = (demo.d0, Some (toast_default "User role updated to officer!")).
Proof. repeat split; vm_compute; reflexivity. Qed.

(** ** Concrete runs *)


Lemma C9_witness :
  let d := demo.d1 approved 3 3 in
  let edit := attendance_update (Some demo.ole) (demo.by_id 301%N)
                (attendance.set None None None None (Some (Some 10%Z)) None) in
  map attendance.hours_awarded (public_attendance (fst (request edit d))) = [Some 10%Z]
  /\ public_profiles (fst (request edit d)) = public_profiles d.
Proof.
  intros d edit. split; [vm_compute; reflexivity |].
  apply (C9_hours_edit_keeps_totals d (Some demo.ole) (demo.by_id 301%N)
           (attendance.set None None None None (Some (Some 10%Z)) None)).
  intros a _ _. reflexivity.
Defined.

Lemma C5_witness :
  let d := demo.d1 pending 3 0 in
  let OLD := demo.signup pending 3 in
  let s := OfficerDashboard.status_patch approved demo.ole in
  let r := request (attendance_update (Some demo.ole)
                      (fun a => N.eqb (attendance.id a) (attendance.id OLD)) s) d in
  snd r = inr 1 /\ In (attendance.apply s OLD) (public_attendance (fst r))
  /\ attendance.status (attendance.apply s OLD) = approved.
Proof.
  intros d OLD s r.
  apply (proj1 (C5_status_update_gate d demo.ole OLD approved eq_refl
                  (or_introl eq_refl))).
  - reflexivity.
  - vm_compute. reflexivity.
Defined.

(** C5, as stated, fails: Mia signs up with no hours-awarded value (the
    column is nullable); Ole, an officer, cannot approve that record: the
    hour accounting raises, the update is refused and the store is left as
    it was. *)
Lemma C5_counterexample :
  run [ (Some demo.mia, 301%N,
         InsertAttendance (attendance.val None (Some 201%N) (Some demo.mia) None
                                          (Some None) None)) ] demo.d0
  = sample.d2 pending 0
  /\ policy.get_current_user_role (sample.d2 pending 0) (Some demo.ole) = Some officer
  /\ request (attendance_update (Some demo.ole) (demo.by_id 301%N)
                (OfficerDashboard.status_patch approved demo.ole))
             (sample.d2 pending 0)
     = (sample.d2 pending 0, inl (not_null_violation "total_hours"))
  /\ OfficerDashboard.updateAttendanceStatus (Some demo.ole) 301%N approved
       (sample.d2 pending 0)
     = (sample.d2 pending 0, Some (toast_destructive (not_null_violation "total_hours"))).
Proof. repeat split; vm_compute; reflexivity. Qed.


Lemma C10_witness :
  let d := demo.d1 approved 3 3 in
  let d' := fst (request (events_delete (Some demo.ada) (fun _ => true)) d) in
  map profiles.total_hours (public_profiles d) = [0; 0; 3]%Z
  /\ policy.get_current_user_role d (Some demo.ada) = Some admin
  /\ public_profiles d' = public_profiles d
  /\ public_events d' = []
  /\ public_attendance d' = [].
Proof.
  intros d d'.
  destruct (C10_event_delete_keeps_totals d (Some demo.ada) (fun _ => true)) as [Hp Hrest].
  destruct (Hrest eq_refl) as [He Ha].
  split; [reflexivity |]. split; [reflexivity |]. split; [exact Hp |].
  split; [exact He | exact Ha].
Defined.

(** * Further properties of the code *)

(** ** Inverting an accepted statement *)

Ltac run_rw H :=
  repeat (first
    [ rewrite run_bind in H | rewrite run_get in H | rewrite run_put in H
    | rewrite run_ret in H | rewrite run_raise in H | rewrite run_liftR in H
    | rewrite run_require in H | rewrite run_not_null in H | rewrite run_enforce in H ];
    cbv beta iota zeta in H).

Ltac run_case H :=
  match type of H with
  | context [match ?x with inl _ => _ | inr _ => _ end] =>
      lazymatch x with
      | match _ with inl _ => _ | inr _ => _ end => fail
      | match _ with Some _ => _ | None => _ end => fail
      | (if _ then _ else _) => fail
      | runStateT _ _ => fail
      | _ => let E := fresh "E" in destruct x eqn:E; [discriminate H |]
      end
  | context [if ?b then _ else _] =>
      lazymatch b with
      | (if _ then _ else _) => fail
      | _ => let E := fresh "E" in destruct b eqn:E; [| discriminate H]
      end
  | context [match ?x with Some _ => _ | None => _ end] =>
      lazymatch x with
      | match _ with Some _ => _ | None => _ end => fail
      | _ => let E := fresh "E" in destruct x eqn:E; [| discriminate H]
      end
  end; cbv beta iota zeta in H.

Ltac run_inv H := repeat (run_rw H; try run_case H).

(** ** Every request keeps the store well formed *)

Lemma wf_db_iff d :
  wf_db d = true <->
  (forallb (fun p => Sql.in_int4 (profiles.total_hours p)) (public_profiles d) = true
   /\ forallb (fun e => Sql.in_int4 (events.hours_value e)) (public_events d) = true
   /\ forallb (fun a => match attendance.hours_awarded a with
                        | Some h => Sql.in_int4 h
                        | None => true
                        end) (public_attendance d) = true)
  /\ holds (constraints.users d) = true
  /\ holds (constraints.profiles d) = true
  /\ holds (constraints.events d) = true
  /\ holds (constraints.attendance d) = true.
Proof. unfold wf_db, well_typed. rewrite !andb_true_iff. tauto. Qed.

Lemma holds_of_inr (r : result unit) u : r = inr u -> holds r = true.
Proof. intros ->. reflexivity. Qed.

Lemma int4_inr z z' : Sql.int4 z = inr z' -> z' = z /\ Sql.in_int4 z = true.
Proof. unfold Sql.int4. destruct (Sql.in_int4 z); [intros [= <-]; auto | discriminate]. Qed.

Lemma int4_opt_inr o o' :
  Sql.int4_opt o = inr o' ->
  o' = o /\ match o with Some h => Sql.in_int4 h | None => true end = true.
Proof.
  destruct o as [h |]; cbn; [| intros [= <-]; auto].
  destruct (Sql.int4 h) as [e | h'] eqn:E; [discriminate |].
  intros [= <-]. destruct (int4_inr h h' E) as [-> Hr]. auto.
Qed.

Lemma references_user_grow d l u :
  references_user d u = true ->
  references_user (with_auth_users (auth_users d ++ l) d) u = true.
Proof.
  unfold references_user. cbn [auth_users with_auth_users].
  rewrite existsb_app. intros ->. reflexivity.
Qed.

Lemma references_event_grow d l e :
  references_event d e = true ->
  references_event (with_events (public_events d ++ l) d) e = true.
Proof.
  unfold references_event. cbn [public_events with_events].
  rewrite existsb_app. intros ->. reflexivity.
Qed.

Lemma forallb_impl {A} (f g : A -> bool) (l : list A) :
  (forall x, f x = true -> g x = true) -> forallb f l = true -> forallb g l = true.
Proof.
  intros H. rewrite !forallb_forall. intros Hf x Hx. apply H, Hf, Hx.
Qed.

Lemma auth_users_insert_wf gen NEW d n d' :
  wf_db d = true ->
  runStateT (auth_users_insert gen NEW) d = inr (n, d') -> wf_db d' = true.
Proof.
  intros Hwf H. apply wf_db_iff in Hwf.
  destruct Hwf as [[Tp [Te Ta]] [Cu [Cp [Ce Ca]]]].
  unfold auth_users_insert, fire, auth_users_triggers, handle_new_user in H.
  cbn [filter tg_matches tgwhen tgop for_each tgfunc option_map] in H.
  run_inv H. (injection H as Hn Hd; subst d'). apply wf_db_iff.
  match goal with
  | E : constraints.users _ = inr _ |- _ => apply holds_of_inr in E; rename E into Cu'
  end.
  match goal with
  | E : constraints.profiles _ = inr _ |- _ => apply holds_of_inr in E; rename E into Cp'
  end.
  split; [split; [| split] |]; [| exact Te | exact Ta |].
  - cbn [public_profiles with_profiles with_auth_users]. rewrite forallb_app, Tp. reflexivity.
  - split; [exact Cu' |]. split; [exact Cp' |]. split.
    + unfold constraints.events in *. rewrite holds_check_bind, holds_check, andb_true_iff in *.
      destruct Ce as [Ce1 Ce2]. split; [exact Ce1 |].
      revert Ce2. apply forallb_impl. intros e. apply (references_user_grow d [NEW]).
    + unfold constraints.attendance in *.
      rewrite !holds_check_bind, holds_check, !andb_true_iff in *.
      destruct Ca as [Ca1 [Ca2 [Ca3 [Ca4 Ca5]]]].
      repeat split; try assumption.
      * revert Ca4. apply forallb_impl. intros a. apply (references_user_grow d [NEW]).
      * revert Ca5. apply forallb_impl. intros a.
        destruct (attendance.verified_by a); [| auto]. apply (references_user_grow d [NEW]).
Qed.

Lemma profiles_insert_wf uid gen v d n d' :
  wf_db d = true ->
  runStateT (profiles_insert uid gen v) d = inr (n, d') -> wf_db d' = true.
Proof.
  intros Hwf H. apply wf_db_iff in Hwf.
  destruct Hwf as [[Tp [Te Ta]] [Cu [Cp [Ce Ca]]]].
  unfold profiles_insert in H. run_inv H. (injection H as Hn Hd; subst d').
  match goal with E : Sql.int4 _ = inr _ |- _ => apply int4_inr in E; destruct E as [-> Hz] end.
  match goal with
  | E : constraints.profiles _ = inr _ |- _ => apply holds_of_inr in E; rename E into Cp'
  end.
  apply wf_db_iff. split; [split; [| split] |]; [| exact Te | exact Ta |].
  - cbn [public_profiles with_profiles]. rewrite forallb_app, Tp. cbn. rewrite Hz. reflexivity.
  - split; [exact Cu |]. split; [exact Cp' |]. split; [exact Ce | exact Ca].
Qed.

Lemma profiles_update_wf uid where_ s d n d' :
  wf_db d = true ->
  runStateT (profiles_update uid where_ s) d = inr (n, d') -> wf_db d' = true.
Proof.
  intros Hwf H. apply wf_db_iff in Hwf.
  destruct Hwf as [[Tp [Te Ta]] [Cu [Cp [Ce Ca]]]].
  unfold profiles_update in H. run_inv H. (injection H as Hn Hd; subst d').
  match goal with
  | E : Sql.int4_opt _ = inr _ |- _ => apply int4_opt_inr in E; destruct E as [_ Hz]
  end.
  match goal with
  | E : constraints.profiles _ = inr _ |- _ => apply holds_of_inr in E; rename E into Cp'
  end.
  apply wf_db_iff. split; [split; [| split] |]; [| exact Te | exact Ta |].
  - cbn [public_profiles with_profiles].
    apply forallb_map_same; [| exact Tp].
    intros p _ Hp. destruct (where_ p && _ && _); [| exact Hp].
    cbn. destruct (profiles.s_total_hours s); [exact Hz | exact Hp].
  - split; [exact Cu |]. split; [exact Cp' |]. split; [exact Ce | exact Ca].
Qed.

Lemma events_insert_wf uid gen v d n d' :
  wf_db d = true ->
  runStateT (events_insert uid gen v) d = inr (n, d') -> wf_db d' = true.
Proof.
  intros Hwf H. apply wf_db_iff in Hwf.
  destruct Hwf as [[Tp [Te Ta]] [Cu [Cp [Ce Ca]]]].
  unfold events_insert in H. run_inv H. (injection H as Hn Hd; subst d').
  match goal with
  | E : Sql.int4_opt _ = inr _ |- _ =>
      apply int4_opt_inr in E; destruct E as [Ez Hz]; rewrite <- Ez in Hz
  end.
  match goal with
  | E : constraints.events _ = inr _ |- _ => apply holds_of_inr in E; rename E into Ce'
  end.
  apply wf_db_iff. split; [split; [| split] |]; [exact Tp | | exact Ta |].
  - cbn [public_events with_events]. rewrite forallb_app, Te. cbn.
    rewrite Hz. reflexivity.
  - split; [exact Cu |]. split; [exact Cp |]. split; [exact Ce' |].
    unfold constraints.attendance in *.
    rewrite !holds_check_bind, holds_check, !andb_true_iff in *.
    destruct Ca as [Ca1 [Ca2 [Ca3 [Ca4 Ca5]]]].
    repeat split; try assumption.
    revert Ca3. apply forallb_impl. intros a. apply references_event_grow.
Qed.

Lemma events_update_wf uid where_ s d n d' :
  wf_db d = true ->
  runStateT (events_update uid where_ s) d = inr (n, d') -> wf_db d' = true.
Proof.
  intros Hwf H. apply wf_db_iff in Hwf.
  destruct Hwf as [[Tp [Te Ta]] [Cu [Cp [Ce Ca]]]].
  unfold events_update in H. run_inv H. (injection H as Hn Hd; subst d').
  match goal with
  | E : Sql.int4_opt _ = inr _ |- _ => apply int4_opt_inr in E; destruct E as [_ Hz]
  end.
  match goal with
  | E : constraints.events _ = inr _ |- _ => apply holds_of_inr in E; rename E into Ce'
  end.
  apply wf_db_iff. split; [split; [| split] |]; [exact Tp | | exact Ta |].
  - cbn [public_events with_events].
    apply forallb_map_same; [| exact Te].
    intros e _ He. destruct (where_ e && _ && _); [| exact He].
    cbn. destruct (events.s_hours_value s); [exact Hz | exact He].
  - split; [exact Cu |]. split; [exact Cp |]. split; [exact Ce' |].
    unfold constraints.attendance in *.
    rewrite !holds_check_bind, holds_check, !andb_true_iff in *.
    destruct Ca as [Ca1 [Ca2 [Ca3 [Ca4 Ca5]]]].
    repeat split; try assumption.
    revert Ca3. apply forallb_impl. intros a. unfold references_event.
    cbn [public_events with_events]. rewrite existsb_exists.
    intros [e [He1 He2]]. apply existsb_exists.
    exists (if where_ e && policy.events_update d uid && policy.events_select
            then events.apply s e else e).
    split; [apply (in_map (fun e => if where_ e && policy.events_update d uid
                                          && policy.events_select
                                    then events.apply s e else e)); exact He1 |].
    destruct (where_ e && _ && _); exact He2.
Qed.

Lemma forallb_filter {A} (f g : A -> bool) (l : list A) :
  forallb f l = true -> forallb f (filter g l) = true.
Proof.
  rewrite !forallb_forall. intros H x Hx. apply filter_In in Hx. apply H, Hx.
Qed.

Lemma events_delete_wf uid where_ d n d' :
  wf_db d = true ->
  runStateT (events_delete uid where_) d = inr (n, d') -> wf_db d' = true.
Proof.
  intros Hwf H. apply wf_db_iff in Hwf.
  destruct Hwf as [[Tp [Te Ta]] [Cu [Cp [Ce Ca]]]].
  rewrite run_events_delete in H. cbv zeta in H. injection H as Hn Hd. subst d'.
  set (target := events_target d uid where_).
  apply wf_db_iff. cbn [public_profiles public_events public_attendance
                        with_attendance with_events].
  split; [split; [exact Tp | split; apply forallb_filter; assumption] |].
  split; [exact Cu |]. split; [exact Cp |].
  unfold constraints.events, constraints.attendance in *.
  rewrite !holds_check_bind, !holds_check, !andb_true_iff in *.
  cbn [public_events public_attendance with_attendance with_events].
  destruct Ce as [Ce1 Ce2]. destruct Ca as [Ca1 [Ca2 [Ca3 [Ca4 Ca5]]]].
  split; [split |].
  - apply distinctb_filter. exact Ce1.
  - apply forallb_filter. exact Ce2.
  - split; [apply distinctb_filter; exact Ca1 |].
    split; [apply (distinctb_filter pair_eqb
                     (fun a => (attendance.event_id a, attendance.user_id a))); exact Ca2 |].
    split; [| split; apply forallb_filter; assumption].
    apply forallb_forall. intros a Ha. apply filter_In in Ha. destruct Ha as [Ha Hkeep].
    rewrite forallb_forall in Ca3. specialize (Ca3 a Ha).
    unfold references_event in *. cbn [public_events with_attendance with_events].
    apply existsb_exists in Ca3. destruct Ca3 as [e [He Hid]].
    apply existsb_exists. exists e. split; [| exact Hid].
    apply filter_In. split; [exact He |].
    destruct (target e) eqn:Et; [| reflexivity]. exfalso.
    apply negb_true_iff in Hkeep.
    assert (existsb (fun o => N.eqb (attendance.event_id a) (events.id o))
                    (filter target (public_events d)) = true); [| congruence].
    apply existsb_exists. exists e. split; [apply filter_In; auto |].
    rewrite N.eqb_sym. exact Hid.
Qed.

Lemma attendance_insert_wf uid gen v d n d' :
  wf_db d = true ->
  runStateT (attendance_insert uid gen v) d = inr (n, d') -> wf_db d' = true.
Proof.
  intros Hwf H. apply wf_db_iff in Hwf.
  destruct Hwf as [[Tp [Te Ta]] [Cu [Cp [Ce Ca]]]].
  rewrite run_attendance_insert in H.
  destruct (Sql.int4_opt _) as [e | h] eqn:Eh; [discriminate |].
  destruct (policy.attendance_insert _ _); [| discriminate].
  destruct (attendance.v_event_id v) as [ev |]; [| discriminate].
  destruct (attendance.v_user_id v) as [us |]; [| discriminate].
  cbv zeta in H.
  match type of H with
  | context [constraints.attendance ?x] =>
      destruct (constraints.attendance x) as [e | ok] eqn:Ec; [discriminate |]
  end.
  injection H as Hn Hd. subst d'.
  apply int4_opt_inr in Eh. destruct Eh as [Eh Hh]. rewrite <- Eh in Hh.
  apply wf_db_iff. split; [split; [exact Tp | split; [exact Te |]] |].
  - cbn [public_attendance with_attendance]. rewrite forallb_app, Ta. cbn.
    rewrite Hh. reflexivity.
  - split; [exact Cu |]. split; [exact Cp |]. split; [exact Ce |].
    rewrite Ec. reflexivity.
Qed.

Lemma set_total_hours_keys expr cond rows rows' :
  set_total_hours expr cond rows = inr rows' ->
  map profiles.id rows' = map profiles.id rows
  /\ map profiles.user_id rows' = map profiles.user_id rows.
Proof.
  revert rows'. induction rows as [| p rest IH]; intros rows' H; cbn in H.
  - injection H as <-. split; reflexivity.
  - destruct (Sql.is_true (cond p)).
    + destruct (expr (profiles.total_hours p)) as [e | [v |]]; try discriminate.
      destruct (set_total_hours expr cond rest) as [e | rest']; try discriminate.
      injection H as <-. destruct (IH rest' eq_refl) as [H1 H2].
      cbn. rewrite H1, H2. split; reflexivity.
    + destruct (set_total_hours expr cond rest) as [e | rest']; try discriminate.
      injection H as <-. destruct (IH rest' eq_refl) as [H1 H2].
      cbn. rewrite H1, H2. split; reflexivity.
Qed.

Lemma set_total_hours_typed expr cond rows rows' :
  (forall t v, expr t = inr (Some v) -> Sql.in_int4 v = true) ->
  forallb (fun p => Sql.in_int4 (profiles.total_hours p)) rows = true ->
  set_total_hours expr cond rows = inr rows' ->
  forallb (fun p => Sql.in_int4 (profiles.total_hours p)) rows' = true.
Proof.
  intros Hf. revert rows'. induction rows as [| p rest IH]; intros rows' Hall H; cbn in H.
  - injection H as <-. reflexivity.
  - cbn [forallb] in Hall. apply andb_true_iff in Hall. destruct Hall as [Hp Hrest].
    destruct (Sql.is_true (cond p)).
    + destruct (expr (profiles.total_hours p)) as [e | [v |]] eqn:E; try discriminate.
      destruct (set_total_hours expr cond rest) as [e | rest']; try discriminate.
      injection H as <-. cbn [forallb profiles.total_hours profiles.with_total_hours].
      rewrite (IH rest' Hrest eq_refl), (Hf _ _ E). reflexivity.
    + destruct (set_total_hours expr cond rest) as [e | rest']; try discriminate.
      injection H as <-. cbn [forallb]. rewrite Hp, (IH rest' Hrest eq_refl). reflexivity.
Qed.

Lemma in_int4_max0 z : Sql.in_int4 z = true -> Sql.in_int4 (Z.max 0 z) = true.
Proof.
  unfold Sql.in_int4, Sql.int4_min, Sql.int4_max.
  rewrite !andb_true_iff, !Z.leb_le. lia.
Qed.

Lemma accounting_keys OLD NEW rows rows' :
  accounting OLD NEW rows = inr rows' ->
  map profiles.id rows' = map profiles.id rows
  /\ map profiles.user_id rows' = map profiles.user_id rows.
Proof.
  unfold accounting. destruct (_ && _); [apply set_total_hours_keys |].
  destruct (_ && _); [apply set_total_hours_keys |].
  intros [= <-]. split; reflexivity.
Qed.

Lemma accounting_typed OLD NEW rows rows' :
  forallb (fun p => Sql.in_int4 (profiles.total_hours p)) rows = true ->
  accounting OLD NEW rows = inr rows' ->
  forallb (fun p => Sql.in_int4 (profiles.total_hours p)) rows' = true.
Proof.
  intros Hall. unfold accounting.
  destruct (_ && _).
  - apply set_total_hours_typed; [| exact Hall].
    intros t v. destruct (attendance.hours_awarded NEW) as [h |]; cbn; [| discriminate].
    destruct (Sql.int4 (t + h)) as [e | w] eqn:E; [discriminate |].
    intros [= <-]. apply int4_inr in E. destruct E as [-> E]. exact E.
  - destruct (_ && _); [| intros [= <-]; exact Hall].
    apply set_total_hours_typed; [| exact Hall].
    intros t v. destruct (attendance.hours_awarded OLD) as [h |]; cbn.
    + destruct (Sql.int4 (t - h)) as [e | w] eqn:E; cbn; [discriminate |].
      intros [= <-]. apply int4_inr in E. destruct E as [-> E].
      apply in_int4_max0. exact E.
    + intros [= <-]. reflexivity.
Qed.

Lemma account_all_keys s OLDs rows rows' :
  account_all s OLDs rows = inr rows' ->
  map profiles.id rows' = map profiles.id rows
  /\ map profiles.user_id rows' = map profiles.user_id rows.
Proof.
  revert rows. induction OLDs as [| o rest IH]; intros rows; cbn [account_all].
  - intros [= <-]. split; reflexivity.
  - destruct (accounting o (attendance.apply s o) rows) as [e | rows1] eqn:E; [discriminate |].
    intros H. destruct (IH rows1 H) as [H1 H2].
    destruct (accounting_keys _ _ _ _ E) as [H3 H4]. split; congruence.
Qed.

Lemma account_all_typed s OLDs rows rows' :
  forallb (fun p => Sql.in_int4 (profiles.total_hours p)) rows = true ->
  account_all s OLDs rows = inr rows' ->
  forallb (fun p => Sql.in_int4 (profiles.total_hours p)) rows' = true.
Proof.
  revert rows. induction OLDs as [| o rest IH]; intros rows Hall; cbn [account_all].
  - intros [= <-]. exact Hall.
  - destruct (accounting o (attendance.apply s o) rows) as [e | rows1] eqn:E; [discriminate |].
    apply IH. exact (accounting_typed _ _ _ _ Hall E).
Qed.

Lemma attendance_update_wf uid where_ s d n d' :
  wf_db d = true ->
  runStateT (attendance_update uid where_ s) d = inr (n, d') -> wf_db d' = true.
Proof.
  intros Hwf H. apply wf_db_iff in Hwf.
  destruct Hwf as [[Tp [Te Ta]] [Cu [Cp [Ce Ca]]]].
  rewrite run_attendance_update in H. cbv zeta in H.
  destruct (Sql.int4_opt _) as [e | h] eqn:Eh; [discriminate |].
  match type of H with
  | context [if ?b then _ else _] => destruct b; [| discriminate]
  end.
  match type of H with
  | context [constraints.attendance ?x] =>
      destruct (constraints.attendance x) as [e | ok] eqn:Ec; [discriminate |]
  end.
  destruct (account_all _ _ _) as [e | rows] eqn:Ea; [discriminate |].
  injection H as Hn Hd. subst d'.
  apply int4_opt_inr in Eh. destruct Eh as [_ Hh].
  destruct (account_all_keys _ _ _ _ Ea) as [K1 K2].
  apply wf_db_iff. cbn [public_profiles public_events public_attendance
                        with_profiles with_attendance].
  split; [split; [| split; [exact Te |]] |].
  - exact (account_all_typed _ _ _ _ Tp Ea).
  - apply forallb_map_same; [| exact Ta].
    intros a _ Ha. destruct (attendance_target d uid where_ a); [| exact Ha].
    cbn. destruct (attendance.s_hours_awarded s) as [o |]; [exact Hh | exact Ha].
  - split; [exact Cu |]. split; [| split; [exact Ce | exact (holds_of_inr _ _ Ec)]].
    unfold constraints.profiles in *.
    rewrite !holds_check_bind, !holds_check, !andb_true_iff in *.
    cbn [public_profiles with_profiles with_attendance].
    rewrite K1, K2. destruct Cp as [Cp1 [Cp2 Cp3]].
    split; [exact Cp1 |]. split; [exact Cp2 |].
    rewrite forallb_forall in *.
    intros p Hp. apply (in_map profiles.user_id) in Hp. rewrite K2 in Hp.
    apply in_map_iff in Hp. destruct Hp as [q [Eq Hq]]. rewrite <- Eq.
    exact (Cp3 q Hq).
Qed.

Lemma step_wf d c : wf_db d = true -> wf_db (step d c) = true.
Proof.
  intros Hwf. destruct c as [[uid gen] st]. unfold step, request.
  destruct (runStateT (exec uid gen st) d) as [e | [n d']] eqn:E; [exact Hwf |].
  cbn [fst]. destruct st; cbn [exec] in E.
  - exact (auth_users_insert_wf _ _ _ _ _ Hwf E).
  - exact (profiles_insert_wf _ _ _ _ _ _ Hwf E).
  - exact (profiles_update_wf _ _ _ _ _ _ Hwf E).
  - exact (events_insert_wf _ _ _ _ _ _ Hwf E).
  - exact (events_update_wf _ _ _ _ _ _ Hwf E).
  - exact (events_delete_wf _ _ _ _ _ Hwf E).
  - exact (attendance_insert_wf _ _ _ _ _ _ Hwf E).
  - exact (attendance_update_wf _ _ _ _ _ _ Hwf E).
Qed.

(** X1: every request of the data API keeps the store within the schema:
    primary keys and the two UNIQUE constraints hold, every reference points
    to an existing row, and every INTEGER column is within its range; so
    every state reached from the empty store is well formed. *)
Theorem X1_requests_keep_schema :
  forall (trace : list call) (d : db),
    wf_db d = true -> wf_db (run trace d) = true.
Proof.
  induction trace as [| c rest IH]; intros d Hwf; [exact Hwf |].
  cbn [run fold_left]. apply IH, step_wf, Hwf.
Qed.

(** ** Status updates, step by step *)

Lemma status_update_run d u OLD st :
  wf_db d = true ->
  In OLD (public_attendance d) ->
  officer_or_admin (policy.get_current_user_role d (Some u)) = true ->
  let s := OfficerDashboard.status_patch st u in
  request (attendance_update (Some u)
             (fun a => N.eqb (attendance.id a) (attendance.id OLD)) s) d =
  match accounting OLD (attendance.apply s OLD) (public_profiles d) with
  | inl e => (d, inl e)
  | inr rows =>
      (with_profiles rows
         (with_attendance
            (map (fun a => if N.eqb (attendance.id a) (attendance.id OLD)
                           then attendance.apply s a else a)
                 (public_attendance d)) d),
       inr 1)
  end.
Proof.
  intros Hwf Hin Hrole s.
  assert (Hpol : policy.attendance_update d (Some u) = true).
  { unfold policy.attendance_update. rewrite exists_profile_role by exact Hwf.
    destruct (policy.get_current_user_role d (Some u)) as [[| |] |]; try discriminate;
      reflexivity. }
  unfold request. rewrite run_attendance_update. cbv zeta.
  change (Sql.int4_opt (default (attendance.s_hours_awarded s) None))
    with (@inr pg_error _ (@None Z)).
  rewrite (attendance_update_reaches d (Some u) OLD Hwf Hin Hpol).
  cbn [forallb account_all List.length].
  rewrite Hpol, (update_policy_select d (Some u) _ Hpol). cbn [andb].
  rewrite constraints_attendance_update.
  - rewrite (map_ext
               (fun a => if attendance_target d (Some u)
                              (fun a => N.eqb (attendance.id a) (attendance.id OLD)) a
                         then attendance.apply s a else a)
               (fun a => if N.eqb (attendance.id a) (attendance.id OLD)
                         then attendance.apply s a else a)).
    + destruct (accounting _ _ _); reflexivity.
    + intros a. unfold attendance_target.
      rewrite Hpol, (update_policy_select d (Some u) a Hpol), !andb_true_r. reflexivity.
  - repeat split.
  - cbn. destruct (policy.get_current_user_role d (Some u)) as [ro |] eqn:Ero;
      [| discriminate].
    exact (role_references_user d u ro Hwf Ero).
  - destruct (wf_db_parts d Hwf) as [_ [_ [_ [_ Hc]]]]. exact Hc.
Qed.

Lemma attendance_update_denied d uid where_ s :
  wf_db d = true ->
  policy.attendance_update d uid = false ->
  attendance.s_hours_awarded s = None ->
  request (attendance_update uid where_ s) d = (d, inr 0).
Proof.
  intros Hwf Hpol Hs. unfold request. rewrite run_attendance_update. cbv zeta.
  rewrite Hs. cbn [default Sql.int4_opt].
  rewrite (attendance_update_reaches_none d uid where_ Hpol).
  cbn [forallb account_all List.length].
  rewrite map_untouched
    by (intros a; unfold attendance_target; rewrite Hpol, andb_false_r; reflexivity).
  rewrite with_attendance_same.
  destruct (wf_db_parts d Hwf) as [_ [_ [_ [_ Hc]]]]. rewrite Hc.
  rewrite with_profiles_same. reflexivity.
Qed.

Lemma set_total_hours_ok expr cond (f : Z -> Z) rows :
  (forall p, In p rows -> Sql.is_true (cond p) = true ->
             expr (profiles.total_hours p) = inr (Some (f (profiles.total_hours p)))) ->
  set_total_hours expr cond rows =
  inr (map (fun p => if Sql.is_true (cond p)
                     then profiles.with_total_hours (f (profiles.total_hours p)) p
                     else p) rows).
Proof.
  induction rows as [| p rest IH]; intros H; [reflexivity |].
  cbn [set_total_hours map].
  rewrite IH by (intros q Hq; apply H; right; exact Hq).
  destruct (Sql.is_true (cond p)) eqn:Ec; [| reflexivity].
  rewrite (H p (or_introl eq_refl) Ec). reflexivity.
Qed.

Lemma set_total_hours_raises expr cond rows p e :
  In p rows -> Sql.is_true (cond p) = true ->
  (forall q, In q rows -> Sql.is_true (cond q) = true -> q = p) ->
  match expr (profiles.total_hours p) with
  | inl e' => e' = e
  | inr (Some _) => False
  | inr None => e = not_null_violation "total_hours"
  end ->
  set_total_hours expr cond rows = inl e.
Proof.
  induction rows as [| q rest IH]; intros Hin Hc Huniq He; [destruct Hin |].
  cbn [set_total_hours].
  destruct (Sql.is_true (cond q)) eqn:Eq.
  - assert (q = p) as -> by (apply Huniq; [left; reflexivity | exact Eq]).
    destruct (expr (profiles.total_hours p)) as [e' | [v |]]; [| destruct He |].
    + subst e'. reflexivity.
    + subst e. reflexivity.
  - destruct Hin as [-> | Hin]; [congruence |].
    rewrite (IH Hin Hc); [reflexivity | | exact He].
    intros r Hr. apply Huniq. right. exact Hr.
Qed.

Lemma owner_unique d p q :
  wf_db d = true -> In p (public_profiles d) -> In q (public_profiles d) ->
  profiles.user_id q = profiles.user_id p -> q = p.
Proof.
  intros Hwf Hp Hq E.
  exact (distinctb_key_inj profiles.user_id (public_profiles d) q p
           (wf_profiles_user_unique d Hwf) Hq Hp E).
Qed.

(** X2: an approval that would take the total of the record's user beyond
    the range of INTEGER is rejected with a numeric error; record and total
    stay as they were. *)
Theorem X2_approval_overflow_rejected :
  forall (d : db) (u : uuid) (OLD : attendance.row) (p : profiles.row) (h : Z),
    wf_db d = true ->
    In OLD (public_attendance d) ->
    officer_or_admin (policy.get_current_user_role d (Some u)) = true ->
    attendance.status OLD <> approved ->
    attendance.hours_awarded OLD = Some h ->
    In p (public_profiles d) ->
    profiles.user_id p = attendance.user_id OLD ->
    (Sql.int4_max < profiles.total_hours p + h)%Z ->
    OfficerDashboard.updateAttendanceStatus (Some u) (attendance.id OLD) approved d
    = (d, Some (toast_destructive numeric_value_out_of_range)).
Proof.
  intros d u OLD p h Hwf Hin Hrole Hst Hh Hp Hown Hover.
  unfold OfficerDashboard.updateAttendanceStatus, show.
  rewrite (status_update_run d u OLD approved Hwf Hin Hrole). cbv zeta.
  assert (Hacc : accounting OLD (attendance.apply (OfficerDashboard.status_patch approved u) OLD)
                   (public_profiles d) = inl numeric_value_out_of_range).
  { unfold accounting. cbn [attendance.apply attendance.status attendance.hours_awarded
                            attendance.user_id OfficerDashboard.status_patch
                            attendance.s_status attendance.s_hours_awarded
                            attendance.s_user_id attendance.or_keep].
    assert (E : negb (attendance_status_eqb (attendance.status OLD) approved) = true)
      by (destruct (attendance.status OLD); try reflexivity; congruence).
    rewrite E, Hh. cbn [attendance_status_eqb andb].
    apply set_total_hours_raises with (p := p).
    - exact Hp.
    - cbn. rewrite Hown, N.eqb_refl. reflexivity.
    - intros q Hq Hc. cbn in Hc.
      destruct (N.eqb_spec (profiles.user_id q) (attendance.user_id OLD)) as [Eq |];
        [| discriminate].
      apply (owner_unique d p q Hwf Hp Hq). congruence.
    - cbn. unfold Sql.int4, Sql.in_int4.
      destruct (Z.leb_spec (profiles.total_hours p + h) Sql.int4_max) as [Hle |]; [lia |].
      rewrite andb_false_r. reflexivity. }
  rewrite Hacc. reflexivity.
Qed.

(** X3: the approval of a record without an hours-awarded value (NULL) is
    rejected when its user has a profile: the addition yields NULL, which the
    NOT NULL total refuses; nothing changes. *)
Theorem X3_approval_without_hours_rejected :
  forall (d : db) (u : uuid) (OLD : attendance.row) (p : profiles.row),
    wf_db d = true ->
    In OLD (public_attendance d) ->
    officer_or_admin (policy.get_current_user_role d (Some u)) = true ->
    attendance.status OLD <> approved ->
    attendance.hours_awarded OLD = None ->
    In p (public_profiles d) ->
    profiles.user_id p = attendance.user_id OLD ->
    OfficerDashboard.updateAttendanceStatus (Some u) (attendance.id OLD) approved d
    = (d, Some (toast_destructive (not_null_violation "total_hours"))).
Proof.
  intros d u OLD p Hwf Hin Hrole Hst Hh Hp Hown.
  unfold OfficerDashboard.updateAttendanceStatus, show.
  rewrite (status_update_run d u OLD approved Hwf Hin Hrole). cbv zeta.
  assert (Hacc : accounting OLD (attendance.apply (OfficerDashboard.status_patch approved u) OLD)
                   (public_profiles d) = inl (not_null_violation "total_hours")).
  { unfold accounting. cbn [attendance.apply attendance.status attendance.hours_awarded
                            attendance.user_id OfficerDashboard.status_patch
                            attendance.s_status attendance.s_hours_awarded
                            attendance.s_user_id attendance.or_keep].
    assert (E : negb (attendance_status_eqb (attendance.status OLD) approved) = true)
      by (destruct (attendance.status OLD); try reflexivity; congruence).
    rewrite E, Hh. cbn [attendance_status_eqb andb].
    apply set_total_hours_raises with (p := p).
    - exact Hp.
    - cbn. rewrite Hown, N.eqb_refl. reflexivity.
    - intros q Hq Hc. cbn in Hc.
      destruct (N.eqb_spec (profiles.user_id q) (attendance.user_id OLD)) as [Eq |];
        [| discriminate].
      apply (owner_unique d p q Hwf Hp Hq). congruence.
    - reflexivity. }
  rewrite Hacc. reflexivity.
Qed.

(** X4: withdrawing the approval of a record whose hours-awarded value is
    NULL sets the total of the record's user to zero: GREATEST ignores the
    NULL difference. *)
Theorem X4_withdrawal_without_hours_resets :
  forall (d : db) (u : uuid) (OLD : attendance.row) (st : attendance_status),
    wf_db d = true ->
    In OLD (public_attendance d) ->
    officer_or_admin (policy.get_current_user_role d (Some u)) = true ->
    attendance.status OLD = approved ->
    st <> approved ->
    attendance.hours_awarded OLD = None ->
    public_profiles
      (fst (request (attendance_update (Some u)
                       (fun a => N.eqb (attendance.id a) (attendance.id OLD))
                       (OfficerDashboard.status_patch st u)) d))
    = map (fun p => if N.eqb (profiles.user_id p) (attendance.user_id OLD)
                    then profiles.with_total_hours 0 p else p)
          (public_profiles d).
Proof.
  intros d u OLD st Hwf Hin Hrole Hst Hnew Hh.
  rewrite (status_update_run d u OLD st Hwf Hin Hrole). cbv zeta.
  assert (Hacc : accounting OLD (attendance.apply (OfficerDashboard.status_patch st u) OLD)
                   (public_profiles d)
                 = inr (map (fun p => if N.eqb (profiles.user_id p) (attendance.user_id OLD)
                                      then profiles.with_total_hours 0 p else p)
                            (public_profiles d))).
  { unfold accounting. cbn [attendance.apply attendance.status attendance.hours_awarded
                            attendance.user_id OfficerDashboard.status_patch
                            attendance.s_status attendance.s_hours_awarded
                            attendance.s_user_id attendance.or_keep].
    rewrite Hst, Hh.
    assert (E : attendance_status_eqb st approved = false)
      by (destruct st; try reflexivity; congruence).
    rewrite E. cbn [attendance_status_eqb andb negb].
    rewrite (set_total_hours_ok _ _ (fun _ => 0%Z)) by (intros; reflexivity).
    f_equal. apply map_ext. intros p. cbn. destruct (_ =? _)%N; reflexivity. }
  rewrite Hacc. reflexivity.
Qed.

(** X5: for a caller who is neither officer nor admin, the approve and deny
    buttons change nothing in the store, and the dashboard still shows the
    success toast: the update reaches no row and raises no error. *)
Theorem X5_verdict_without_rights_is_silent :
  forall (d : db) (u attendanceId : uuid) (st : attendance_status),
    wf_db d = true ->
    officer_or_admin (policy.get_current_user_role d (Some u)) = false ->
    OfficerDashboard.updateAttendanceStatus (Some u) attendanceId st d
    = (d, Some (toast_default "Success!")).
Proof.
  intros d u attendanceId st Hwf Hrole.
  unfold OfficerDashboard.updateAttendanceStatus, show.
  rewrite attendance_update_denied; [reflexivity | exact Hwf | | reflexivity].
  unfold policy.attendance_update. rewrite exists_profile_role by exact Hwf.
  destruct (policy.get_current_user_role d (Some u)) as [[| |] |]; try discriminate;
    reflexivity.
Qed.

Lemma accounting_approve OLD NEW h rows :
  attendance.status OLD <> approved ->
  attendance.status NEW = approved ->
  attendance.hours_awarded NEW = Some h ->
  (forall p, In p rows -> profiles.user_id p = attendance.user_id NEW ->
             Sql.in_int4 (profiles.total_hours p + h) = true) ->
  accounting OLD NEW rows =
  inr (map (fun p => if N.eqb (profiles.user_id p) (attendance.user_id NEW)
                     then profiles.with_total_hours (profiles.total_hours p + h) p
                     else p) rows).
Proof.
  intros HO HN Hh Hrange. unfold accounting. rewrite HN, Hh.
  assert (E : negb (attendance_status_eqb (attendance.status OLD) approved) = true)
    by (destruct (attendance.status OLD); try reflexivity; congruence).
  rewrite E. cbn [attendance_status_eqb andb].
  rewrite (set_total_hours_ok _ _ (fun t => (t + h)%Z)).
  - f_equal. apply map_ext. intros p. cbn. destruct (_ =? _)%N; reflexivity.
  - intros p Hp Hc. cbn in Hc |- *.
    destruct (N.eqb_spec (profiles.user_id p) (attendance.user_id NEW)) as [Eq |];
      [| discriminate].
    unfold Sql.int4. rewrite (Hrange p Hp Eq). reflexivity.
Qed.

Lemma accounting_withdraw OLD NEW h rows :
  attendance.status OLD = approved ->
  attendance.status NEW <> approved ->
  attendance.hours_awarded OLD = Some h ->
  (forall p, In p rows -> profiles.user_id p = attendance.user_id NEW ->
             Sql.in_int4 (profiles.total_hours p - h) = true) ->
  accounting OLD NEW rows =
  inr (map (fun p => if N.eqb (profiles.user_id p) (attendance.user_id NEW)
                     then profiles.with_total_hours (Z.max 0 (profiles.total_hours p - h)) p
                     else p) rows).
Proof.
  intros HO HN Hh Hrange. unfold accounting. rewrite HO, Hh.
  assert (E : attendance_status_eqb (attendance.status NEW) approved = false)
    by (destruct (attendance.status NEW); try reflexivity; congruence).
  rewrite E. cbn [attendance_status_eqb andb negb].
  rewrite (set_total_hours_ok _ _ (fun t => Z.max 0 (t - h))).
  - f_equal. apply map_ext. intros p. cbn. destruct (_ =? _)%N; reflexivity.
  - intros p Hp Hc. cbn in Hc |- *.
    destruct (N.eqb_spec (profiles.user_id p) (attendance.user_id NEW)) as [Eq |];
      [| discriminate].
    unfold Sql.int4. rewrite (Hrange p Hp Eq). reflexivity.
Qed.

Lemma filter_map_same {A} (f : A -> bool) (g : A -> A) (l : list A) :
  (forall x, f (g x) = f x) -> filter f (map g l) = map g (filter f l).
Proof.
  intros H. induction l as [| x rest IH]; [reflexivity |].
  cbn [map filter]. rewrite H. destruct (f x); cbn [map]; rewrite IH; reflexivity.
Qed.

Lemma role_after_totals d uid (g : profiles.row -> profiles.row) rest :
  (forall p, profiles.user_id (g p) = profiles.user_id p
             /\ profiles.role (g p) = profiles.role p) ->
  policy.get_current_user_role
    (with_profiles (map g (public_profiles d)) rest) uid
  = policy.get_current_user_role d uid.
Proof.
  intros Hg. unfold policy.get_current_user_role.
  cbn [public_profiles with_profiles].
  rewrite filter_map_same
    by (intros p; destruct (Hg p) as [-> _]; reflexivity).
  destruct (filter _ (public_profiles d)) as [| p l]; [reflexivity |].
  cbn [map]. destruct (Hg p) as [_ ->]. reflexivity.
Qed.

Lemma typed_total d p :
  wf_db d = true -> In p (public_profiles d) -> Sql.in_int4 (profiles.total_hours p) = true.
Proof.
  intros Hwf Hp. apply wf_db_iff in Hwf. destruct Hwf as [[Tp _] _].
  rewrite forallb_forall in Tp. exact (Tp p Hp).
Qed.

(** X6: approving a record and then denying it restores every total: an
    officer's approval of a record with [h >= 0] hours adds [h] to the total
    of the record's user, and the denial that follows takes the same [h] off
    again (no total is negative, so the floor is not reached). *)
Theorem X6_approve_then_deny_restores :
  forall (d : db) (u : uuid) (OLD : attendance.row) (h : Z),
    wf_db d = true ->
    In OLD (public_attendance d) ->
    officer_or_admin (policy.get_current_user_role d (Some u)) = true ->
    attendance.status OLD <> approved ->
    attendance.hours_awarded OLD = Some h ->
    (0 <= h)%Z ->
    totals_nonneg d = true ->
    (forall p, In p (public_profiles d) -> profiles.user_id p = attendance.user_id OLD ->
               (profiles.total_hours p + h <= Sql.int4_max)%Z) ->
    let approved_ :=
      OfficerDashboard.updateAttendanceStatus (Some u) (attendance.id OLD) approved d in
    let denied_ :=
      OfficerDashboard.updateAttendanceStatus (Some u) (attendance.id OLD) denied
        (fst approved_) in
    snd approved_ = Some (toast_default "Success!")
    /\ public_profiles (fst approved_) =
       map (fun p => if N.eqb (profiles.user_id p) (attendance.user_id OLD)
                     then profiles.with_total_hours (profiles.total_hours p + h) p
                     else p) (public_profiles d)
    /\ snd denied_ = Some (toast_default "Success!")
    /\ public_profiles (fst denied_) = public_profiles d.
Proof.
  intros d u OLD h Hwf Hin Hrole Hst Hh Hh0 Hnn Hmax approved_ denied_.
  set (s1 := OfficerDashboard.status_patch approved u).
  set (NEW := attendance.apply s1 OLD).
  set (g := fun p => if N.eqb (profiles.user_id p) (attendance.user_id OLD)
                     then profiles.with_total_hours (profiles.total_hours p + h) p
                     else p).
  assert (Hg : forall p, profiles.user_id (g p) = profiles.user_id p
                         /\ profiles.role (g p) = profiles.role p).
  { intros p. unfold g. destruct (_ =? _)%N; split; reflexivity. }
  assert (Hrange : forall p, In p (public_profiles d) -> (0 <= profiles.total_hours p)%Z).
  { intros p Hp. unfold totals_nonneg in Hnn. rewrite forallb_forall in Hnn.
    apply Z.leb_le. exact (Hnn p Hp). }
  assert (Hacc1 : accounting OLD NEW (public_profiles d) = inr (map g (public_profiles d))).
  { apply (accounting_approve OLD NEW h); auto.
    intros p Hp Hown. specialize (Hmax p Hp Hown). specialize (Hrange p Hp).
    unfold Sql.in_int4, Sql.int4_min, Sql.int4_max in *.
    apply andb_true_iff. rewrite !Z.leb_le. lia. }
  set (upd1 := fun a => if N.eqb (attendance.id a) (attendance.id OLD)
                        then attendance.apply s1 a else a).
  set (d1 := with_profiles (map g (public_profiles d))
               (with_attendance (map upd1 (public_attendance d)) d)).
  assert (Hreq : request (attendance_update (Some u)
                            (fun a => N.eqb (attendance.id a) (attendance.id OLD)) s1) d
                 = (d1, inr 1)).
  { pose proof (status_update_run d u OLD approved Hwf Hin Hrole) as Hrun.
    cbv zeta in Hrun. fold s1 NEW in Hrun. rewrite Hacc1 in Hrun. exact Hrun. }
  assert (E1 : approved_ = (d1, Some (toast_default "Success!"))).
  { unfold approved_, OfficerDashboard.updateAttendanceStatus, show.
    fold s1. rewrite Hreq. reflexivity. }
  assert (Hwf1 : wf_db d1 = true).
  { change d1 with (fst (d1, @inr pg_error nat 1)). rewrite <- Hreq.
    exact (step_wf d (Some u, 0%N,
                      UpdateAttendance
                        (fun a => N.eqb (attendance.id a) (attendance.id OLD)) s1) Hwf). }
  assert (Hin1 : In NEW (public_attendance d1)).
  { unfold d1. cbn [public_attendance with_profiles with_attendance].
    apply in_map_iff. exists OLD. split; [| exact Hin].
    unfold upd1. rewrite N.eqb_refl. reflexivity. }
  assert (Hrole1 : officer_or_admin (policy.get_current_user_role d1 (Some u)) = true).
  { unfold d1. rewrite (role_after_totals d (Some u) g _ Hg). exact Hrole. }
  rewrite E1. cbn [fst snd]. split; [reflexivity |]. split; [reflexivity |].
  unfold denied_. rewrite E1. cbn [fst].
  unfold OfficerDashboard.updateAttendanceStatus, show.
  pose proof (status_update_run d1 u NEW denied Hwf1 Hin1 Hrole1) as Hrun.
  cbv zeta in Hrun. change (attendance.id NEW) with (attendance.id OLD) in Hrun.
  rewrite Hrun.
  rewrite (accounting_withdraw NEW _ h).
  - cbn [fst snd]. split; [reflexivity |].
    cbn [public_profiles with_profiles d1].
    unfold d1. cbn [public_profiles with_profiles]. rewrite map_map.
    rewrite <- (map_id (public_profiles d)) at 2. apply map_ext_in.
    intros p Hp. unfold g. change (attendance.user_id (attendance.apply _ NEW))
      with (attendance.user_id OLD).
    destruct (N.eqb_spec (profiles.user_id p) (attendance.user_id OLD)) as [Eq | Ne].
    + cbn [profiles.user_id profiles.with_total_hours profiles.total_hours].
      rewrite Eq, N.eqb_refl.
      replace (Z.max 0 (profiles.total_hours p + h - h)) with (profiles.total_hours p)
        by (specialize (Hrange p Hp); lia).
      destruct p; reflexivity.
    + destruct (N.eqb_spec (profiles.user_id p) (attendance.user_id OLD)); [contradiction |].
      reflexivity.
  - reflexivity.
  - discriminate.
  - exact Hh.
  - intros q Hq Hown. unfold d1 in Hq. cbn [public_profiles with_profiles] in Hq.
    apply in_map_iff in Hq. destruct Hq as [p [<- Hp]].
    change (attendance.user_id (attendance.apply _ NEW)) with (attendance.user_id OLD) in Hown.
    destruct (Hg p) as [Hu _]. rewrite Hu in Hown.
    unfold g. rewrite Hown, N.eqb_refl.
    cbn [profiles.total_hours profiles.with_total_hours].
    replace (profiles.total_hours p + h - h)%Z with (profiles.total_hours p) by lia.
    exact (typed_total d p Hwf Hp).
Qed.

(** ** New identities *)

Lemma existsb_false_iff {A} (f : A -> bool) (l : list A) :
  existsb f l = false <-> (forall x, In x l -> f x = false).
Proof.
  split.
  - intros H x Hx. destruct (f x) eqn:E; [| reflexivity].
    assert (existsb f l = true) by (apply existsb_exists; eauto). congruence.
  - intros H. destruct (existsb f l) eqn:E; [| reflexivity].
    apply existsb_exists in E. destruct E as [x [Hx Hf]]. rewrite (H x Hx) in Hf. discriminate.
Qed.

Lemma filter_none {A} (f : A -> bool) (l : list A) :
  (forall x, In x l -> f x = false) -> filter f l = [].
Proof.
  induction l as [| x rest IH]; intros H; [reflexivity |].
  cbn [filter]. rewrite (H x (or_introl eq_refl)).
  apply IH. intros y Hy. apply H. right. exact Hy.
Qed.

Lemma run_auth_users_insert gen NEW d :
  runStateT (auth_users_insert gen NEW) d =
  let d1 := with_auth_users (auth_users d ++ [NEW]) d in
  let d2 := with_profiles
              (public_profiles d ++
               [profiles.mk gen (auth.id NEW)
                            (default (auth.raw_user_meta_data_name NEW) "")
                            (auth.email NEW) member 0%Z]) d1 in
  match constraints.users d1 with
  | inl e => inl e
  | inr _ => match constraints.profiles d2 with
             | inl e => inl e
             | inr _ => inr (1, d2)
             end
  end.
Proof.
  unfold auth_users_insert, fire, auth_users_triggers, handle_new_user.
  cbn [filter tg_matches tgwhen tgop for_each tgfunc option_map].
  rewrite run_bind, run_get, run_bind, run_put, run_bind, run_enforce. cbv zeta.
  destruct (constraints.users _) as [e | ok]; [reflexivity |].
  repeat (first [ rewrite run_bind | rewrite run_not_null | rewrite run_get
                | rewrite run_put | rewrite run_enforce | rewrite run_ret ];
          cbv beta iota zeta).
  cbn [public_profiles with_auth_users].
  destruct (constraints.profiles _) as [e | ok']; reflexivity.
Qed.

(** X7: a new identity gets its profile in the same transaction: role
    member, zero hours, the name of the sign-up form (or the empty string);
    from then on the role lookup answers member for it. *)
Theorem X7_new_user_is_member :
  forall (d : db) (gen_random_uuid : uuid) (NEW : auth.users),
    wf_db d = true ->
    references_user d (auth.id NEW) = false ->
    (forall p, In p (public_profiles d) -> profiles.id p <> gen_random_uuid) ->
    let d' := fst (request (auth_users_insert gen_random_uuid NEW) d) in
    request (auth_users_insert gen_random_uuid NEW) d = (d', inr 1)
    /\ auth_users d' = (auth_users d ++ [NEW])%list
    /\ public_profiles d' =
       (public_profiles d ++
        [profiles.mk gen_random_uuid (auth.id NEW)
                     (default (auth.raw_user_meta_data_name NEW) "")
                     (auth.email NEW) member 0%Z])%list
    /\ policy.get_current_user_role d' (Some (auth.id NEW)) = Some member.
Proof.
  intros d gen NEW Hwf Hfresh Hkey.
  pose proof (wf_db_iff d) as Hiff. apply Hiff in Hwf as Hparts.
  destruct Hparts as [_ [Cu [Cp _]]].
  assert (Hnew : forall p, In p (public_profiles d) -> profiles.user_id p <> auth.id NEW).
  { intros p Hp E. pose proof (wf_profiles_reference_users d p Hwf Hp) as Hr.
    rewrite E in Hr. congruence. }
  assert (H1 : constraints.users (with_auth_users (auth_users d ++ [NEW]) d) = inr tt).
  { apply holds_inr. unfold constraints.users in *. rewrite holds_check in *.
    cbn [auth_users with_auth_users]. rewrite map_app. cbn [map].
    apply distinctb_app_fresh; [exact Cu |].
    intros x Hx. apply in_map_iff in Hx. destruct Hx as [y [<- Hy]].
    unfold references_user in Hfresh.
    exact (proj1 (existsb_false_iff _ _) Hfresh y Hy). }
  set (P := profiles.mk gen (auth.id NEW) (default (auth.raw_user_meta_data_name NEW) "")
                        (auth.email NEW) member 0%Z).
  assert (H2 : constraints.profiles
                 (with_profiles (public_profiles d ++ [P])
                    (with_auth_users (auth_users d ++ [NEW]) d)) = inr tt).
  { apply holds_inr. unfold constraints.profiles in *.
    rewrite !holds_check_bind, holds_check, !andb_true_iff in *.
    destruct Cp as [Cp1 [Cp2 Cp3]].
    cbn [public_profiles with_profiles with_auth_users].
    rewrite !map_app, forallb_app. cbn [map forallb].
    rewrite !andb_true_iff. repeat split.
    - apply distinctb_app_fresh; [exact Cp1 |].
      intros x Hx. apply in_map_iff in Hx. destruct Hx as [p [<- Hp]].
      apply N.eqb_neq. exact (Hkey p Hp).
    - apply distinctb_app_fresh; [exact Cp2 |].
      intros x Hx. apply in_map_iff in Hx. destruct Hx as [p [<- Hp]].
      apply N.eqb_neq. exact (Hnew p Hp).
    - revert Cp3. apply forallb_impl. intros p. apply (references_user_grow d [NEW]).
    - unfold references_user. cbn [auth_users with_profiles with_auth_users].
      rewrite existsb_app. cbn. rewrite N.eqb_refl, orb_true_r. reflexivity. }
  assert (Hrun : request (auth_users_insert gen NEW) d
                 = (with_profiles (public_profiles d ++ [P])
                      (with_auth_users (auth_users d ++ [NEW]) d), inr 1)).
  { unfold request. rewrite run_auth_users_insert. cbv zeta. fold P.
    rewrite H1, H2. reflexivity. }
  cbv zeta. rewrite Hrun. cbn [fst]. repeat split.
  unfold policy.get_current_user_role. cbn [public_profiles with_profiles].
  rewrite filter_app.
  rewrite (filter_none _ (public_profiles d)).
  - cbn. rewrite N.eqb_refl. reflexivity.
  - intros p Hp.
    destruct (Sql.is_true (Sql.eq3 N.eqb (Some (profiles.user_id p)) (Some (auth.id NEW))))
      eqn:E; [| reflexivity].
    cbn in E. destruct (N.eqb_spec (profiles.user_id p) (auth.id NEW)) as [E' |];
      [| discriminate].
    exfalso. exact (Hnew p Hp E').
Qed.

(** ** Who may write what *)

Lemma exists_profile_anonymous d roles : policy.exists_profile d None roles = false.
Proof.
  unfold policy.exists_profile. apply existsb_false_iff. intros p _.
  cbn. destruct (existsb _ roles); reflexivity.
Qed.

Lemma attendance_update_no_policy d uid where_ s :
  wf_db d = true ->
  policy.attendance_update d uid = false ->
  fst (request (attendance_update uid where_ s) d) = d.
Proof.
  intros Hwf Hpol. unfold request. rewrite run_attendance_update. cbv zeta.
  destruct (Sql.int4_opt _) as [e | h]; [reflexivity |].
  rewrite (attendance_update_reaches_none d uid where_ Hpol).
  cbn [forallb account_all List.length].
  rewrite map_untouched
    by (intros a; unfold attendance_target; rewrite Hpol, andb_false_r; reflexivity).
  rewrite with_attendance_same.
  destruct (wf_db_parts d Hwf) as [_ [_ [_ [_ Hc]]]]. rewrite Hc.
  rewrite with_profiles_same. reflexivity.
Qed.

Lemma run_profiles_update uid where_ s d :
  runStateT (profiles_update uid where_ s) d =
  let target := fun p => where_ p && policy.profiles_update uid p
                         && policy.profiles_select d uid p in
  let OLDs := filter target (public_profiles d) in
  let d1 := with_profiles (map (fun p => if target p then profiles.apply s p else p)
                               (public_profiles d)) d in
  match Sql.int4_opt (profiles.s_total_hours s) with
  | inl e => inl e
  | inr _ =>
      if forallb (fun o => policy.profiles_update uid (profiles.apply s o)
                           && policy.profiles_select d uid (profiles.apply s o)) OLDs
      then match constraints.profiles d1 with
           | inl e => inl e
           | inr _ => inr (List.length OLDs, d1)
           end
      else inl insufficient_privilege
  end.
Proof.
  unfold profiles_update. rewrite run_bind, run_liftR.
  destruct (Sql.int4_opt _) as [e | h]; [reflexivity |].
  rewrite run_bind, run_get. cbv zeta. rewrite run_bind, run_require.
  destruct (forallb _ _); [| reflexivity].
  rewrite run_bind, run_put, run_bind, run_enforce.
  destruct (constraints.profiles _) as [e | ok]; [reflexivity |].
  rewrite run_ret. reflexivity.
Qed.

(** X8: a request without a signed-in caller writes nothing: every insert,
    update and delete of the data API leaves the store as it was. *)
Theorem X8_anonymous_writes_nothing :
  forall (d : db) (gen_random_uuid : uuid) (st : statement),
    wf_db d = true ->
    (forall NEW, st <> InsertUser NEW) ->
    step d (None, gen_random_uuid, st) = d.
Proof.
  intros d gen st Hwf Hst. unfold step.
  destruct st as [NEW | v | w s | v | w s | w | v | w s]; cbn [exec].
  - exfalso. exact (Hst NEW eq_refl).
  - unfold request, profiles_insert. rewrite run_bind, run_liftR.
    destruct (Sql.int4 _); [reflexivity |].
    rewrite run_bind, run_require.
    unfold policy.profiles_insert. cbn [Sql.eq3 Sql.is_true]. reflexivity.
  - unfold request. rewrite run_profiles_update. cbv zeta.
    destruct (Sql.int4_opt _) as [e | h]; [reflexivity |].
    assert (Hno : forall p, w p && policy.profiles_update None p
                            && policy.profiles_select d None p = false).
    { intros p. unfold policy.profiles_update. cbn [Sql.eq3 Sql.is_true].
      rewrite andb_false_r. reflexivity. }
    rewrite (filter_false _ (public_profiles d) Hno).
    cbn [forallb List.length].
    rewrite (map_untouched _ _ _ Hno), with_profiles_same.
    destruct (wf_db_parts d Hwf) as [_ [_ [-> _]]]. reflexivity.
  - destruct (events_insert_not_admin d None gen v (exists_profile_anonymous d [admin]))
      as [-> | ->]; reflexivity.
  - destruct (events_update_not_admin d None w s Hwf (exists_profile_anonymous d [admin]))
      as [-> | ->]; reflexivity.
  - rewrite (events_delete_not_admin d None w (exists_profile_anonymous d [admin])).
    reflexivity.
  - unfold request. rewrite run_attendance_insert.
    destruct (Sql.int4_opt _) as [e | h]; [reflexivity |].
    unfold policy.attendance_insert. cbn [Sql.eq3 Sql.is_true]. reflexivity.
  - apply attendance_update_no_policy; [exact Hwf |].
    apply exists_profile_anonymous.
Qed.

(** X9: in a well-formed store the role checks written inline in the
    policies agree with the role lookup [get_current_user_role]: events are
    writable exactly by admins, attendance is updatable exactly by officers
    and admins, and a row of attendance or profiles is visible exactly to
    its own user and to officers and admins. *)
Theorem X9_policies_follow_the_role :
  forall (d : db) (uid : option uuid),
    wf_db d = true ->
    let role := policy.get_current_user_role d uid in
    (policy.events_insert d uid = true <-> role = Some admin)
    /\ (policy.events_update d uid = true <-> role = Some admin)
    /\ (policy.events_delete d uid = true <-> role = Some admin)
    /\ policy.attendance_update d uid = officer_or_admin role
    /\ (forall a, policy.attendance_select d uid a = true <->
                  uid = Some (attendance.user_id a) \/ officer_or_admin role = true)
    /\ (forall p, policy.profiles_select d uid p = true <->
                  uid = Some (profiles.user_id p) \/ officer_or_admin role = true).
Proof.
  intros d uid Hwf role.
  assert (Hadmin : policy.exists_profile d uid [admin] = true <-> role = Some admin).
  { rewrite exists_profile_role by exact Hwf. fold role.
    destruct role as [[| |] |]; cbn; split; intros H; try discriminate; reflexivity. }
  assert (Hoff : policy.exists_profile d uid [admin; officer] = officer_or_admin role).
  { rewrite exists_profile_role by exact Hwf. fold role.
    destruct role as [[| |] |]; reflexivity. }
  split; [exact Hadmin |]. split; [exact Hadmin |]. split; [exact Hadmin |].
  split; [exact Hoff |]. split.
  - intros a. unfold policy.attendance_select. rewrite Hoff.
    destruct uid as [u |]; cbn [Sql.eq3 Sql.or3 Sql.is_true].
    + destruct (N.eqb_spec u (attendance.user_id a)) as [-> | Ne].
      * split; auto.
      * destruct (officer_or_admin role); split; auto; intros [[= E] | E];
          [contradiction | discriminate].
    + destruct (officer_or_admin role); split; auto; intros [E | E]; discriminate.
  - intros p. unfold policy.profiles_select. fold role.
    assert (Hin : Sql.is_true (Sql.in3 user_role_eqb role [officer; admin])
                  = officer_or_admin role)
      by (destruct role as [[| |] |]; reflexivity).
    rewrite Hin, orb_true_iff.
    destruct uid as [u |]; cbn [Sql.eq3 Sql.is_true].
    + destruct (N.eqb_spec u (profiles.user_id p)) as [-> | Ne].
      * split; auto.
      * split; intros [E | E]; auto; [discriminate | injection E as E; contradiction].
    + split; intros [E | E]; auto; discriminate.
Qed.

(** X10: a sign-up for an event that does not exist is refused with a
    foreign-key violation and leaves the store unchanged. *)
Theorem X10_sign_up_needs_the_event :
  forall (d : db) (u gen_random_uuid eventId : uuid) (hoursValue : Z),
    wf_db d = true ->
    references_event d eventId = false ->
    Sql.in_int4 hoursValue = true ->
    (forall a, In a (public_attendance d) -> attendance.id a <> gen_random_uuid) ->
    MemberDashboard.signUpForEvent (Some u) gen_random_uuid eventId hoursValue d
    = (d, Some (toast_destructive (foreign_key_violation "attendance_event_id_fkey"))).
Proof.
  intros d u gen eventId h Hwf Hev Hh Hfresh.
  unfold MemberDashboard.signUpForEvent, show, request.
  rewrite run_attendance_insert.
  cbn [attendance.v_hours_awarded attendance.v_user_id attendance.v_event_id
       attendance.v_id attendance.v_status attendance.v_verified_by default Sql.int4_opt].
  unfold Sql.int4. rewrite Hh.
  unfold policy.attendance_insert. cbn [Sql.eq3 Sql.is_true]. rewrite N.eqb_refl.
  cbv zeta.
  pose proof (proj1 (wf_db_iff d) Hwf) as [_ [_ [_ [_ Ca]]]].
  unfold constraints.attendance in *.
  rewrite !holds_check_bind, holds_check, !andb_true_iff in Ca.
  destruct Ca as [Ca1 [Ca2 [Ca3 _]]].
  cbn [public_attendance with_attendance]. rewrite !map_app, !forallb_app. cbn [map forallb].
  rewrite distinctb_app_fresh; [| exact Ca1 |].
  2:{ intros x Hx. apply in_map_iff in Hx. destruct Hx as [a [<- Ha]].
      apply N.eqb_neq. exact (Hfresh a Ha). }
  rewrite distinctb_app_fresh; [| exact Ca2 |].
  2:{ intros x Hx. apply in_map_iff in Hx. destruct Hx as [a [<- Ha]].
      unfold pair_eqb. cbn [fst snd attendance.event_id attendance.user_id].
      destruct (N.eqb_spec (attendance.event_id a) eventId) as [E |]; [| reflexivity].
      exfalso. rewrite forallb_forall in Ca3. specialize (Ca3 a Ha).
      rewrite E in Ca3. congruence. }
  match goal with
  | |- context [references_event ?x (attendance.event_id ?r) && true] =>
      change (references_event x (attendance.event_id r)) with (references_event d eventId)
  end.
  rewrite Hev, andb_false_r. reflexivity.
Qed.

(** ** Frames *)

Lemma events_insert_profiles uid gen v l :
  keeps public_profiles l (events_insert uid gen v).
Proof. unfold events_insert. repeat keeps_step. Qed.

Lemma events_update_profiles uid where_ s l :
  keeps public_profiles l (events_update uid where_ s).
Proof. unfold events_update. repeat keeps_step. Qed.

(** X11: creating or editing an event, whatever hour value the form
    carries, changes no attendance record and no profile: the hours awarded
    to existing sign-ups and the totals are independent of later edits of
    the event. *)
Theorem X11_event_form_keeps_records :
  forall (user : option uuid) (gen_random_uuid : uuid) (editingEvent : option events.row)
         (f : AdminDashboard.eventForm) (d : db),
    let d' := fst (AdminDashboard.handleEventSubmit user gen_random_uuid editingEvent f d) in
    public_attendance d' = public_attendance d /\ public_profiles d' = public_profiles d.
Proof.
  intros user gen editing f d. unfold AdminDashboard.handleEventSubmit.
  destruct user as [u |]; [| split; reflexivity].
  assert (Hshow : forall A title (r : db * result A), fst (show title r) = fst r).
  { intros A title [d1 [e | a]]; reflexivity. }
  destruct editing as [e |]; cbv zeta; rewrite Hshow; split.
  - apply (keeps_request public_attendance), events_update_attendance.
  - apply (keeps_request public_profiles), events_update_profiles.
  - apply (keeps_request public_attendance), events_insert_attendance.
  - apply (keeps_request public_profiles), events_insert_profiles.
Qed.

(** X12: an accepted insert into attendance creates a record of the caller
    and nothing else: the new row's user is the caller, and events and
    profiles stay as they were; in particular a record inserted as approved
    credits no hours, as the accounting trigger runs on updates only. *)
Theorem X12_insert_is_own_and_credits_nothing :
  forall (d d' : db) (uid : option uuid) (gen_random_uuid : uuid)
         (v : attendance.values) (n : nat),
    request (attendance_insert uid gen_random_uuid v) d = (d', inr n) ->
    exists NEW,
      d' = with_attendance (public_attendance d ++ [NEW]) d
      /\ uid = Some (attendance.user_id NEW)
      /\ attendance.status NEW = default (attendance.v_status v) pending.
Proof.
  intros d d' uid gen v n. unfold request. rewrite run_attendance_insert.
  destruct (Sql.int4_opt _) as [e | h]; [discriminate |].
  destruct (policy.attendance_insert uid _) eqn:Ep; [| discriminate].
  destruct (attendance.v_event_id v) as [ev |]; [| discriminate].
  destruct (attendance.v_user_id v) as [us |]; [| discriminate].
  cbv zeta. destruct (constraints.attendance _) as [e | ok]; [discriminate |].
  intros [= <- _]. eexists. split; [reflexivity |]. split; [| reflexivity].
  unfold policy.attendance_insert in Ep. destruct uid as [u |]; [| discriminate].
  cbn in Ep. destruct (N.eqb_spec u us) as [-> |]; [reflexivity | discriminate].
Qed.

(** X13: an update of profiles reaches the caller's own row only: rows of
    other users stay as they are, whoever calls (an admin included), and no
    row changes its user. *)
Theorem X13_profile_update_is_own :
  forall (d d' : db) (uid : option uuid) (where_ : profiles.row -> bool)
         (s : profiles.patch) (n : nat),
    request (profiles_update uid where_ s) d = (d', inr n) ->
    public_profiles d' =
    map (fun p => if where_ p && Sql.is_true (Sql.eq3 N.eqb uid (Some (profiles.user_id p)))
                  then profiles.apply s p else p) (public_profiles d)
    /\ map profiles.user_id (public_profiles d') = map profiles.user_id (public_profiles d).
Proof.
  intros d d' uid where_ s n. unfold request. rewrite run_profiles_update. cbv zeta.
  destruct (Sql.int4_opt _) as [e | h]; [discriminate |].
  destruct (forallb _ _) eqn:Echeck; [| discriminate].
  destruct (constraints.profiles _) as [e | ok]; [discriminate |].
  intros [= <- _]. cbn [public_profiles with_profiles].
  assert (Ht : forall p, where_ p && policy.profiles_update uid p
                         && policy.profiles_select d uid p
                         = where_ p && Sql.is_true (Sql.eq3 N.eqb uid (Some (profiles.user_id p)))).
  { intros p. unfold policy.profiles_update, policy.profiles_select.
    destruct (where_ p); [| reflexivity]. cbn [andb].
    destruct (Sql.is_true (Sql.eq3 N.eqb uid (Some (profiles.user_id p)))); reflexivity. }
  split.
  - apply map_ext. intros p. rewrite Ht. reflexivity.
  - rewrite map_map. apply map_ext_in. intros p Hp.
    destruct (where_ p && policy.profiles_update uid p && policy.profiles_select d uid p)
      eqn:Et; [| reflexivity].
    rewrite forallb_forall in Echeck.
    assert (Hin : In p (filter (fun p => where_ p && policy.profiles_update uid p
                                         && policy.profiles_select d uid p)
                               (public_profiles d))) by (apply filter_In; auto).
    specialize (Echeck p Hin). apply andb_true_iff in Echeck. destruct Echeck as [Enew _].
    rewrite Ht in Et. apply andb_true_iff in Et. destruct Et as [_ Eold].
    unfold policy.profiles_update in Enew.
    destruct uid as [u |]; [| discriminate].
    cbn in Enew, Eold |- *.
    destruct (N.eqb_spec u (profiles.or_keep (profiles.s_user_id s) (profiles.user_id p)))
      as [E1 |]; [| discriminate].
    destruct (N.eqb_spec u (profiles.user_id p)) as [E2 |]; [| discriminate].
    congruence.
Qed.

(** ** The member's view of a sign-up *)

Lemma sign_up_accepted d u gen event :
  wf_db d = true ->
  references_user d u = true ->
  In event (public_events d) ->
  (forall a, In a (public_attendance d) -> attendance.id a <> gen) ->
  (forall a, In a (public_attendance d) ->
             ~ (attendance.event_id a = events.id event /\ attendance.user_id a = u)) ->
  MemberDashboard.onClick_SignUp (Some u) gen event d =
  (with_attendance
     (public_attendance d ++
      [attendance.mk gen (events.id event) u pending
                     (Some (events.hours_value event)) None]) d,
   Some (toast_default "Success!")).
Proof.
  intros Hwf Hu He Hfresh Hnew.
  unfold MemberDashboard.onClick_SignUp, MemberDashboard.signUpForEvent, request.
  rewrite run_attendance_insert.
  cbn [attendance.v_hours_awarded attendance.v_user_id attendance.v_event_id
       attendance.v_id attendance.v_status attendance.v_verified_by default Sql.int4_opt].
  unfold Sql.int4. rewrite (wf_events_typed d event Hwf He).
  unfold policy.attendance_insert. cbn [Sql.eq3 Sql.is_true]. rewrite N.eqb_refl.
  cbv zeta.
  rewrite constraints_attendance_insert; try assumption; try reflexivity.
  - destruct (wf_db_parts d Hwf) as [_ [_ [_ [_ Hc]]]]. exact Hc.
  - cbn. apply references_event_in. exact He.
Qed.

Lemma select_own_attendance d u :
  select_attendance (Some u) (fun a => N.eqb (attendance.user_id a) u) d
  = filter (fun a => N.eqb (attendance.user_id a) u) (public_attendance d).
Proof.
  unfold select_attendance. apply filter_ext. intros a.
  unfold policy.attendance_select. cbn [Sql.eq3].
  rewrite (N.eqb_sym u). destruct (N.eqb (attendance.user_id a) u); [| reflexivity].
  reflexivity.
Qed.

Lemma isSignedUp_iff d u eventId :
  MemberView.isSignedUp (MemberView.myAttendance (Some u) d) eventId = true <->
  exists a, In a (public_attendance d)
            /\ attendance.user_id a = u /\ attendance.event_id a = eventId.
Proof.
  unfold MemberView.isSignedUp, MemberView.myAttendance.
  rewrite select_own_attendance, existsb_exists. split.
  - intros [x [Hx Hev]]. apply in_map_iff in Hx. destruct Hx as [a [<- Ha]].
    apply in_rev in Ha. apply filter_In in Ha. destruct Ha as [Ha Hu].
    exists a. cbn in Hev. apply N.eqb_eq in Hu. apply N.eqb_eq in Hev. auto.
  - intros [a [Ha [Hu Hev]]].
    eexists (MemberView.mk a _). split.
    + apply in_map_iff. exists a. split; [reflexivity |].
      apply in_rev. rewrite rev_involutive. apply filter_In. split; [exact Ha |].
      apply N.eqb_eq. exact Hu.
    + cbn. apply N.eqb_eq. exact Hev.
Qed.

(** X14: while [isSignedUp] is false for an event on freshly fetched data,
    the Sign Up button of that event succeeds (for a known user, an event of
    the store and a fresh key), and on the data fetched afterwards
    [isSignedUp] is true for it. *)
Theorem X14_sign_up_shows_as_signed_up :
  forall (d : db) (u gen_random_uuid : uuid) (event : events.row),
    wf_db d = true ->
    references_user d u = true ->
    In event (public_events d) ->
    (forall a, In a (public_attendance d) -> attendance.id a <> gen_random_uuid) ->
    MemberView.isSignedUp (MemberView.myAttendance (Some u) d) (events.id event) = false ->
    let r := MemberDashboard.onClick_SignUp (Some u) gen_random_uuid event d in
    snd r = Some (toast_default "Success!")
    /\ MemberView.isSignedUp (MemberView.myAttendance (Some u) (fst r)) (events.id event)
       = true.
Proof.
  intros d u gen event Hwf Hu He Hfresh Hno r.
  assert (Hnew : forall a, In a (public_attendance d) ->
                   ~ (attendance.event_id a = events.id event /\ attendance.user_id a = u)).
  { intros a Ha [E1 E2].
    assert (MemberView.isSignedUp (MemberView.myAttendance (Some u) d) (events.id event)
            = true); [| congruence].
    apply isSignedUp_iff. exists a. auto. }
  unfold r. rewrite (sign_up_accepted d u gen event Hwf Hu He Hfresh Hnew).
  cbn [fst snd]. split; [reflexivity |].
  apply isSignedUp_iff. eexists. split.
  - cbn [public_attendance with_attendance]. apply in_or_app. right. left. reflexivity.
  - split; reflexivity.
Qed.

(** ** Editing an event *)

Lemma run_events_update uid where_ s d :
  runStateT (events_update uid where_ s) d =
  let target := fun e => where_ e && policy.events_update d uid && policy.events_select in
  let OLDs := filter target (public_events d) in
  let d1 := with_events (map (fun e => if target e then events.apply s e else e)
                             (public_events d)) d in
  match Sql.int4_opt (events.s_hours_value s) with
  | inl e => inl e
  | inr _ =>
      match constraints.events d1 with
      | inl e => inl e
      | inr _ => inr (List.length OLDs, d1)
      end
  end.
Proof.
  unfold events_update. rewrite run_bind, run_liftR.
  destruct (Sql.int4_opt _) as [e | h]; [reflexivity |].
  rewrite run_bind, run_get. cbv zeta. rewrite run_bind, run_require.
  assert (Hc : forall l : list events.row,
             forallb (fun _ => policy.events_update d uid && policy.events_select)
                     (filter (fun e => where_ e && policy.events_update d uid
                                       && policy.events_select) l) = true).
  { induction l as [| e l IH]; [reflexivity |]. cbn [filter].
    destruct (policy.events_update d uid) eqn:Ep.
    - destruct (where_ e); cbn; [exact IH | exact IH].
    - rewrite andb_false_r. cbn. exact IH. }
  rewrite Hc.
  rewrite run_bind, run_put, run_bind, run_enforce.
  destruct (constraints.events _) as [e | ok]; [reflexivity |].
  rewrite run_ret. reflexivity.
Qed.

Lemma constraints_events_update d (t : events.row -> bool) s :
  constraints.events d = inr tt ->
  constraints.events
    (with_events (map (fun e => if t e then events.apply s e else e) (public_events d)) d)
  = inr tt.
Proof.
  intros H. apply holds_inr.
  assert (H' : holds (constraints.events d) = true) by (rewrite H; reflexivity).
  clear H. unfold constraints.events in *.
  rewrite !holds_check_bind, holds_check, !andb_true_iff in *.
  destruct H' as [H1 H2]. cbn [public_events with_events]. rewrite map_map.
  rewrite (map_ext (fun e => events.id (if t e then events.apply s e else e)) events.id)
    by (intros e; destruct (t e); reflexivity).
  split; [exact H1 |].
  apply (forallb_map_same (fun e => references_user d (events.created_by e))); [| exact H2].
  intros e _ He. destruct (t e); exact He.
Qed.

(** X15: opening the edit dialog of an event and submitting the form as it
    is keeps the key, title, location, hour value and creator of the event
    and writes the description back as text: an absent description (NULL)
    becomes the empty string. *)
Theorem X15_unchanged_edit_fills_description :
  forall (d : db) (u gen_random_uuid : uuid) (event : events.row),
    wf_db d = true ->
    policy.get_current_user_role d (Some u) = Some admin ->
    In event (public_events d) ->
    let r := AdminDashboard.handleEventSubmit (Some u) gen_random_uuid (Some event)
               (AdminView.openEditDialog event) d in
    snd r = Some (toast_default "Event updated successfully!")
    /\ exists edited,
         public_events (fst r) =
         map (fun e => if N.eqb (events.id e) (events.id event) then edited else e)
             (public_events d)
         /\ events.id edited = events.id event
         /\ events.title edited = events.title event
         /\ events.location edited = events.location event
         /\ events.hours_value edited = events.hours_value event
         /\ events.created_by edited = events.created_by event
         /\ events.description edited =
            Some (match events.description event with
                  | Some text => text
                  | None => ""
                  end).
Proof.
  intros d u gen event Hwf Hrole Hin r.
  unfold r, AdminDashboard.handleEventSubmit, show, request.
  rewrite run_events_update. cbv zeta.
  cbn [events.s_hours_value AdminDashboard.hours_value AdminView.openEditDialog
       Sql.int4_opt].
  unfold Sql.int4. rewrite (wf_events_typed d event Hwf Hin).
  rewrite constraints_events_update
    by (destruct (wf_db_parts d Hwf) as [_ [_ [_ [Hc _]]]]; exact Hc).
  cbn [fst snd]. split; [reflexivity |].
  exists (events.mk (events.id event) (events.title event)
                    (substring 0 16 (events.date_time event)) (events.location event)
                    (Some (match events.description event with
                           | Some text => text
                           | None => ""
                           end))
                    (events.hours_value event) (events.created_by event)).
  split; [| repeat split].
  cbn [public_events with_events]. apply map_ext_in. intros e He.
  unfold policy.events_update, policy.events_select.
  rewrite (role_exists_profile d (Some u) admin [admin] Hrole eq_refl), !andb_true_r.
  destruct (N.eqb_spec (events.id e) (events.id event)) as [E |]; [| reflexivity].
  assert (e = event) as ->.
  { apply (distinctb_key_inj events.id (public_events d)); auto.
    pose proof (proj1 (wf_db_iff d) Hwf) as [_ [_ [_ [Ce _]]]].
    unfold constraints.events in Ce. rewrite holds_check_bind, andb_true_iff in Ce. tauto. }
  reflexivity.
Qed.

(** ** The officer's review list *)

Lemma set_total_hours_roles expr cond rows rows' :
  set_total_hours expr cond rows = inr rows' ->
  map owner_role rows' = map owner_role rows.
Proof.
  revert rows'. induction rows as [| p rest IH]; intros rows' H; cbn in H.
  - injection H as <-. reflexivity.
  - destruct (Sql.is_true (cond p)).
    + destruct (expr (profiles.total_hours p)) as [e | [v |]]; try discriminate.
      destruct (set_total_hours expr cond rest) as [e | rest']; try discriminate.
      injection H as <-. cbn [map]. rewrite (IH rest' eq_refl). reflexivity.
    + destruct (set_total_hours expr cond rest) as [e | rest']; try discriminate.
      injection H as <-. cbn [map]. rewrite (IH rest' eq_refl). reflexivity.
Qed.

Lemma accounting_roles OLD NEW rows rows' :
  accounting OLD NEW rows = inr rows' -> map owner_role rows' = map owner_role rows.
Proof.
  unfold accounting. destruct (_ && _); [apply set_total_hours_roles |].
  destruct (_ && _); [apply set_total_hours_roles |].
  intros [= <-]. reflexivity.
Qed.

Lemma exists_profile_roles d d' uid roles :
  map owner_role (public_profiles d') = map owner_role (public_profiles d) ->
  policy.exists_profile d' uid roles = policy.exists_profile d uid roles.
Proof.
  unfold policy.exists_profile. intros H.
  assert (E : forall l,
             existsb (fun p => Sql.is_true
                                 (Sql.and3 (Sql.eq3 N.eqb (Some (profiles.user_id p)) uid)
                                           (Sql.in3 user_role_eqb (Some (profiles.role p)) roles)))
                     l
             = existsb (fun x => Sql.is_true
                                   (Sql.and3 (Sql.eq3 N.eqb (Some (fst x)) uid)
                                             (Sql.in3 user_role_eqb (Some (snd x)) roles)))
                       (map owner_role l)).
  { induction l as [| p l IH]; [reflexivity |]. cbn [map existsb]. rewrite IH. reflexivity. }
  rewrite !E, H. reflexivity.
Qed.

Lemma pending_of_officer d u :
  policy.attendance_update d (Some u) = true ->
  map OfficerView.row (OfficerView.pendingAttendance (Some u) d)
  = filter (fun a => attendance_status_eqb (attendance.status a) pending)
           (public_attendance d).
Proof.
  intros Hpol. unfold OfficerView.pendingAttendance. cbv zeta.
  rewrite map_map. cbn [OfficerView.row]. rewrite map_id.
  unfold select_attendance. apply filter_ext. intros a.
  rewrite (update_policy_select d (Some u) a Hpol), andb_true_r. reflexivity.
Qed.

Lemma pending_after_verdict (l : list attendance.row) (k : uuid) (s : attendance.patch) :
  (forall a, attendance_status_eqb (attendance.status (attendance.apply s a)) pending = false) ->
  filter (fun a => attendance_status_eqb (attendance.status a) pending)
         (map (fun a => if N.eqb (attendance.id a) k then attendance.apply s a else a) l)
  = filter (fun a => negb (N.eqb (attendance.id a) k))
           (filter (fun a => attendance_status_eqb (attendance.status a) pending) l).
Proof.
  intros Hs. induction l as [| a l IH]; [reflexivity |].
  cbn [map filter].
  destruct (N.eqb (attendance.id a) k) eqn:E.
  - rewrite Hs. destruct (attendance_status_eqb (attendance.status a) pending);
      cbn [filter]; [rewrite E; cbn [negb] |]; exact IH.
  - destruct (attendance_status_eqb (attendance.status a) pending);
      cbn [filter]; [rewrite E; cbn [negb]; rewrite IH; reflexivity | exact IH].
Qed.

(** X16: a verdict takes the record out of the officer's review list and
    leaves the rest of the list as it was: after an accepted approval or
    denial of a record, the list of pending records fetched again is the
    former list without that record. *)
Theorem X16_verdict_leaves_the_review_list :
  forall (d d' : db) (u : uuid) (OLD : attendance.row) (st : attendance_status),
    wf_db d = true ->
    In OLD (public_attendance d) ->
    officer_or_admin (policy.get_current_user_role d (Some u)) = true ->
    st <> pending ->
    OfficerDashboard.updateAttendanceStatus (Some u) (attendance.id OLD) st d
    = (d', Some (toast_default "Success!")) ->
    map OfficerView.row (OfficerView.pendingAttendance (Some u) d')
    = filter (fun a => negb (N.eqb (attendance.id a) (attendance.id OLD)))
             (map OfficerView.row (OfficerView.pendingAttendance (Some u) d)).
Proof.
  intros d d' u OLD st Hwf Hin Hrole Hst Hrun.
  assert (Hpol : policy.attendance_update d (Some u) = true).
  { unfold policy.attendance_update. rewrite exists_profile_role by exact Hwf.
    destruct (policy.get_current_user_role d (Some u)) as [[| |] |]; try discriminate;
      reflexivity. }
  unfold OfficerDashboard.updateAttendanceStatus, show in Hrun.
  rewrite (status_update_run d u OLD st Hwf Hin Hrole) in Hrun. cbv zeta in Hrun.
  destruct (accounting _ _ _) as [e | rows] eqn:Eacc; [discriminate |].
  cbn [fst snd] in Hrun. injection Hrun as <-.
  assert (Hpol' : policy.attendance_update
                    (with_profiles rows
                       (with_attendance
                          (map (fun a => if N.eqb (attendance.id a) (attendance.id OLD)
                                         then attendance.apply
                                                (OfficerDashboard.status_patch st u) a
                                         else a) (public_attendance d)) d))
                    (Some u) = true).
  { rewrite <- Hpol. unfold policy.attendance_update. apply exists_profile_roles.
    cbn [public_profiles with_profiles]. exact (accounting_roles _ _ _ _ Eacc). }
  rewrite (pending_of_officer _ u Hpol'), (pending_of_officer d u Hpol).
  cbn [public_attendance with_profiles with_attendance].
  apply pending_after_verdict. intros a. cbn.
  destruct st; try reflexivity; congruence.
Qed.

(** ** Totals and approved hours *)

Lemma credited_app u l1 l2 : credited u (l1 ++ l2) = (credited u l1 + credited u l2)%Z.
Proof.
  unfold credited. induction l1 as [| a l1 IH]; cbn [app map fold_right]; [reflexivity |].
  rewrite IH. lia.
Qed.

Lemma credited_cons u a l : credited u (a :: l) = (credit u a + credited u l)%Z.
Proof. reflexivity. Qed.

Lemma credit_nonneg u a :
  (exists h, attendance.hours_awarded a = Some h /\ (0 <= h)%Z) -> (0 <= credit u a)%Z.
Proof.
  intros [h [Hh H0]]. unfold credit. rewrite Hh. cbn [default].
  destruct (_ && _); lia.
Qed.

Lemma credited_nonneg u l : hours_present l -> (0 <= credited u l)%Z.
Proof.
  induction l as [| a l IH]; intros H; [cbn; lia |].
  rewrite credited_cons.
  assert (0 <= credit u a)%Z by (apply credit_nonneg, H; left; reflexivity).
  assert (0 <= credited u l)%Z by (apply IH; intros x Hx; apply H; right; exact Hx).
  lia.
Qed.

Lemma hour_rule_credit u OLD NEW h t :
  attendance.user_id NEW = attendance.user_id OLD ->
  attendance.hours_awarded OLD = Some h ->
  attendance.hours_awarded NEW = Some h ->
  attendance.user_id NEW = u ->
  (credit u OLD <= t)%Z -> (0 <= h)%Z ->
  hour_rule (attendance.status OLD) (attendance.status NEW) h h t
  = (t - credit u OLD + credit u NEW)%Z.
Proof.
  intros Eu HO HN <- Ht H0. unfold hour_rule, credit in Ht |- *.
  rewrite HO, Eu, N.eqb_refl in Ht. rewrite HO, HN, Eu, N.eqb_refl.
  cbn [default andb] in Ht |- *.
  destruct (attendance.status OLD), (attendance.status NEW);
    cbn [attendance_status_eqb andb negb] in Ht |- *; lia.
Qed.

Lemma credit_other u a a' :
  attendance.user_id a' = attendance.user_id a ->
  attendance.user_id a <> u ->
  credit u a' = credit u a.
Proof.
  intros E Ne. unfold credit. rewrite E.
  destruct (N.eqb_spec (attendance.user_id a) u); [contradiction | reflexivity].
Qed.

Lemma account_all_balanced s (target : attendance.row -> bool) l2 :
  attendance.s_hours_awarded s = None ->
  attendance.s_user_id s = None ->
  forall l1 rows rows',
    hours_present (l1 ++ l2) ->
    balanced rows (l1 ++ l2) ->
    account_all s (filter target l2) rows = inr rows' ->
    balanced rows' (l1 ++ map (fun a => if target a then attendance.apply s a else a) l2).
Proof.
  intros Hs Hu. induction l2 as [| a rest IH]; intros l1 rows rows' Hh Hb Hacc.
  - cbn in Hacc. injection Hacc as <-. exact Hb.
  - cbn [filter map] in *. destruct (target a) eqn:Et.
    + cbn [account_all] in Hacc.
      set (NEW := attendance.apply s a) in *.
      destruct (accounting a NEW rows) as [e | rows1] eqn:E1; [discriminate |].
      assert (Eu : attendance.user_id NEW = attendance.user_id a)
        by (unfold NEW; cbn; rewrite Hu; reflexivity).
      assert (Ehh : attendance.hours_awarded NEW = attendance.hours_awarded a)
        by (unfold NEW; cbn; rewrite Hs; reflexivity).
      destruct (Hh a) as [h [Ha H0]]; [apply in_or_app; right; left; reflexivity |].
      pose proof (accounting_spec a NEW h h rows rows1 Ha (eq_trans Ehh Ha) E1) as Hspec.
      replace (l1 ++ NEW :: map (fun a0 => if target a0 then attendance.apply s a0 else a0) rest)%list
        with ((l1 ++ [NEW]) ++ map (fun a0 => if target a0 then attendance.apply s a0 else a0) rest)%list
        by (rewrite <- app_assoc; reflexivity).
      apply (IH (l1 ++ [NEW])%list rows1 rows'); [| | exact Hacc].
      * intros x Hx. rewrite <- app_assoc in Hx. cbn [app] in Hx.
        apply in_app_or in Hx. destruct Hx as [Hx | [<- | Hx]].
        -- apply Hh. apply in_or_app. left. exact Hx.
        -- exists h. rewrite Ehh. auto.
        -- apply Hh. apply in_or_app. right. right. exact Hx.
      * intros p1 Hp1. rewrite Hspec in Hp1. apply in_map_iff in Hp1.
        destruct Hp1 as [p [<- Hp]]. specialize (Hb p Hp).
        rewrite <- app_assoc. cbn [app].
        rewrite credited_app, credited_cons in Hb |- *.
        assert (Hl1 : hours_present l1)
          by (intros x Hx; apply Hh; apply in_or_app; left; exact Hx).
        assert (Hrest : hours_present rest)
          by (intros x Hx; apply Hh; apply in_or_app; right; right; exact Hx).
        destruct (N.eqb_spec (profiles.user_id p) (attendance.user_id NEW)) as [Ep | Np].
        -- cbn [profiles.user_id profiles.total_hours profiles.with_total_hours].
           pose proof (credited_nonneg (profiles.user_id p) l1 Hl1).
           pose proof (credited_nonneg (profiles.user_id p) rest Hrest).
           rewrite (hour_rule_credit (profiles.user_id p) a NEW h); auto;
             [lia | exact (eq_trans Ehh Ha) | lia].
        -- rewrite (credit_other (profiles.user_id p) a NEW Eu) by congruence. exact Hb.
    + replace (l1 ++ a :: map (fun a0 => if target a0 then attendance.apply s a0 else a0) rest)%list
        with ((l1 ++ [a]) ++ map (fun a0 => if target a0 then attendance.apply s a0 else a0) rest)%list
        by (rewrite <- app_assoc; reflexivity).
      apply (IH (l1 ++ [a])%list rows rows'); [| | exact Hacc].
      * rewrite <- app_assoc. exact Hh.
      * rewrite <- app_assoc. exact Hb.
Qed.

Lemma credited_absent u l :
  (forall a, In a l -> attendance.user_id a <> u) -> credited u l = 0%Z.
Proof.
  induction l as [| a l IH]; intros H; [reflexivity |].
  rewrite credited_cons, IH by (intros x Hx; apply H; right; exact Hx).
  unfold credit. destruct (N.eqb_spec (attendance.user_id a) u) as [E |]; [| reflexivity].
  exfalso. exact (H a (or_introl eq_refl) E).
Qed.

Lemma distinctb_app_last_inv {A} (eqb : A -> A -> bool) (l : list A) (y : A) :
  distinctb eqb (l ++ [y]) = true -> forall x, In x l -> eqb x y = false.
Proof.
  intros H x Hx. destruct (eqb x y) eqn:E; [| reflexivity].
  rewrite (distinctb_app_last eqb l x y Hx E) in H. discriminate.
Qed.

Lemma step_accounted d c : dashboard_flow c -> accounted d -> accounted (step d c).
Proof.
  intros Hc [Hwf [Hh Hb]].
  assert (Hwf' : wf_db (step d c) = true) by (apply step_wf; exact Hwf).
  split; [exact Hwf' |]. clear Hwf'.
  destruct c as [[uid gen] st]. unfold step.
  destruct st as [NEW | v | w s | v | w s | w | v | w s]; cbn [dashboard_flow exec] in *;
    try contradiction.
  - (* a new identity *)
    unfold request. rewrite run_auth_users_insert. cbv zeta.
    destruct (constraints.users _) as [e | ok] eqn:Eu; [cbn [fst]; auto |].
    destruct (constraints.profiles _) as [e | ok']; cbn [fst]; [auto |].
    cbn [public_attendance public_profiles with_profiles with_auth_users].
    split; [exact Hh |].
    intros p Hp. apply in_app_or in Hp. destruct Hp as [Hp | [<- | []]]; [exact (Hb p Hp) |].
    cbn [profiles.total_hours profiles.user_id]. symmetry. apply credited_absent.
    intros a Ha E.
    assert (Hd : distinctb N.eqb (map auth.id (auth_users d ++ [NEW])) = true).
    { apply holds_of_inr in Eu. unfold constraints.users in Eu.
      rewrite holds_check in Eu. exact Eu. }
    rewrite map_app in Hd. cbn [map] in Hd.
    pose proof (proj1 (wf_db_iff d) Hwf) as [_ [_ [_ [_ Ca]]]].
    unfold constraints.attendance in Ca.
    rewrite !holds_check_bind, holds_check, !andb_true_iff in Ca.
    destruct Ca as [_ [_ [_ [Ca4 _]]]]. rewrite forallb_forall in Ca4.
    specialize (Ca4 a Ha). unfold references_user in Ca4.
    apply existsb_exists in Ca4. destruct Ca4 as [x [Hx Hid]].
    apply N.eqb_eq in Hid.
    pose proof (distinctb_app_last_inv N.eqb _ _ Hd (auth.id x)
                  (in_map auth.id _ _ Hx)) as Hne.
    apply N.eqb_neq in Hne. congruence.
  - (* a new event *)
    rewrite (keeps_request public_attendance _ d (events_insert_attendance uid gen v _)).
    rewrite (keeps_request public_profiles _ d (events_insert_profiles uid gen v _)).
    auto.
  - (* an edited event *)
    rewrite (keeps_request public_attendance _ d (events_update_attendance uid w s _)).
    rewrite (keeps_request public_profiles _ d (events_update_profiles uid w s _)).
    auto.
  - (* a sign-up *)
    destruct Hc as [Hst Hhours].
    unfold request. rewrite run_attendance_insert.
    destruct (Sql.int4_opt _) as [e | h] eqn:Eh; [cbn [fst]; auto |].
    destruct (policy.attendance_insert _ _); [| cbn [fst]; auto].
    destruct (attendance.v_event_id v) as [ev |]; [| cbn [fst]; auto].
    destruct (attendance.v_user_id v) as [us |]; [| cbn [fst]; auto].
    cbv zeta. destruct (constraints.attendance _) as [e | ok]; cbn [fst]; [auto |].
    cbn [public_attendance public_profiles with_attendance].
    apply int4_opt_inr in Eh. destruct Eh as [-> _].
    split.
    + intros a Ha. apply in_app_or in Ha. destruct Ha as [Ha | [<- | []]]; [exact (Hh a Ha) |].
      cbn [attendance.hours_awarded].
      destruct (attendance.v_hours_awarded v) as [[h |] |]; cbn [default].
      * exists h. auto.
      * contradiction.
      * exists 0%Z. split; [reflexivity | lia].
    + intros p Hp. rewrite credited_app, (Hb p Hp). cbn [credited map fold_right].
      unfold credit. cbn [attendance.status attendance.user_id].
      assert (E : attendance_status_eqb (default (attendance.v_status v) pending) approved
                  = false).
      { destruct (attendance.v_status v) as [[| |] |]; try reflexivity. congruence. }
      rewrite E, andb_false_r. lia.
  - (* a status transition *)
    destruct Hc as [Hs Hu].
    unfold request. rewrite run_attendance_update. cbv zeta.
    destruct (Sql.int4_opt _) as [e | h]; [cbn [fst]; auto |].
    destruct (forallb _ _); [| cbn [fst]; auto].
    destruct (constraints.attendance _) as [e | ok]; [cbn [fst]; auto |].
    destruct (account_all _ _ _) as [e | rows] eqn:Eacc; cbn [fst]; [auto |].
    cbn [public_attendance public_profiles with_profiles with_attendance].
    split.
    + intros a Ha. apply in_map_iff in Ha. destruct Ha as [o [<- Ho]].
      destruct (Hh o Ho) as [h' [Hh' H0]]. exists h'. split; [| exact H0].
      destruct (attendance_target d uid w o); [| exact Hh'].
      cbn. rewrite Hs. exact Hh'.
    + exact (account_all_balanced s (attendance_target d uid w) (public_attendance d)
               Hs Hu [] _ _ Hh Hb Eacc).
Qed.

(** X17: along the flows of the dashboards (new identities, event
    creation and edits, sign-ups with non-negative hours that are not
    created as approved, and status transitions that leave hours and user of
    a record alone) every profile's total-hours equals the sum of the
    hours-awarded values of its user's approved records. *)
Theorem X17_totals_are_the_approved_hours :
  forall (trace : list call) (d : db),
    Forall dashboard_flow trace ->
    accounted d ->
    balanced (public_profiles (run trace d)) (public_attendance (run trace d)).
Proof.
  intros trace d Hall Hacc.
  assert (H : accounted (run trace d)); [| exact (proj2 (proj2 H))].
  revert d Hacc. induction trace as [| c rest IH]; intros d Hacc; [exact Hacc |].
  inversion Hall as [| c' rest' Hc Hrest]; subst.
  cbn [run fold_left]. apply (IH Hrest). exact (step_accounted d c Hc Hacc).
Qed.

(** ** What the dashboards show *)

Lemma wf_attendance_references_events d a :
  wf_db d = true -> In a (public_attendance d) ->
  references_event d (attendance.event_id a) = true.
Proof.
  unfold wf_db. rewrite !andb_true_iff. intros [_ H] Ha.
  unfold constraints.attendance in H. rewrite !holds_check_bind, !andb_true_iff in H.
  assert (F : forallb (fun a => references_event d (attendance.event_id a))
                      (public_attendance d) = true) by tauto.
  rewrite forallb_forall in F. exact (F a Ha).
Qed.

Lemma wf_events_id_unique d :
  wf_db d = true -> distinctb N.eqb (map events.id (public_events d)) = true.
Proof.
  unfold wf_db. rewrite !andb_true_iff. intros [[_ H] _].
  unfold constraints.events in H. rewrite !holds_check_bind, !andb_true_iff in H. tauto.
Qed.

Lemma select_events_all user d : select_events user (fun _ => true) d = public_events d.
Proof. unfold select_events. apply filter_true. reflexivity. Qed.

(** X18: every attendance record finds its event in the list of events the
    officer dashboard has fetched, whatever the order of that list:
    [getEventById] returns the one event with the record's event id, so the
    review list never falls back to 'Unknown Event'. *)
Theorem X18_review_list_finds_the_event :
  forall (d : db) (user : option uuid) (fetched : list events.row) (a : attendance.row),
    wf_db d = true ->
    Permutation fetched (select_events user (fun _ => true) d) ->
    In a (public_attendance d) ->
    exists e,
      OfficerView.getEventById fetched (attendance.event_id a) = Some e
      /\ In e (public_events d)
      /\ events.id e = attendance.event_id a
      /\ (forall e', In e' (public_events d) ->
                     events.id e' = attendance.event_id a -> e' = e).
Proof.
  intros d user fetched a Hwf Hperm Ha. rewrite select_events_all in Hperm.
  pose proof (wf_attendance_references_events d a Hwf Ha) as Href.
  unfold references_event in Href. apply existsb_exists in Href.
  destruct Href as [e0 [He0 Eid0]]. apply N.eqb_eq in Eid0.
  unfold OfficerView.getEventById.
  destruct (find _ fetched) as [e |] eqn:Ef.
  - apply find_some in Ef. destruct Ef as [He Eid]. apply N.eqb_eq in Eid.
    assert (He' : In e (public_events d)) by exact (Permutation_in e Hperm He).
    exists e. repeat split; auto.
    intros e' Hin' Eid'.
    apply (distinctb_key_inj events.id (public_events d) e' e
             (wf_events_id_unique d Hwf) Hin' He'). congruence.
  - exfalso.
    assert (Hf : In e0 fetched) by exact (Permutation_in e0 (Permutation_sym Hperm) He0).
    pose proof (find_none _ _ Ef e0 Hf) as Hn. cbv beta in Hn.
    rewrite Eid0, N.eqb_refl in Hn. discriminate.
Qed.

Lemma totalHours_from (l : list profiles.row) (sum : Z) :
  fold_left (fun sum p => (sum + profiles.total_hours p)%Z) l sum
  = (sum + fold_right Z.add 0%Z (map profiles.total_hours l))%Z.
Proof.
  revert sum. induction l as [| p rest IH]; intros sum; cbn [fold_left map fold_right].
  - lia.
  - rewrite IH. lia.
Qed.

Lemma totalHours_sum (l : list profiles.row) :
  AdminView.totalHours l = fold_right Z.add 0%Z (map profiles.total_hours l).
Proof. unfold AdminView.totalHours. rewrite totalHours_from. lia. Qed.

Lemma totalHours_perm (l l' : list profiles.row) :
  Permutation l l' -> AdminView.totalHours l = AdminView.totalHours l'.
Proof.
  intros H. rewrite !totalHours_sum.
  induction H; cbn [map fold_right]; lia.
Qed.

Lemma raise_untouched (u : uuid) (h : Z) (rows : list profiles.row) :
  (forall x, In x rows -> profiles.user_id x <> u) ->
  map (fun p => if N.eqb (profiles.user_id p) u
                then profiles.with_total_hours (profiles.total_hours p + h) p
                else p) rows = rows.
Proof.
  intros H. induction rows as [| x rest IH]; [reflexivity |]. cbn [map].
  destruct (N.eqb_spec (profiles.user_id x) u) as [E | _].
  - exfalso. apply (H x); [left; reflexivity | exact E].
  - rewrite IH; [reflexivity |]. intros y Hy. apply H. right. exact Hy.
Qed.

Lemma totalHours_raise (u : uuid) (h : Z) (rows : list profiles.row) (p : profiles.row) :
  distinctb N.eqb (map profiles.user_id rows) = true ->
  In p rows -> profiles.user_id p = u ->
  AdminView.totalHours
    (map (fun p => if N.eqb (profiles.user_id p) u
                   then profiles.with_total_hours (profiles.total_hours p + h) p
                   else p) rows)
  = (AdminView.totalHours rows + h)%Z.
Proof.
  intros Hd Hp Hu. rewrite !totalHours_sum.
  induction rows as [| x rest IH]; [destruct Hp |].
  cbn [map distinctb] in Hd. apply andb_true_iff in Hd. destruct Hd as [Hx Hrest].
  apply negb_true_iff in Hx. cbn [map fold_right].
  destruct (N.eqb_spec (profiles.user_id x) u) as [E | Ne].
  - rewrite raise_untouched.
    + destruct x; cbn [profiles.total_hours profiles.with_total_hours]. lia.
    + intros y Hy Ey.
      assert (existsb (N.eqb (profiles.user_id x)) (map profiles.user_id rest) = true);
        [| congruence].
      apply existsb_exists. exists (profiles.user_id y).
      split; [apply in_map; exact Hy |]. apply N.eqb_eq. congruence.
  - destruct Hp as [-> | Hp]; [congruence |].
    rewrite (IH Hrest Hp). lia.
Qed.

Lemma admin_selects_all (d : db) (viewer : uuid) :
  policy.get_current_user_role d (Some viewer) = Some admin ->
  select_profiles (Some viewer) (fun _ => true) d = public_profiles d.
Proof.
  intros Hr. unfold select_profiles. apply filter_true. intros p.
  unfold policy.profiles_select. rewrite Hr. cbn. apply orb_true_r.
Qed.

(** X19: an approval shows on the admin dashboard: when an officer or admin
    approves a record with [h] hours whose user has a profile, the "Total
    Hours" card, the sum of the totals of the profiles the admin has fetched
    (in whatever order), is [h] higher after the approval than before. *)
Theorem X19_approval_raises_the_total_hours_card :
  forall (d : db) (u viewer : uuid) (OLD : attendance.row) (h : Z) (p : profiles.row)
         (before after : list profiles.row),
    wf_db d = true ->
    In OLD (public_attendance d) ->
    officer_or_admin (policy.get_current_user_role d (Some u)) = true ->
    attendance.status OLD <> approved ->
    attendance.hours_awarded OLD = Some h ->
    In p (public_profiles d) ->
    profiles.user_id p = attendance.user_id OLD ->
    Sql.in_int4 (profiles.total_hours p + h) = true ->
    policy.get_current_user_role d (Some viewer) = Some admin ->
    let d' := fst (OfficerDashboard.updateAttendanceStatus
                     (Some u) (attendance.id OLD) approved d) in
    Permutation before (select_profiles (Some viewer) (fun _ => true) d) ->
    Permutation after (select_profiles (Some viewer) (fun _ => true) d') ->
    AdminView.totalHours after = (AdminView.totalHours before + h)%Z.
Proof.
  intros d u viewer OLD h p before after Hwf Hin Hrole Hst Hh Hp Hown Hfit Hadmin d' Hb Ha.
  set (s1 := OfficerDashboard.status_patch approved u).
  set (g := fun p => if N.eqb (profiles.user_id p) (attendance.user_id OLD)
                     then profiles.with_total_hours (profiles.total_hours p + h) p
                     else p).
  assert (Hg : forall p, profiles.user_id (g p) = profiles.user_id p
                         /\ profiles.role (g p) = profiles.role p).
  { intros q. unfold g. destruct (_ =? _)%N; split; reflexivity. }
  assert (Hacc : accounting OLD (attendance.apply s1 OLD) (public_profiles d)
                 = inr (map g (public_profiles d))).
  { apply (accounting_approve OLD (attendance.apply s1 OLD) h); auto.
    intros q Hq Hq'.
    assert (q = p) as ->; [| exact Hfit].
    apply (owner_unique d p q Hwf Hp Hq). rewrite Hown. exact Hq'. }
  set (d1 := with_profiles (map g (public_profiles d))
               (with_attendance
                  (map (fun a => if N.eqb (attendance.id a) (attendance.id OLD)
                                 then attendance.apply s1 a else a)
                       (public_attendance d)) d)).
  assert (Hreq : request (attendance_update (Some u)
                            (fun a => N.eqb (attendance.id a) (attendance.id OLD)) s1) d
                 = (d1, inr 1)).
  { pose proof (status_update_run d u OLD approved Hwf Hin Hrole) as Hrun.
    cbv zeta in Hrun. fold s1 in Hrun. rewrite Hacc in Hrun. exact Hrun. }
  assert (Hd' : public_profiles d' = map g (public_profiles d)
                /\ policy.get_current_user_role d' (Some viewer) = Some admin).
  { unfold d', OfficerDashboard.updateAttendanceStatus, show.
    fold s1. rewrite Hreq. cbn [fst snd]. split; [reflexivity |].
    unfold d1. rewrite (role_after_totals d (Some viewer) g); [exact Hadmin | exact Hg]. }
  destruct Hd' as [Hrows Hadmin'].
  rewrite (admin_selects_all d viewer Hadmin) in Hb.
  rewrite (admin_selects_all d' viewer Hadmin'), Hrows in Ha.
  rewrite (totalHours_perm _ _ Ha), (totalHours_perm _ _ Hb).
  apply (totalHours_raise (attendance.user_id OLD) h (public_profiles d) p);
    [exact (wf_profiles_user_unique d Hwf) | exact Hp | exact Hown].
Qed.

(** ** Roles *)

Lemma account_all_roles s OLDs rows rows' :
  account_all s OLDs rows = inr rows' -> map owner_role rows' = map owner_role rows.
Proof.
  revert rows. induction OLDs as [| o rest IH]; intros rows; cbn [account_all].
  - intros [= <-]. reflexivity.
  - destruct (accounting o (attendance.apply s o) rows) as [e | rows1] eqn:E; [discriminate |].
    intros H. rewrite (IH rows1 H). exact (accounting_roles _ _ _ _ E).
Qed.

Lemma role_via_owner_role d uid :
  policy.get_current_user_role d uid =
  match filter (fun x : uuid * user_role => Sql.is_true (Sql.eq3 N.eqb (Some (fst x)) uid))
               (map owner_role (public_profiles d)) with
  | x :: _ => Some (snd x)
  | [] => None
  end.
Proof.
  unfold policy.get_current_user_role.
  induction (public_profiles d) as [| p rest IH]; [reflexivity |].
  cbn [map filter owner_role fst].
  destruct (Sql.is_true (Sql.eq3 N.eqb (Some (profiles.user_id p)) uid)); [reflexivity |].
  exact IH.
Qed.

Lemma role_kept d d' uid r new :
  map owner_role (public_profiles d') = (map owner_role (public_profiles d) ++ new)%list ->
  policy.get_current_user_role d uid = Some r ->
  policy.get_current_user_role d' uid = Some r.
Proof.
  intros H. rewrite !role_via_owner_role, H, filter_app.
  destruct (filter _ (map owner_role (public_profiles d))) as [| x l]; [discriminate |].
  intros Hr. exact Hr.
Qed.

Lemma officers_via_owner_role (l : list profiles.row) :
  AdminView.officers l =
  List.length (filter (fun x => user_role_eqb (snd x) officer) (map owner_role l)).
Proof.
  unfold AdminView.officers. induction l as [| p rest IH]; [reflexivity |].
  cbn [map filter owner_role snd].
  destruct (user_role_eqb (profiles.role p) officer); cbn [List.length]; rewrite IH; reflexivity.
Qed.

Lemma officers_perm (l l' : list profiles.row) :
  Permutation l l' -> AdminView.officers l = AdminView.officers l'.
Proof.
  intros H. unfold AdminView.officers.
  induction H as [| x l l' H IH | x y l | l l' l'' H1 IH1 H2 IH2]; cbn [filter].
  - reflexivity.
  - destruct (user_role_eqb _ _); cbn [List.length]; rewrite IH; reflexivity.
  - destruct (user_role_eqb (profiles.role x) officer),
             (user_role_eqb (profiles.role y) officer); reflexivity.
  - congruence.
Qed.

Lemma step_roles (d : db) (c : call) :
  (forall v, snd c <> InsertProfile v) ->
  (forall w s, snd c <> UpdateProfile w s) ->
  exists new,
    map owner_role (public_profiles (step d c))
    = (map owner_role (public_profiles d) ++ new)%list
    /\ forall x, In x new -> snd x = member.
Proof.
  intros Hi Hu. destruct c as [[uid gen] st]. cbn [snd] in Hi, Hu. unfold step.
  assert (Hsame : forall d', public_profiles d' = public_profiles d ->
            exists new,
              map owner_role (public_profiles d')
              = (map owner_role (public_profiles d) ++ new)%list
              /\ forall x, In x new -> snd x = member).
  { intros d' E. exists []. rewrite E, app_nil_r. split; [reflexivity | intros x []]. }
  destruct st as [NEW | v | w s | v | w s | w | v | w s]; cbn [exec].
  - unfold request. rewrite run_auth_users_insert. cbv zeta.
    destruct (constraints.users _) as [e | ok]; [apply Hsame; reflexivity |].
    destruct (constraints.profiles _) as [e | ok']; [apply Hsame; reflexivity |].
    cbn [fst public_profiles with_profiles]. rewrite map_app.
    eexists. split; [reflexivity |].
    intros x [<- | []]. reflexivity.
  - exfalso. exact (Hi v eq_refl).
  - exfalso. exact (Hu w s eq_refl).
  - apply Hsame, (keeps_request public_profiles), events_insert_profiles.
  - apply Hsame, (keeps_request public_profiles), events_update_profiles.
  - apply Hsame. unfold request. rewrite run_events_delete. reflexivity.
  - apply Hsame. unfold request. rewrite run_attendance_insert.
    destruct (Sql.int4_opt _) as [e | h]; [reflexivity |].
    destruct (policy.attendance_insert uid _); [| reflexivity].
    destruct (attendance.v_event_id v) as [ev |]; [| reflexivity].
    destruct (attendance.v_user_id v) as [us |]; [| reflexivity].
    cbv zeta. destruct (constraints.attendance _) as [e | ok]; reflexivity.
  - unfold request. rewrite run_attendance_update. cbv zeta.
    destruct (Sql.int4_opt _) as [e | h]; [apply Hsame; reflexivity |].
    destruct (forallb _ _); [| apply Hsame; reflexivity].
    destruct (constraints.attendance _) as [e | ok]; [apply Hsame; reflexivity |].
    destruct (account_all _ _ _) as [e | rows] eqn:Ea; [apply Hsame; reflexivity |].
    cbn [fst public_profiles with_profiles].
    exists []. rewrite app_nil_r. split; [| intros x []].
    exact (account_all_roles _ _ _ _ Ea).
Qed.

(** X20: roles change through writes to profiles only. After a request
    that is no insert into and no update of profiles (a new identity, an
    event form, a deletion of events, a sign-up, a verdict), accepted or
    not, the profiles are the former ones, each with the user and the role
    it had, followed by those the request created, each a member's. So the
    role lookup answers for every caller what it answered before, and the
    "Officers" card of the admin dashboard, the number of officers among
    the profiles an admin has fetched (in whatever order), is the same
    before and after the request. *)
Theorem X20_roles_change_by_profile_writes_only :
  forall (d : db) (c : call),
    (forall v, snd c <> InsertProfile v) ->
    (forall w s, snd c <> UpdateProfile w s) ->
    exists created,
      map owner_role (public_profiles (step d c))
      = (map owner_role (public_profiles d) ++ created)%list
      /\ (forall x, In x created -> snd x = member)
      /\ (forall uid r,
            policy.get_current_user_role d uid = Some r ->
            policy.get_current_user_role (step d c) uid = Some r)
      /\ (forall (viewer : uuid) (before after : list profiles.row),
            policy.get_current_user_role d (Some viewer) = Some admin ->
            Permutation before (select_profiles (Some viewer) (fun _ => true) d) ->
            Permutation after (select_profiles (Some viewer) (fun _ => true) (step d c)) ->
            AdminView.officers after = AdminView.officers before).
Proof.
  intros d c Hi Hu.
  destruct (step_roles d c Hi Hu) as [created [Hroles Hnew]].
  exists created. split; [exact Hroles |]. split; [exact Hnew |]. split.
  - intros uid r. exact (role_kept d (step d c) uid r created Hroles).
  - intros viewer before after Hadmin Hb Ha.
    pose proof (role_kept d (step d c) (Some viewer) admin created Hroles Hadmin) as Hadmin'.
    rewrite (admin_selects_all d viewer Hadmin) in Hb.
    rewrite (admin_selects_all (step d c) viewer Hadmin') in Ha.
    rewrite (officers_perm _ _ Ha), (officers_perm _ _ Hb).
    rewrite !officers_via_owner_role, Hroles, filter_app, length_app.
    rewrite (filter_none (fun x => user_role_eqb (snd x) officer) created).
    + cbn [List.length]. apply Nat.add_0_r.
    + intros x Hx. rewrite (Hnew x Hx). reflexivity.
Qed.

(** ** Concrete runs of the further properties *)

Lemma X1_witness :
  wf_db (run [ (None, 101%N, InsertUser (auth.mk 1%N "ada@ices.org" (Some "Ada")));
               (None, 104%N, InsertUser sample.noa);
               (Some 4%N, 0%N,
                UpdateProfile (fun p => N.eqb (profiles.user_id p) 4%N)
                  (profiles.set None None (Some "Noa") None None None)) ]
             empty_db) = true.
Proof. apply X1_requests_keep_schema. reflexivity. Defined.

Lemma X2_witness :
  OfficerDashboard.updateAttendanceStatus (Some demo.ole) 301%N approved
    (demo.d1 pending 10 2147483640)
  = (demo.d1 pending 10 2147483640, Some (toast_destructive numeric_value_out_of_range)).
Proof.
  apply (X2_approval_overflow_rejected (demo.d1 pending 10 2147483640) demo.ole
           (demo.signup pending 10) (sample.mia_profile 2147483640) 10).
  - reflexivity.
  - simpl. left. reflexivity.
  - reflexivity.
  - discriminate.
  - reflexivity.
  - simpl. right. right. left. reflexivity.
  - reflexivity.
  - vm_compute. reflexivity.
Defined.

Lemma X3_witness :
  OfficerDashboard.updateAttendanceStatus (Some demo.ole) 301%N approved (sample.d2 pending 0)
  = (sample.d2 pending 0, Some (toast_destructive (not_null_violation "total_hours"))).
Proof.
  apply (X3_approval_without_hours_rejected (sample.d2 pending 0) demo.ole
           (sample.no_hours pending) (sample.mia_profile 0)).
  - reflexivity.
  - simpl. left. reflexivity.
  - reflexivity.
  - discriminate.
  - reflexivity.
  - simpl. right. right. left. reflexivity.
  - reflexivity.
Defined.

Lemma X4_witness :
  map profiles.total_hours (public_profiles (sample.d2 approved 7)) = [0; 0; 7]%Z
  /\ public_profiles
       (fst (request (attendance_update (Some demo.ole)
                        (fun a => N.eqb (attendance.id a)
                                        (attendance.id (sample.no_hours approved)))
                        (OfficerDashboard.status_patch denied demo.ole))
                     (sample.d2 approved 7)))
     = map (fun p => if N.eqb (profiles.user_id p)
                              (attendance.user_id (sample.no_hours approved))
                     then profiles.with_total_hours 0 p else p)
           (public_profiles (sample.d2 approved 7)).
Proof.
  split; [reflexivity |].
  apply (X4_withdrawal_without_hours_resets (sample.d2 approved 7) demo.ole
           (sample.no_hours approved) denied).
  - reflexivity.
  - simpl. left. reflexivity.
  - reflexivity.
  - reflexivity.
  - discriminate.
  - reflexivity.
Defined.

Lemma X5_witness :
  OfficerDashboard.updateAttendanceStatus (Some demo.mia) 301%N approved (demo.d1 pending 3 0)
  = (demo.d1 pending 3 0, Some (toast_default "Success!")).
Proof.
  apply (X5_verdict_without_rights_is_silent (demo.d1 pending 3 0) demo.mia 301%N approved).
  - reflexivity.
  - reflexivity.
Defined.

Lemma X6_witness :
  let d := demo.d1 pending 3 0 in
  let approved_ := OfficerDashboard.updateAttendanceStatus (Some demo.ole) 301%N approved d in
  let denied_ :=
    OfficerDashboard.updateAttendanceStatus (Some demo.ole) 301%N denied (fst approved_) in
  snd approved_ = Some (toast_default "Success!")
  /\ public_profiles (fst approved_) =
     map (fun p => if N.eqb (profiles.user_id p) demo.mia
                   then profiles.with_total_hours (profiles.total_hours p + 3) p
                   else p) (public_profiles d)
  /\ snd denied_ = Some (toast_default "Success!")
  /\ public_profiles (fst denied_) = public_profiles d.
Proof.
  intros d approved_ denied_.
  apply (X6_approve_then_deny_restores d demo.ole (demo.signup pending 3) 3).
  - reflexivity.
  - simpl. left. reflexivity.
  - reflexivity.
  - discriminate.
  - reflexivity.
  - lia.
  - reflexivity.
  - intros p Hp _. simpl in Hp.
    destruct Hp as [<- | [<- | [<- | []]]]; vm_compute; discriminate.
Defined.

Lemma X7_witness :
  let d' := fst (request (auth_users_insert 104%N sample.noa) demo.d0) in
  request (auth_users_insert 104%N sample.noa) demo.d0 = (d', inr 1)
  /\ auth_users d' = (auth_users demo.d0 ++ [sample.noa])%list
  /\ public_profiles d' =
     (public_profiles demo.d0 ++ [profiles.mk 104%N 4%N "" "noa@ices.org" member 0%Z])%list
  /\ policy.get_current_user_role d' (Some 4%N) = Some member.
Proof.
  apply (X7_new_user_is_member demo.d0 104%N sample.noa).
  - reflexivity.
  - reflexivity.
  - intros p Hp. simpl in Hp.
    destruct Hp as [<- | [<- | [<- | []]]]; discriminate.
Defined.

Lemma X8_witness :
  step demo.d0
    (None, 301%N,
     InsertAttendance (attendance.val None (Some 201%N) (Some demo.mia) None
                                      (Some (Some 3%Z)) None))
  = demo.d0.
Proof.
  apply X8_anonymous_writes_nothing.
  - reflexivity.
  - intros NEW. discriminate.
Defined.

Lemma X9_witness :
  (policy.events_insert demo.d0 (Some demo.ole) = true <->
   policy.get_current_user_role demo.d0 (Some demo.ole) = Some admin)
  /\ policy.attendance_update demo.d0 (Some demo.ole) = true.
Proof.
  pose proof (X9_policies_follow_the_role demo.d0 (Some demo.ole) eq_refl) as H.
  split; [exact (proj1 H) | exact (proj1 (proj2 (proj2 (proj2 H))))].
Defined.

Lemma X10_witness :
  MemberDashboard.signUpForEvent (Some demo.mia) 301%N 999%N 3 demo.d0
  = (demo.d0, Some (toast_destructive (foreign_key_violation "attendance_event_id_fkey"))).
Proof.
  apply X10_sign_up_needs_the_event.
  - reflexivity.
  - reflexivity.
  - reflexivity.
  - simpl. intros a [].
Defined.

Lemma X12_witness :
  exists NEW,
    demo.d1 approved 3 0 = with_attendance (public_attendance demo.d0 ++ [NEW]) demo.d0
    /\ Some demo.mia = Some (attendance.user_id NEW)
    /\ attendance.status NEW = approved.
Proof.
  apply (X12_insert_is_own_and_credits_nothing demo.d0 (demo.d1 approved 3 0)
           (Some demo.mia) 301%N
           (attendance.val None (Some 201%N) (Some demo.mia) (Some approved)
                           (Some (Some 3%Z)) None) 1).
  vm_compute. reflexivity.
Defined.

Lemma X13_witness :
  let d' := fst (request (profiles_update (Some demo.ada) (fun _ => true)
                            (profiles.set None None None None (Some member) None))
                         demo.d0) in
  map profiles.role (public_profiles d') = [member; officer; member]
  /\ map profiles.user_id (public_profiles d') = map profiles.user_id (public_profiles demo.d0).
Proof.
  intros d'. split; [reflexivity |].
  apply (X13_profile_update_is_own demo.d0 d' (Some demo.ada) (fun _ => true)
           (profiles.set None None None None (Some member) None) 1).
  vm_compute. reflexivity.
Defined.

Lemma X14_witness :
  let r := MemberDashboard.onClick_SignUp (Some demo.mia) 301%N demo.cleanup demo.d0 in
  snd r = Some (toast_default "Success!")
  /\ MemberView.isSignedUp (MemberView.myAttendance (Some demo.mia) (fst r)) 201%N = true.
Proof.
  apply (X14_sign_up_shows_as_signed_up demo.d0 demo.mia 301%N demo.cleanup).
  - reflexivity.
  - reflexivity.
  - simpl. left. reflexivity.
  - simpl. intros a [].
  - reflexivity.
Defined.

Lemma X15_witness :
  let r := AdminDashboard.handleEventSubmit (Some demo.ada) 0%N (Some demo.cleanup)
             (AdminView.openEditDialog demo.cleanup) demo.d0 in
  events.description demo.cleanup = None
  /\ snd r = Some (toast_default "Event updated successfully!")
  /\ map events.description (public_events (fst r)) = [Some ""].
Proof.
  intros r. split; [reflexivity |].
  destruct (X15_unchanged_edit_fills_description demo.d0 demo.ada 0%N demo.cleanup
              eq_refl eq_refl (or_introl eq_refl)) as [Ht _].
  split; [exact Ht | reflexivity].
Defined.

Lemma X16_witness :
  let d := demo.d1 pending 3 0 in
  let d' := fst (OfficerDashboard.updateAttendanceStatus (Some demo.ole) 301%N approved d) in
  map OfficerView.row (OfficerView.pendingAttendance (Some demo.ole) d) = [demo.signup pending 3]
  /\ map OfficerView.row (OfficerView.pendingAttendance (Some demo.ole) d')
     = filter (fun a => negb (N.eqb (attendance.id a) 301%N))
              (map OfficerView.row (OfficerView.pendingAttendance (Some demo.ole) d)).
Proof.
  intros d d'. split; [reflexivity |].
  apply (X16_verdict_leaves_the_review_list d d' demo.ole (demo.signup pending 3) approved).
  - reflexivity.
  - simpl. left. reflexivity.
  - reflexivity.
  - discriminate.
  - vm_compute. reflexivity.
Defined.

Lemma X17_witness :
  map profiles.total_hours (public_profiles (run sample.sign_up_and_approve demo.d0))
  = [0; 0; 3]%Z
  /\ profiles.total_hours (sample.mia_profile 3)
     = credited (profiles.user_id (sample.mia_profile 3))
                (public_attendance (run sample.sign_up_and_approve demo.d0)).
Proof.
  split; [vm_compute; reflexivity |].
  apply (X17_totals_are_the_approved_hours sample.sign_up_and_approve demo.d0).
  - repeat constructor; simpl; try discriminate; lia.
  - split; [reflexivity |]. split.
    + intros a [].
    + intros p Hp. simpl in Hp. destruct Hp as [<- | [<- | [<- | []]]]; reflexivity.
  - vm_compute. right. right. left. reflexivity.
Defined.

Lemma X18_witness :
  exists e,
    OfficerView.getEventById [demo.cleanup] (attendance.event_id (demo.signup pending 3))
    = Some e
    /\ In e (public_events (demo.d1 pending 3 0))
    /\ events.id e = attendance.event_id (demo.signup pending 3)
    /\ (forall e', In e' (public_events (demo.d1 pending 3 0)) ->
                   events.id e' = attendance.event_id (demo.signup pending 3) -> e' = e).
Proof.
  apply (X18_review_list_finds_the_event (demo.d1 pending 3 0) (Some demo.ole)
           [demo.cleanup] (demo.signup pending 3)).
  - reflexivity.
  - apply Permutation_refl.
  - simpl. left. reflexivity.
Defined.

Lemma X19_witness :
  AdminView.totalHours (public_profiles (demo.d1 pending 3 4)) = 4%Z
  /\ AdminView.totalHours
       (rev (public_profiles
               (fst (OfficerDashboard.updateAttendanceStatus
                       (Some demo.ole) 301%N approved (demo.d1 pending 3 4)))))
     = (AdminView.totalHours (public_profiles (demo.d1 pending 3 4)) + 3)%Z.
Proof.
  split; [reflexivity |].
  apply (X19_approval_raises_the_total_hours_card (demo.d1 pending 3 4) demo.ole demo.ada
           (demo.signup pending 3) 3 (sample.mia_profile 4)).
  - reflexivity.
  - simpl. left. reflexivity.
  - reflexivity.
  - discriminate.
  - reflexivity.
  - simpl. right. right. left. reflexivity.
  - reflexivity.
  - reflexivity.
  - reflexivity.
  - apply Permutation_refl.
  - apply Permutation_sym, Permutation_rev.
Defined.

Lemma X20_witness :
  map profiles.role (public_profiles demo.d0) = [admin; officer; member]
  /\ exists created,
       map owner_role
           (public_profiles (step demo.d0 (None, 104%N, InsertUser sample.noa)))
       = (map owner_role (public_profiles demo.d0) ++ created)%list
       /\ (forall x, In x created -> snd x = member)
       /\ (forall uid r,
             policy.get_current_user_role demo.d0 uid = Some r ->
             policy.get_current_user_role
               (step demo.d0 (None, 104%N, InsertUser sample.noa)) uid = Some r)
       /\ (forall (viewer : uuid) (before after : list profiles.row),
             policy.get_current_user_role demo.d0 (Some viewer) = Some admin ->
             Permutation before (select_profiles (Some viewer) (fun _ => true) demo.d0) ->
             Permutation after
               (select_profiles (Some viewer) (fun _ => true)
                  (step demo.d0 (None, 104%N, InsertUser sample.noa))) ->
             AdminView.officers after = AdminView.officers before).
Proof.
  split; [reflexivity |].
  apply (X20_roles_change_by_profile_writes_only demo.d0
           (None, 104%N, InsertUser sample.noa)).
  - intros v. discriminate.
  - intros w s. discriminate.
Defined.
